(** * Anandak Assessment: wizard, scoring hand-off, certificate and
      routes

    A shallow embedding of the TypeScript sources
    (components/assessment-step.tsx, aptitude-insight-app.tsx,
    results-step.tsx, certificate.tsx, user-info-step.tsx,
    app/certificate/page.tsx, app/api/log/route.ts,
    app/api/transliterate/route.ts and the keep-alive route) together
    with the properties the specification states about them and further
    properties read off the code. The catalog, the feedback functions and
    the state table of lib/ are parameters. *)

From Stdlib Require Import ZArith NArith List String Ascii Bool Lia QArith.
From Stdlib Require Import DecimalString.
From Stdlib Require DecimalZ.
Import ListNotations.
Local Open Scope string_scope.
Local Open Scope list_scope.
Local Open Scope Z_scope.
Set Warnings "-register-all".

(** ** JavaScript values used by the components *)

Module Js.

(** A JavaScript number as the components use it for scores: an integer,
    or [NaN] when [parseInt] finds no digits. The arithmetic on [Num] is
    exact, as the engine's is on the safe integers (see [safe] below). *)
Inductive number : Type :=
| NaN
| Num (z : Z).

Definition add (a b : number) : number :=
  match a, b with
  | Num x, Num y => Num (x + y)
  | _, _ => NaN
  end.

(** [Number.isSafeInteger(n)]: the integers every one of which a number
    holds exactly, and which [String] prints digit by digit. *)
Definition safe (z : Z) : Prop := Z.abs z < 2 ^ 53.

(** [String(n)] for a safe integer [n]: its decimal digits. *)
Definition String_of (z : Z) : string :=
  NilZero.string_of_int (Z.to_int z).

(** Strings are held as the bytes of their UTF-8 encoding. [utf8 cp] is
    the encoding of the code point [cp]. *)
Definition utf8 (cp : N) : string :=
  let byte (n : N) := String (ascii_of_N n) EmptyString in
  let next (n : N) := byte (128 + n mod 64)%N in
  if (cp <? 128)%N then byte cp
  else if (cp <? 2048)%N then String.append (byte (192 + cp / 64)%N) (next cp)
  else if (cp <? 65536)%N then
    String.append (byte (224 + cp / 4096)%N)
      (String.append (next (cp / 64)%N) (next cp))
  else
    String.append (byte (240 + cp / 262144)%N)
      (String.append (next (cp / 4096)%N)
         (String.append (next (cp / 64)%N) (next cp))).

(** A byte [10xxxxxx] continues the character begun before it. *)
Definition continues (c : ascii) : bool :=
  ((128 <=? N_of_ascii c) && (N_of_ascii c <? 192))%N.

(** The bytes that continue the character before [s], and the characters
    after them. *)
Fixpoint chars_from (s : string) : string * list string :=
  match s with
  | EmptyString => (EmptyString, [])
  | String c r =>
      let '(more, rest) := chars_from r in
      if continues c then (String c more, rest)
      else (EmptyString, String c more :: rest)
  end.

(** The characters (code points) of a string, each as its bytes. *)
Definition chars (s : string) : list string :=
  match chars_from s with
  | (EmptyString, cs) => cs
  | (stray, cs) => stray :: cs
  end.

Definition join (cs : list string) : string :=
  fold_right String.append EmptyString cs.

(** The UTF-16 code units a character takes: two outside the basic plane
    (a four-byte encoding), one otherwise. *)
Definition units (ch : string) : nat :=
  match ch with
  | String c _ => if (240 <=? N_of_ascii c)%N then 2%nat else 1%nat
  | EmptyString => 0%nat
  end.

(** [s.length]: the number of UTF-16 code units. *)
Definition length (s : string) : nat := list_sum (map units (chars s)).

(** WhiteSpace and LineTerminator of ECMAScript, which [trim] removes and
    [parseInt] skips: TAB, LF, VT, FF, CR, SP, NBSP, the other space
    separators of Unicode, LS, PS and ZWNBSP. *)
Definition whiteSpaceCodePoints : list N :=
  [0x9; 0xA; 0xB; 0xC; 0xD; 0x20; 0xA0; 0x1680;
   0x2000; 0x2001; 0x2002; 0x2003; 0x2004; 0x2005; 0x2006; 0x2007;
   0x2008; 0x2009; 0x200A; 0x2028; 0x2029; 0x202F; 0x205F; 0x3000;
   0xFEFF]%N.

Definition isWhite (ch : string) : bool :=
  existsb (fun cp => String.eqb ch (utf8 cp)) whiteSpaceCodePoints.

Fixpoint dropWhile {A : Type} (p : A -> bool) (l : list A) : list A :=
  match l with
  | x :: r => if p x then dropWhile p r else l
  | [] => []
  end.

(** Whether some white-space character begins with the byte [c]. *)
Definition startsWhite (c : ascii) : bool :=
  existsb (fun cp => match utf8 cp with
                     | String w _ => Ascii.eqb c w
                     | EmptyString => false
                     end) whiteSpaceCodePoints.

Definition digit_of (c : ascii) : option Z :=
  let n := nat_of_ascii c in
  if (Nat.leb 48 n && Nat.leb n 57)%bool then Some (Z.of_nat (n - 48)) else None.

Definition skip_white (s : string) : string :=
  join (dropWhile isWhite (chars s)).

(** The longest prefix of decimal digits, folded into [acc]; [seen] records
    whether any digit was read. *)
Fixpoint digits (s : string) (acc : Z) (seen : bool) : option Z :=
  match s with
  | String c r =>
      match digit_of c with
      | Some d => digits r (10 * acc + d) true
      | None => if seen then Some acc else None
      end
  | EmptyString => if seen then Some acc else None
  end.

(** [parseInt(s, 10)]: leading white space is skipped, one sign is read,
    then the longest run of digits; no digit at all gives [NaN]. The value
    is that of the digits, which is what the engine returns when it is a
    safe integer. *)
Definition parseInt (s : string) : number :=
  match skip_white s with
  | String "-" r =>
      match digits r 0 false with Some v => Num (- v) | None => NaN end
  | String "+" r =>
      match digits r 0 false with Some v => Num v | None => NaN end
  | r =>
      match digits r 0 false with Some v => Num v | None => NaN end
  end.

(** [a || b] on strings that may be undefined: the empty string is falsy. *)
Definition or_else (a : option string) (b : string) : string :=
  match a with
  | Some (String c r) => String c r
  | _ => b
  end.

End Js.

(** ** The static catalog types of lib/assessment-data *)

Inductive Language : Type := en | hi.

Inductive Trait : Type :=
| Gratitude | Resilience | Empathy | Sociability | SocialCognition | Courage.

Definition Trait_eqb (a b : Trait) : bool :=
  match a, b with
  | Gratitude, Gratitude | Resilience, Resilience | Empathy, Empathy
  | Sociability, Sociability | SocialCognition, SocialCognition
  | Courage, Courage => true
  | _, _ => false
  end.

Record Bilingual : Type := { text_en : string; text_hi : string }.

Definition pick (l : Language) (b : Bilingual) : string :=
  match l with en => text_en b | hi => text_hi b end.

Record QOption : Type := { text : Bilingual; score : Z }.

Record Question : Type :=
  { id : Z; trait : Trait; questionText : Bilingual; options : list QOption }.

(** ** assessment-step.tsx *)

Record AnswerDetail : Type :=
  { a_id : Z; a_trait : Trait; a_score : Js.number; a_feedback : string }.

Inductive ToastVariant : Type := default_variant | destructive.

Record ToastMsg : Type :=
  { title : string; description : string; variant : ToastVariant }.

(** The strings of [translations[lang]] the modelled components read. *)
Record Translations : Type :=
  { assessment_toast_title : string;
    assessment_toast_description : string;
    cert_traits : Trait -> string;
    cert_score : string;
    cert_finalAssessment : string -> string }.

Module AssessmentStep.

Record State : Type :=
  { showInstructions : bool;
    currentQuestionIndex : nat;
    answers : list AnswerDetail;
    selectedOption : option string;
    currentFeedback : option string }.

(** What a handler does besides updating the component state. *)
Inductive Effect : Type :=
| toast (m : ToastMsg)
| onComplete (data : list AnswerDetail).

(** The result of running a handler: [Threw] is an uncaught TypeError
    (reading a property of an undefined [currentQuestion], which the
    render of the same component would have hit first). *)
Inductive Outcome : Type :=
| Threw
| Returned (st : State) (effs : list Effect).

Definition initial : State :=
  {| showInstructions := true; currentQuestionIndex := 0; answers := [];
     selectedOption := None; currentFeedback := None |}.

Section Handlers.

Variable questions : list Question.
Variable translations : Language -> Translations.
Variable getIndividualFeedback : Trait -> Js.number -> Language -> string.
Variable lang : Language.

Definition currentQuestion (st : State) : option Question :=
  nth_error questions (currentQuestionIndex st).

Definition beginAssessment (st : State) : State :=
  {| showInstructions := false;
     currentQuestionIndex := currentQuestionIndex st;
     answers := answers st;
     selectedOption := selectedOption st;
     currentFeedback := currentFeedback st |}.

Definition handleOptionChange (value : string) (st : State) : Outcome :=
  let score := Js.parseInt value in
  match currentQuestion st with
  | None => Threw
  | Some q =>
      let feedback := getIndividualFeedback (trait q) score lang in
      Returned
        {| showInstructions := showInstructions st;
           currentQuestionIndex := currentQuestionIndex st;
           answers := answers st;
           selectedOption := Some value;
           currentFeedback := Some feedback |}
        []
  end.

(** The toast of [handleNext]: [t.toast.title], [t.toast.description]. *)
Definition selectionRequired : ToastMsg :=
  {| title := assessment_toast_title (translations lang);
     description := assessment_toast_description (translations lang);
     variant := destructive |}.

Definition handleNext (st : State) : Outcome :=
  match selectedOption st with
  | None => Returned st [toast selectionRequired]
  | Some sel =>
      let score := Js.parseInt sel in
      match currentQuestion st with
      | None => Threw
      | Some q =>
          let newAnswer :=
            {| a_id := id q; a_trait := trait q; a_score := score;
               a_feedback := getIndividualFeedback (trait q) score en |} in
          let newAnswers := answers st ++ [newAnswer] in
          if Z.of_nat (currentQuestionIndex st) <? Z.of_nat (List.length questions) - 1 then
            Returned
              {| showInstructions := showInstructions st;
                 currentQuestionIndex := (currentQuestionIndex st + 1)%nat;
                 answers := newAnswers;
                 selectedOption := None;
                 currentFeedback := None |}
              []
          else
            Returned
              {| showInstructions := showInstructions st;
                 currentQuestionIndex := currentQuestionIndex st;
                 answers := newAnswers;
                 selectedOption := selectedOption st;
                 currentFeedback := currentFeedback st |}
              [onComplete newAnswers]
      end
  end.

(** The user picks the radio button with value [value] and presses Next. *)
Definition answer (value : string) (st : State) : Outcome :=
  match handleOptionChange value st with
  | Threw => Threw
  | Returned st1 effs1 =>
      match handleNext st1 with
      | Threw => Threw
      | Returned st2 effs2 => Returned st2 (effs1 ++ effs2)
      end
  end.

Fixpoint answerAll (values : list string) (st : State) : Outcome :=
  match values with
  | [] => Returned st []
  | v :: rest =>
      match answer v st with
      | Threw => Threw
      | Returned st1 effs1 =>
          match answerAll rest st1 with
          | Threw => Threw
          | Returned st2 effs2 => Returned st2 (effs1 ++ effs2)
          end
      end
  end.

End Handlers.

End AssessmentStep.

(** ** user-info-step.tsx *)

Inductive Gender : Type := Male | Female | Other | PreferNotToSay.

Definition Gender_of_string (s : string) : option Gender :=
  if String.eqb s "Male" then Some Male
  else if String.eqb s "Female" then Some Female
  else if String.eqb s "Other" then Some Other
  else if String.eqb s "Prefer not to say" then Some PreferNotToSay
  else None.

(** [z.infer<typeof formSchema>]: what validation hands to [onSubmit]. *)
Record UserInfo : Type :=
  { name : string;
    name_hi : string;
    age : Q;
    gender : Gender;
    countryCode : string;
    mobile : string;
    email : option string;
    state : string;
    district : string }.

(** An entry of [statesWithDistricts] (lib/indian-states-districts). *)
Record StateEntry : Type := { se_state : string; se_districts : list string }.

Module UserInfoStep.

(** The values held by the form; [None] is [undefined]. *)
Record FormValues : Type :=
  { v_name : string;
    v_name_hi : string;
    v_age : option Q;
    v_gender : option string;
    v_countryCode : string;
    v_mobile : string;
    v_email : option string;
    v_state : option string;
    v_district : option string }.

Inductive Field : Type :=
| f_name | f_name_hi | f_age | f_gender | f_countryCode | f_mobile
| f_email | f_state | f_district.

Definition Issue : Type := (Field * string)%type.

Inductive ParseResult : Type :=
| success (data : UserInfo)
| failure (issues : list Issue).

Definition defaultValues : FormValues :=
  {| v_name := ""; v_name_hi := ""; v_age := None; v_gender := None;
     v_countryCode := "+91"; v_mobile := ""; v_email := Some "";
     v_state := Some "Madhya Pradesh"; v_district := None |}.

(** [z.string().min(n, {message})]: zod compares [s.length] with [n]. *)
Definition min_len (n : nat) (f : Field) (msg : string) (s : string) : list Issue :=
  if Nat.leb n (Js.length s) then [] else [(f, msg)].

(** [z.string({required_error}).min(1, {message})] on a value that may be
    undefined. *)
Definition required_min1 (f : Field) (msg : string) (v : option string) : list Issue :=
  match v with
  | None => [(f, msg)]
  | Some s => min_len 1 f msg s
  end.

Section Schema.

(** The e-mail test of [z.string().email()] belongs to the zod library. *)
Variable is_email : string -> bool.

Definition check_age (v : option Q) : list Issue :=
  match v with
  | None => [(f_age, "Expected number, received nan")]
  | Some q =>
      (if Qle_bool (inject_Z 1) q then [] else [(f_age, "Please enter your age.")])
      ++ (if Qle_bool q (inject_Z 120) then [] else [(f_age, "Please enter a valid age.")])
  end.

Definition check_gender (v : option string) : list Issue :=
  match v with
  | None => [(f_gender, "Please select your gender.")]
  | Some s =>
      match Gender_of_string s with
      | Some _ => []
      | None => [(f_gender, "Invalid enum value")]
      end
  end.

(** [z.string().email(..).optional().or(z.literal(''))] *)
Definition check_email (v : option string) : list Issue :=
  match v with
  | None => []
  | Some s =>
      if is_email s then []
      else if String.eqb s "" then []
      else [(f_email, "Please enter a valid email.")]
  end.

Definition issues_of (v : FormValues) : list Issue :=
  min_len 2 f_name "Name must be at least 2 characters." (v_name v)
  ++ min_len 1 f_name_hi "कृपया हिंदी में नाम दर्ज करें।" (v_name_hi v)
  ++ check_age (v_age v)
  ++ check_gender (v_gender v)
  ++ min_len 1 f_countryCode "Please select country code." (v_countryCode v)
  ++ min_len 1 f_mobile "Please enter your mobile number." (v_mobile v)
  ++ check_email (v_email v)
  ++ required_min1 f_state "Please select your state/UT." (v_state v)
  ++ required_min1 f_district "Please select your district." (v_district v).

(** [formSchema.safeParse(values)] *)
Definition formSchema (v : FormValues) : ParseResult :=
  match issues_of v with
  | [] =>
      match v_age v, option_map Gender_of_string (v_gender v), v_state v, v_district v with
      | Some a, Some (Some g), Some st, Some d =>
          success
            {| name := v_name v; name_hi := v_name_hi v; age := a; gender := g;
               countryCode := v_countryCode v; mobile := v_mobile v;
               email := v_email v; state := st; district := d |}
      | _, _, _, _ => failure []
      end
  | iss => failure iss
  end.

Variable statesWithDistricts : list StateEntry.

(** [const states = statesWithDistricts.map(s => ...)]: the state picker's items. *)
Definition states : list string := map se_state statesWithDistricts.

(** [statesWithDistricts.find(s => s.state === selectedState)] *)
Definition findState (selected : string) : option StateEntry :=
  find (fun s => String.eqb (se_state s) selected) statesWithDistricts.

Record State : Type :=
  { values : FormValues;
    districts : list string;
    errors : list Issue }.

Definition with_state (v : FormValues) (s : option string) : FormValues :=
  {| v_name := v_name v; v_name_hi := v_name_hi v; v_age := v_age v;
     v_gender := v_gender v; v_countryCode := v_countryCode v;
     v_mobile := v_mobile v; v_email := v_email v;
     v_state := s; v_district := v_district v |}.

Definition with_district (v : FormValues) (d : option string) : FormValues :=
  {| v_name := v_name v; v_name_hi := v_name_hi v; v_age := v_age v;
     v_gender := v_gender v; v_countryCode := v_countryCode v;
     v_mobile := v_mobile v; v_email := v_email v;
     v_state := v_state v; v_district := d |}.

(** The effect on [selectedState]: it recomputes the district items and
    resets the district field to its default, [undefined]. *)
Definition stateEffect (st : State) : State :=
  match v_state (values st) with
  | Some (String c r) =>
      let selected := String c r in
      {| values := with_district (values st) None;
         districts :=
           match findState selected with
           | Some stateData => se_districts stateData
           | None => []
           end;
         errors := errors st |}
  | _ => {| values := values st; districts := []; errors := errors st |}
  end.

Definition mount : State :=
  stateEffect {| values := defaultValues; districts := []; errors := [] |}.

Definition same_state (a b : option string) : bool :=
  match a, b with
  | Some x, Some y => String.eqb x y
  | None, None => true
  | _, _ => false
  end.

(** What the user can do on the form. The pickers offer the rendered items
    only: [pickState i] and [pickDistrict i] click the [i]-th item. *)
Inductive Action : Type :=
| typeName (s : string)
| setNameHi (s : string)
| setAge (a : option Q)
| pickGender (g : string)
| pickCountryCode (c : string)
| typeMobile (s : string)
| typeEmail (s : string)
| pickState (i : nat)
| pickDistrict (i : nat).

Definition edit (a : Action) (st : State) : State :=
  let v := values st in
  let keep (v' : FormValues) :=
    {| values := v'; districts := districts st; errors := errors st |} in
  match a with
  | typeName s =>
      keep {| v_name := s; v_name_hi := v_name_hi v; v_age := v_age v;
              v_gender := v_gender v; v_countryCode := v_countryCode v;
              v_mobile := v_mobile v; v_email := v_email v;
              v_state := v_state v; v_district := v_district v |}
  | setNameHi s =>
      keep {| v_name := v_name v; v_name_hi := s; v_age := v_age v;
              v_gender := v_gender v; v_countryCode := v_countryCode v;
              v_mobile := v_mobile v; v_email := v_email v;
              v_state := v_state v; v_district := v_district v |}
  | setAge a' =>
      keep {| v_name := v_name v; v_name_hi := v_name_hi v; v_age := a';
              v_gender := v_gender v; v_countryCode := v_countryCode v;
              v_mobile := v_mobile v; v_email := v_email v;
              v_state := v_state v; v_district := v_district v |}
  | pickGender g =>
      keep {| v_name := v_name v; v_name_hi := v_name_hi v; v_age := v_age v;
              v_gender := Some g; v_countryCode := v_countryCode v;
              v_mobile := v_mobile v; v_email := v_email v;
              v_state := v_state v; v_district := v_district v |}
  | pickCountryCode c =>
      keep {| v_name := v_name v; v_name_hi := v_name_hi v; v_age := v_age v;
              v_gender := v_gender v; v_countryCode := c;
              v_mobile := v_mobile v; v_email := v_email v;
              v_state := v_state v; v_district := v_district v |}
  | typeMobile s =>
      keep {| v_name := v_name v; v_name_hi := v_name_hi v; v_age := v_age v;
              v_gender := v_gender v; v_countryCode := v_countryCode v;
              v_mobile := s; v_email := v_email v;
              v_state := v_state v; v_district := v_district v |}
  | typeEmail s =>
      keep {| v_name := v_name v; v_name_hi := v_name_hi v; v_age := v_age v;
              v_gender := v_gender v; v_countryCode := v_countryCode v;
              v_mobile := v_mobile v; v_email := Some s;
              v_state := v_state v; v_district := v_district v |}
  | pickState i =>
      match nth_error states i with
      | None => st
      | Some s =>
          let st' := keep (with_state v (Some s)) in
          if same_state (v_state v) (Some s) then st' else stateEffect st'
      end
  | pickDistrict i =>
      match nth_error (districts st) i with
      | None => st
      | Some d => keep (with_district v (Some d))
      end
  end.

(** [form.handleSubmit(handleFormSubmit)]: the resolver validates; only
    valid values reach [onSubmit]. *)
Definition handleSubmit (st : State) : State * option UserInfo :=
  match formSchema (values st) with
  | success data =>
      ({| values := values st; districts := districts st; errors := [] |}, Some data)
  | failure iss =>
      ({| values := values st; districts := districts st; errors := iss |}, None)
  end.

(** The districts the lookup table gives for a state. *)
Definition districtsOf (s : string) : list string :=
  match findState s with
  | Some stateData => se_districts stateData
  | None => []
  end.

End Schema.

End UserInfoStep.

(** ** results-step.tsx *)

(** [certificateData], the object written to localStorage. *)
Record CertificateData : Type :=
  { c_user : UserInfo;
    c_assessmentData : list AnswerDetail;
    c_finalAssessmentText : string;
    c_date : string }.

(** [submissionData], the body of the POST to /api/log. *)
Record SubmissionData : Type :=
  { s_name : string;
    s_name_hi : string;
    s_age : Q;
    s_gender : Gender;
    s_mobile : string;
    s_email : string;
    s_countryCode : string;
    s_state : string;
    s_district : string;
    s_assessmentData : list AnswerDetail;
    s_totalScore : Js.number;
    s_finalAssessmentText : string;
    s_date : string }.

(** Everything the wizard does to the outside world. *)
Inductive Effect : Type :=
| toast (m : ToastMsg)
| localStorage_setItem (key : string) (data : CertificateData)
| fetch_log (body : SubmissionData)
| console_error (what : string)
| console_log (what : string)
| router_push (path : string)
| uncaught_error.

(** The JSON body the log route answers with, as far as it is read. *)
Record LogResult : Type :=
  { r_error : option string; r_details : option string }.

(** How the POST to /api/log ends. *)
Inductive FetchOutcome : Type :=
| fetch_rejected (message : string)
| json_rejected (message : string)
| responded (ok : bool) (result : option LogResult).

Module ResultsStep.

Record Props : Type :=
  { p_score : Js.number;
    p_userData : UserInfo;
    p_assessmentData : list AnswerDetail;
    p_lang : Language }.

(** What the card shows. *)
Record View : Type :=
  { insight : string;
    certificateButton : Effect }.

Section Component.

Variable getFinalFeedback : Js.number -> Language -> string.
Variable getFinalAssessment : string -> Language -> string.
(** [new Date().toLocaleDateString('en-US', ...)] when the effect runs. *)
Variable today : string.
(** Whether [localStorage.setItem] throws (quota, private mode). *)
Variable storageThrows : bool.

Definition certificateData (p : Props) : CertificateData :=
  {| c_user := p_userData p;
     c_assessmentData := p_assessmentData p;
     c_finalAssessmentText :=
       getFinalAssessment (getFinalFeedback (p_score p) en) en;
     c_date := today |}.

Definition submissionData (p : Props) : SubmissionData :=
  let userData := p_userData p in
  {| s_name := name userData;
     s_name_hi := name_hi userData;
     s_age := age userData;
     s_gender := gender userData;
     s_mobile := mobile userData;
     s_email := Js.or_else (email userData) "";
     s_countryCode := countryCode userData;
     s_state := state userData;
     s_district := district userData;
     s_assessmentData := p_assessmentData p;
     s_totalScore := p_score p;
     s_finalAssessmentText :=
       getFinalAssessment (getFinalFeedback (p_score p) en) en;
     s_date := today |}.

(** The body of [useEffect]: [hasLoggedRef] in, [hasLoggedRef] out. *)
Definition effect (p : Props) (hasLoggedRef : bool) : bool * list Effect :=
  if hasLoggedRef then (hasLoggedRef, [])
  else
    (true,
     (if storageThrows then
        [console_error "Could not save certificate data to localStorage";
         toast {| title := "Could not save certificate";
                  description := "There was an issue preparing your certificate data.";
                  variant := destructive |}]
      else [localStorage_setItem "anandakAssessmentCertificate" (certificateData p)])
     ++ [fetch_log (submissionData p)]).

Definition failed (message : string) : list Effect :=
  [console_error "Failed to log submission:";
   toast {| title := "Data Submission Failed";
            description :=
              String.append
                "Your assessment results could not be saved. Reason: " message;
            variant := destructive |}].

(** The rest of [logSubmission], once the request has settled. *)
Definition settle (o : FetchOutcome) : list Effect :=
  match o with
  | fetch_rejected message => failed message
  | json_rejected message => failed message
  | responded true _ => [console_log "Submission logged successfully:"]
  | responded false (Some result) =>
      failed (Js.or_else (r_error result)
                (Js.or_else (r_details result) "Failed to log submission"))
  | responded false None =>
      failed "Cannot read properties of null (reading 'error')"
  end.

Definition handleViewCertificate : Effect := router_push "/certificate".

Definition view (p : Props) : View :=
  {| insight := getFinalFeedback (p_score p) (p_lang p);
     certificateButton := handleViewCertificate |}.

End Component.

End ResultsStep.

(** ** aptitude-insight-app.tsx *)

Module App.

Inductive Step : Type := language | info | assessment | results.

(** The child component mounted under [<div key={step}>], with its own
    state; a change of [step] mounts a fresh child. *)
Inductive Screen : Type :=
| language_screen
| info_screen (form : UserInfoStep.State)
| assessment_screen (quiz : AssessmentStep.State)
| results_screen (hasLoggedRef : option bool).

Record State : Type :=
  { lang : Language;
    userData : option UserInfo;
    assessmentData : list AnswerDetail;
    screen : Screen;
    inflight : nat }.

Definition step (s : State) : Step :=
  match screen s with
  | language_screen => language
  | info_screen _ => info
  | assessment_screen _ => assessment
  | results_screen _ => results
  end.

Definition initial : State :=
  {| lang := en; userData := None; assessmentData := [];
     screen := language_screen; inflight := 0 |}.

(** [assessmentData.reduce((acc, val) => acc + val.score, 0)] *)
Definition totalScore (assessmentData : list AnswerDetail) : Js.number :=
  fold_left (fun acc val => Js.add acc (a_score val)) assessmentData (Js.Num 0).

Inductive Event : Type :=
| selectLanguage (l : Language)
| formEdit (a : UserInfoStep.Action)
| formSubmit
| beginAssessment
| optionChange (value : string)
| next
| rerender
| sinkSettled (o : FetchOutcome)
| viewCertificate.

Section Wizard.

Variable questions : list Question.
Variable translations : Language -> Translations.
Variable getIndividualFeedback : Trait -> Js.number -> Language -> string.
Variable getFinalFeedback : Js.number -> Language -> string.
Variable getFinalAssessment : string -> Language -> string.
Variable is_email : string -> bool.
Variable statesWithDistricts : list StateEntry.
Variable today : string.
Variable storageThrows : bool.

(** The props of [<ResultsStep>] in the ['results'] case of
    [getStepComponent]; [None] is the [return null] branch. *)
Definition resultsProps (s : State) : option ResultsStep.Props :=
  match userData s with
  | Some u =>
      Some {| ResultsStep.p_score := totalScore (assessmentData s);
              ResultsStep.p_userData := u;
              ResultsStep.p_assessmentData := assessmentData s;
              ResultsStep.p_lang := lang s |}
  | None => None
  end.

Definition count_fetch (effs : list Effect) : nat :=
  List.length (filter (fun e => match e with fetch_log _ => true | _ => false end) effs).

(** Runs the effect of the mounted [ResultsStep], if one is mounted. *)
Definition runResultsEffect (s : State) : State * list Effect :=
  match screen s, resultsProps s with
  | results_screen (Some ref), Some p =>
      let '(ref', effs) :=
        ResultsStep.effect getFinalFeedback getFinalAssessment today storageThrows p ref in
      ({| lang := lang s; userData := userData s;
          assessmentData := assessmentData s;
          screen := results_screen (Some ref');
          inflight := (inflight s + count_fetch effs)%nat |}, effs)
  | _, _ => (s, [])
  end.

Definition handleLanguageSelect (selectedLang : Language) (s : State) : State :=
  {| lang := selectedLang; userData := userData s;
     assessmentData := assessmentData s;
     screen := info_screen (UserInfoStep.mount statesWithDistricts);
     inflight := inflight s |}.

Definition handleInfoSubmit (data : UserInfo) (s : State) : State :=
  {| lang := lang s; userData := Some data;
     assessmentData := assessmentData s;
     screen := assessment_screen AssessmentStep.initial;
     inflight := inflight s |}.

Definition handleAssessmentComplete (data : list AnswerDetail) (s : State) : State :=
  {| lang := lang s; userData := userData s;
     assessmentData := data;
     screen := results_screen
                 (match userData s with Some _ => Some false | None => None end);
     inflight := inflight s |}.

Definition with_screen (s : State) (sc : Screen) : State :=
  {| lang := lang s; userData := userData s;
     assessmentData := assessmentData s; screen := sc;
     inflight := inflight s |}.

(** Carries out what an [AssessmentStep] handler asked for. *)
Fixpoint deliver (effs : list AssessmentStep.Effect) (s : State) : State * list Effect :=
  match effs with
  | [] => (s, [])
  | AssessmentStep.toast m :: rest =>
      let '(s', out) := deliver rest s in (s', toast m :: out)
  | AssessmentStep.onComplete data :: rest =>
      let '(s1, out1) := runResultsEffect (handleAssessmentComplete data s) in
      let '(s2, out2) := deliver rest s1 in
      (s2, out1 ++ out2)
  end.

Definition quizOutcome (s : State) (o : AssessmentStep.Outcome) : State * list Effect :=
  match o with
  | AssessmentStep.Threw => (s, [uncaught_error])
  | AssessmentStep.Returned quiz effs => deliver effs (with_screen s (assessment_screen quiz))
  end.

(** One user or environment event, handled by whichever component is
    mounted; an event no mounted component listens to changes nothing. *)
Definition react (s : State) (e : Event) : State * list Effect :=
  match screen s, e with
  | language_screen, selectLanguage l => (handleLanguageSelect l s, [])
  | info_screen form, formEdit a =>
      (with_screen s (info_screen (UserInfoStep.edit statesWithDistricts a form)), [])
  | info_screen form, formSubmit =>
      match UserInfoStep.handleSubmit is_email form with
      | (form', Some data) => (handleInfoSubmit data (with_screen s (info_screen form')), [])
      | (form', None) => (with_screen s (info_screen form'), [])
      end
  | assessment_screen quiz, beginAssessment =>
      (with_screen s (assessment_screen (AssessmentStep.beginAssessment quiz)), [])
  | assessment_screen quiz, optionChange value =>
      if AssessmentStep.showInstructions quiz then (s, [])
      else quizOutcome s
             (AssessmentStep.handleOptionChange questions getIndividualFeedback (lang s) value quiz)
  | assessment_screen quiz, next =>
      if AssessmentStep.showInstructions quiz then (s, [])
      else quizOutcome s
             (AssessmentStep.handleNext questions translations getIndividualFeedback (lang s) quiz)
  | results_screen _, rerender => runResultsEffect s
  | results_screen (Some _), sinkSettled o =>
      match inflight s with
      | O => (s, [])
      | S n =>
          ({| lang := lang s; userData := userData s;
              assessmentData := assessmentData s; screen := screen s;
              inflight := n |}, ResultsStep.settle o)
      end
  | results_screen (Some _), viewCertificate => (s, [ResultsStep.handleViewCertificate])
  | _, _ => (s, [])
  end.

Fixpoint run (s : State) (es : list Event) : State * list Effect :=
  match es with
  | [] => (s, [])
  | e :: rest =>
      let '(s1, out1) := react s e in
      let '(s2, out2) := run s1 rest in
      (s2, out1 ++ out2)
  end.

End Wizard.

End App.

(** ** certificate.tsx *)

Module Certificate.

(** A call into the feedback functions of lib/assessment-data made while
    rendering. *)
Inductive EngineCall : Type :=
| call_getIndividualFeedback (t : Trait) (s : Js.number) (l : Language)
| call_getFinalFeedback (s : Js.number) (l : Language)
| call_getFinalAssessment (feedback : string) (l : Language).

(** A rendered value together with the engine calls made to produce it. *)
Definition Traced (A : Type) : Type := (A * list EngineCall)%type.

Definition ret {A : Type} (a : A) : Traced A := (a, []).

Definition bind {A B : Type} (m : Traced A) (k : A -> Traced B) : Traced B :=
  let '(a, t1) := m in
  let '(b, t2) := k a in
  (b, t1 ++ t2).

Fixpoint mapT {A B : Type} (f : A -> Traced B) (l : list A) : Traced (list B) :=
  match l with
  | [] => ret []
  | x :: rest =>
      bind (f x) (fun y => bind (mapT f rest) (fun ys => ret (y :: ys)))
  end.

(** One entry of the detailed-results section. *)
Record Row : Type :=
  { row_key : Z;
    row_trait : string;
    row_scoreLabel : string;
    row_score : Js.number;
    row_feedback : string }.

(** One certificate page, [<div className="... cert-${lang} ...">]. *)
Record Page : Type :=
  { page_lang : Language;
    page_name : string;
    page_rows : list Row;
    page_summary : string }.

Inductive PrintMode : Type := print_all | print_en | print_hi.

Section Render.

Variable translations : Language -> Translations.
Variable getIndividualFeedback : Trait -> Js.number -> Language -> string.

Definition getIndividualFeedbackT (t : Trait) (s : Js.number) (l : Language) : Traced string :=
  (getIndividualFeedback t s l, [call_getIndividualFeedback t s l]).

Definition detailedResults (data : CertificateData) : list AnswerDetail :=
  filter (fun item => negb (Trait_eqb (a_trait item) Courage)) (c_assessmentData data).

Definition getPrefixedName (name : string) (g : Gender) : string :=
  match g with
  | Male => String.append "Mr. " name
  | Female => String.append "Ms. " name
  | _ => name
  end.

Definition getPrefixedNameHi (name_hi : string) (g : Gender) : string :=
  match g with
  | Male => String.append "श्री " name_hi
  | Female => String.append "सुश्री " name_hi
  | _ => name_hi
  end.

Definition renderRow (l : Language) (item : AnswerDetail) : Traced Row :=
  bind (getIndividualFeedbackT (a_trait item) (a_score item) l) (fun feedback =>
  ret {| row_key := a_id item;
         row_trait := cert_traits (translations l) (a_trait item);
         row_scoreLabel := cert_score (translations l);
         row_score := a_score item;
         row_feedback := feedback |}).

Definition CertificateContent (data : CertificateData) (l : Language) : Traced Page :=
  let u := c_user data in
  let prefixedName :=
    match l with
    | hi => getPrefixedNameHi (name_hi u) (gender u)
    | en => getPrefixedName (name u) (gender u)
    end in
  bind (mapT (renderRow l) (detailedResults data)) (fun rows =>
  ret {| page_lang := l;
         page_name := prefixedName;
         page_rows := rows;
         page_summary :=
           match l with
           | en => c_finalAssessmentText data
           | hi => cert_finalAssessment (translations hi) (c_finalAssessmentText data)
           end |}).

(** [<CertificateContent lang="en"/> <CertificateContent lang="hi"/>] *)
Definition Certificate (data : CertificateData) : Traced (list Page) :=
  bind (CertificateContent data en) (fun p_en =>
  bind (CertificateContent data hi) (fun p_hi =>
  ret [p_en; p_hi])).

(** The print style sheet: [body.print-mode-en .cert-hi { display: none }]
    and the converse; [print-mode-all] hides nothing. *)
Definition printed (mode : PrintMode) (pages : list Page) : list Page :=
  filter (fun p =>
            match mode, page_lang p with
            | print_en, hi => false
            | print_hi, en => false
            | _, _ => true
            end) pages.

End Render.

End Certificate.

(** ** app/api/log/route.ts *)

Module LogRoute.

Record FeedbackComment : Type := { fc_trait : Trait; fc_feedback : string }.

(** The row inserted into [assessment_submissions]. *)
Record DbRow : Type :=
  { db_name : string;
    db_name_hi : string;
    db_age : Q;
    db_gender : Gender;
    country_code : string;
    db_mobile : string;
    db_email : option string;
    db_state : string;
    db_district : string;
    total_score : Js.number;
    final_assessment : string;
    gratitude_score : Js.number;
    resilience_score : Js.number;
    empathy_score : Js.number;
    sociability_score : Js.number;
    social_cognition_score : Js.number;
    courage_score : Js.number;
    assessment_data : list AnswerDetail;
    feedback_comments : list FeedbackComment }.

(** [data.assessmentData?.find((a) => a.trait === t)?.score ?? 0] *)
Definition traitScore (t : Trait) (assessmentData : list AnswerDetail) : Js.number :=
  match find (fun a => Trait_eqb (a_trait a) t) assessmentData with
  | Some a => a_score a
  | None => Js.Num 0
  end.

(** [s || null]: the empty string becomes null. *)
Definition or_null (s : string) : option string :=
  match s with
  | EmptyString => None
  | _ => Some s
  end.

Definition saveAssessmentToSupabase (data : SubmissionData) : DbRow :=
  {| db_name := s_name data;
     db_name_hi := s_name_hi data;
     db_age := s_age data;
     db_gender := s_gender data;
     country_code := Js.or_else (Some (s_countryCode data)) "+91";
     db_mobile := Js.or_else (Some (s_mobile data)) "";
     db_email := or_null (s_email data);
     db_state := s_state data;
     db_district := s_district data;
     total_score := s_totalScore data;
     final_assessment := s_finalAssessmentText data;
     gratitude_score := traitScore Gratitude (s_assessmentData data);
     resilience_score := traitScore Resilience (s_assessmentData data);
     empathy_score := traitScore Empathy (s_assessmentData data);
     sociability_score := traitScore Sociability (s_assessmentData data);
     social_cognition_score := traitScore SocialCognition (s_assessmentData data);
     courage_score := traitScore Courage (s_assessmentData data);
     assessment_data := s_assessmentData data;
     feedback_comments :=
       map (fun a => {| fc_trait := a_trait a; fc_feedback := a_feedback a |})
           (s_assessmentData data) |}.

End LogRoute.

(** ** app/api/transliterate/route.ts *)

Module Transliterate.

Inductive json : Type :=
| jnull
| jbool (b : bool)
| jnum (q : Q)
| jstr (s : string)
| jarr (items : list json)
| jobj (fields : list (string * json)).

(** A JavaScript value read out of parsed JSON; [None] is [undefined]. *)
Definition value : Type := option json.

Definition truthy (v : value) : bool :=
  match v with
  | None => false
  | Some jnull => false
  | Some (jbool b) => b
  | Some (jnum q) => negb (Qeq_bool q 0)
  | Some (jstr s) => negb (String.eqb s "")
  | Some (jarr _) => true
  | Some (jobj _) => true
  end.

(** The last field named [k], as [JSON.parse] keeps it. *)
Fixpoint field (k : string) (fields : list (string * json)) : value :=
  match fields with
  | [] => None
  | (k', v) :: rest =>
      match field k rest with
      | Some later => Some later
      | None => if String.eqb k' k then Some v else None
      end
  end.

(** [v[i]] for a value [v] that is neither null nor undefined. *)
Definition index (v : json) (i : nat) : value :=
  match v with
  | jarr items => nth_error items i
  | jstr s =>
      match String.get i s with
      | Some c => Some (jstr (String c EmptyString))
      | None => None
      end
  | jobj fields => field (Js.String_of (Z.of_nat i)) fields
  | _ => None
  end.

(** [v?.[i]] along a chain of [&&]: stops at the first falsy value. *)
Definition step_into (v : value) (i : nat) : value :=
  match v with
  | Some j => if truthy v then index j i else None
  | None => None
  end.

(** The request: its body as [JSON.parse] reads it ([None] when it is not
    JSON) and whether the body stream was already consumed. *)
Record Request : Type := { parsed : option json; bodyUsed : bool }.

(** [req.json()]: [None] is a rejected promise. A body can be read once;
    reading it again rejects. *)
Definition req_json (req : Request) : option json * Request :=
  if bodyUsed req then (None, req)
  else (parsed req, {| parsed := parsed req; bodyUsed := true |}).

(** [const { text } = j]: [None] is the TypeError of destructuring null. *)
Definition destructure_text (j : json) : option value :=
  match j with
  | jnull => None
  | jobj fields => Some (field "text" fields)
  | _ => Some None
  end.

(** How the request to Google Input Tools ends. *)
Inductive Upstream : Type :=
| up_rejected
| up_not_ok (status : Z)
| up_unparseable
| up_json (data : json).

Inductive Body : Type :=
| error_body (message : string)
| transliteration_body (v : value).

Inductive Response : Type :=
| response (status : Z) (body : Body)
| unhandled.

(** The [try] block; [None] is a thrown exception. *)
Definition attempt (req : Request) (up : Upstream) : option Response * Request :=
  match req_json req with
  | (None, req1) => (None, req1)
  | (Some j, req1) =>
      match destructure_text j with
      | None => (None, req1)
      | Some text =>
          if negb (truthy text) then
            (Some (response 400 (error_body "Text is required")), req1)
          else
            match up with
            | up_rejected => (None, req1)
            | up_not_ok _ => (None, req1)
            | up_unparseable => (None, req1)
            | up_json data =>
                let d := Some data in
                if (truthy d
                    && match index data 0 with
                       | Some (jstr s) => String.eqb s "SUCCESS"
                       | _ => false
                       end
                    && truthy (step_into d 1)
                    && truthy (step_into (step_into d 1) 0)
                    && truthy (step_into (step_into (step_into d 1) 0) 1)
                    && truthy (step_into (step_into (step_into (step_into d 1) 0) 1) 0))%bool
                then
                  (Some (response 200
                           (transliteration_body
                              (step_into (step_into (step_into (step_into d 1) 0) 1) 0))),
                   req1)
                else (Some (response 200 (transliteration_body text)), req1)
            end
      end
  end.

(** [export async function POST(req)] *)
Definition POST (req : Request) (up : Upstream) : Response :=
  match attempt req up with
  | (Some r, _) => r
  | (None, req1) =>
      match fst (req_json req1) with
      | None => response 200 (transliteration_body (Some (jstr "")))
      | Some j =>
          match destructure_text j with
          | Some text => response 200 (transliteration_body text)
          | None => unhandled
          end
      end
  end.

(** The shape of a successful answer of Google Input Tools,
    [["SUCCESS", [[t, [w, ...], ...]]]]: [w] is the first candidate. *)
Definition googleSuccess (t w : string) (more meta : list json) : json :=
  jarr [jstr "SUCCESS"; jarr [jarr (jstr t :: jarr (jstr w :: more) :: meta)]].

(** A request whose body is [{ text: t }]. *)
Definition request_with_text (t : string) : Request :=
  {| parsed := Some (jobj [("text", jstr t)]); bodyUsed := false |}.

End Transliterate.

(** ** More of user-info-step.tsx: the age buttons and the name effect *)

Module JsStr.

(** [s.trim()]: the white-space characters at both ends are dropped. *)
Definition trimmed (cs : list string) : list string :=
  rev (Js.dropWhile Js.isWhite (rev (Js.dropWhile Js.isWhite cs))).

Definition trim (s : string) : string := Js.join (trimmed (Js.chars s)).

End JsStr.

Module AgeButtons.

(** The minus button: [if (currentValue && currentValue > 1)
    field.onChange(currentValue - 1)]. *)
Definition minus (value : option Q) : option Q :=
  match value with
  | Some q =>
      if (negb (Qeq_bool q 0) && negb (Qle_bool q (inject_Z 1)))%bool
      then Some (q - inject_Z 1)%Q
      else value
  | None => value
  end.

(** The plus button: [const currentValue = field.value || 0;
    if (currentValue < 120) field.onChange(currentValue + 1)]. *)
Definition plus (value : option Q) : option Q :=
  let currentValue :=
    match value with
    | Some q => if Qeq_bool q 0 then inject_Z 0 else q
    | None => inject_Z 0
    end in
  if negb (Qle_bool (inject_Z 120) currentValue)
  then Some (currentValue + inject_Z 1)%Q
  else value.

Inductive Click : Type := click_minus | click_plus.

Definition click (c : Click) (value : option Q) : option Q :=
  match c with
  | click_minus => minus value
  | click_plus => plus value
  end.

End AgeButtons.

Module NameEffect.

(** How the browser's request to /api/transliterate ends: the fetch or
    the reading of the body as JSON fails, or the route's answer arrives. *)
Inductive ClientFetch : Type :=
| client_failed
| answered (r : Transliterate.Response).

(** [if (nameValue && nameValue.trim().length > 0)]: whether the effect
    schedules a request for the typed name. *)
Definition sends (nameValue : string) : bool :=
  (negb (String.eqb nameValue "")
   && Nat.ltb 0 (Js.length (JsStr.trim nameValue)))%bool.

(** The [else] branch of the effect: a blank name clears [name_hi] at
    once; otherwise the field waits for the answer. *)
Definition onType (nameValue : string) (name_hi : Transliterate.value)
  : Transliterate.value :=
  if sends nameValue then name_hi else Some (Transliterate.jstr "").

(** The body of the timer callback once the request has ended:
    [if (data.transliteration) form.setValue('name_hi', ...)], and the
    [catch] that falls back to the typed name. An unhandled failure of the
    route arrives without a JSON body, so reading it fails as well. *)
Definition onAnswer (nameValue : string) (name_hi : Transliterate.value)
    (o : ClientFetch) : Transliterate.value :=
  match o with
  | client_failed => Some (Transliterate.jstr nameValue)
  | answered Transliterate.unhandled => Some (Transliterate.jstr nameValue)
  | answered (Transliterate.response _ (Transliterate.error_body _)) => name_hi
  | answered (Transliterate.response _ (Transliterate.transliteration_body v)) =>
      if Transliterate.truthy v then v else name_hi
  end.

(** [transliterateText] of certificate.tsx: [if (!text) return;], the same
    request, [if (result.transliteration) setter(...)]; its [catch] only
    logs. *)
Definition certSends (text : string) : bool := negb (String.eqb text "").

Definition certOnAnswer (shown : Transliterate.value) (o : ClientFetch)
  : Transliterate.value :=
  match o with
  | answered (Transliterate.response _ (Transliterate.transliteration_body v)) =>
      if Transliterate.truthy v then v else shown
  | _ => shown
  end.

End NameEffect.

(** ** More of certificate.tsx: the Hindi date *)

Module HindiDate.

Inductive Month : Type :=
| January | February | March | April | May | June
| July | August | September | October | November | December.

(** [date.toLocaleString('en-US', { month: 'long' })] *)
Definition monthName (m : Month) : string :=
  match m with
  | January => "January" | February => "February" | March => "March"
  | April => "April" | May => "May" | June => "June" | July => "July"
  | August => "August" | September => "September" | October => "October"
  | November => "November" | December => "December"
  end.

Definition hindiMonths : list (string * string) :=
  [("January", "जनवरी"); ("February", "फ़रवरी"); ("March", "मार्च");
   ("April", "अप्रैल"); ("May", "मई"); ("June", "जून"); ("July", "जुलाई");
   ("August", "अगस्त"); ("September", "सितंबर"); ("October", "अक्टूबर");
   ("November", "नवंबर"); ("December", "दिसंबर")].

Definition devanagariDigits : list (ascii * string) :=
  [("0"%char, "०"); ("1"%char, "१"); ("2"%char, "२"); ("3"%char, "३");
   ("4"%char, "४"); ("5"%char, "५"); ("6"%char, "६"); ("7"%char, "७");
   ("8"%char, "८"); ("9"%char, "९")].

(** [table[key]] on an object used as a map: [None] is [undefined]. *)
Definition lookupMonth (key : string) : option string :=
  option_map snd (find (fun kv => String.eqb (fst kv) key) hindiMonths).

(** [devanagariDigits[digit] || digit] *)
Definition digit (c : ascii) : string :=
  match find (fun kv => Ascii.eqb (fst kv) c) devanagariDigits with
  | Some (_, d) => d
  | None => String c EmptyString
  end.

(** [numStr.split('').map(digit => ...).join('')] *)
Fixpoint toDevanagari (numStr : string) : string :=
  match numStr with
  | EmptyString => EmptyString
  | String c r => String.append (digit c) (toDevanagari r)
  end.

(** What [new Date(dateString)] holds: day of the month, month and year,
    or nothing for an Invalid Date. *)
Record Parts : Type := { day : Z; month : Month; year : Z }.

Section Format.

(** The date parser of the JavaScript engine. *)
Variable parseDate : string -> option Parts.

(** [formatDateHindi]: an Invalid Date has the parts "NaN", "NaN" and
    "Invalid Date", which is in no table, so the input comes back. *)
Definition formatDateHindi (dateString : string) : string :=
  let '(day_s, year_s, month_s) :=
    match parseDate dateString with
    | Some p => (Js.String_of (day p), Js.String_of (year p), monthName (month p))
    | None => ("NaN", "NaN", "Invalid Date")
    end in
  let hindiDay := toDevanagari day_s in
  let hindiYear := toDevanagari year_s in
  match lookupMonth month_s with
  | Some hindiMonth =>
      if (negb (String.eqb hindiMonth "") && negb (String.eqb hindiDay "")
          && negb (String.eqb hindiYear ""))%bool
      then String.append hindiDay
             (String.append " " (String.append hindiMonth (String.append ", " hindiYear)))
      else dateString
  | None => dateString
  end.

End Format.

Definition isAsciiDigit (c : ascii) : bool :=
  match Js.digit_of c with Some _ => true | None => false end.

Definition hasAsciiDigit (s : string) : bool :=
  existsb isAsciiDigit (list_ascii_of_string s).

End HindiDate.

(** ** More of assessment-step.tsx: the label of the advance button *)

Module AssessmentView.

Inductive ButtonLabel : Type := nextButton | finishButton.

(** [currentQuestionIndex < questions.length - 1 ? t.nextButton
    : t.finishButton] *)
Definition buttonLabel (questions : list Question) (st : AssessmentStep.State)
  : ButtonLabel :=
  if Z.of_nat (AssessmentStep.currentQuestionIndex st)
     <? Z.of_nat (List.length questions) - 1
  then nextButton else finishButton.

End AssessmentView.

(** ** app/certificate/page.tsx *)

Module CertificatePage.

(** What [JSON.parse] makes of the stored item: it throws, or gives a
    falsy value (null, 0, false, an empty string), or gives the object the
    page casts to [CertificateData]. *)
Inductive Parse : Type :=
| parse_throws
| parse_falsy
| parse_data (d : CertificateData).

Record State : Type := { certData : option CertificateData; isLoading : bool }.

Definition initial : State := {| certData := None; isLoading := true |}.

Inductive PageEffect : Type :=
| router_replace (path : string)
| log_error (what : string).

Inductive View : Type :=
| CertificateSkeleton
| CertificateView (data : CertificateData).

(** [localStorage]: the string stored under each key, if any. *)
Definition Storage : Type := string -> option string.

Definition setItem (key item : string) (storage : Storage) : Storage :=
  fun k => if String.eqb k key then Some item else storage k.

Definition emptyStorage : Storage := fun _ => None.

Section Page.

Variable JSON_parse : string -> Parse.
Variable JSON_stringify : CertificateData -> string.

(** The effect of [CertificatePage]: read the item, parse it, keep the
    data or go home; [finally] the loading flag is dropped. Reading the
    storage itself is taken to succeed. *)
Definition load (storage : Storage) (st : State) : State * list PageEffect :=
  match storage "anandakAssessmentCertificate" with
  | Some (String c r) =>
      match JSON_parse (String c r) with
      | parse_data d => ({| certData := Some d; isLoading := false |}, [])
      | parse_falsy => ({| certData := None; isLoading := false |}, [])
      | parse_throws =>
          ({| certData := certData st; isLoading := false |},
           [log_error "Failed to parse certificate data"; router_replace "/"])
      end
  | _ => ({| certData := certData st; isLoading := false |}, [router_replace "/"])
  end.

(** [if (isLoading || !certData) return <CertificateSkeleton />] *)
Definition view (st : State) : View :=
  if isLoading st then CertificateSkeleton
  else match certData st with
       | Some d => CertificateView d
       | None => CertificateSkeleton
       end.

(** What the wizard's effects leave in [localStorage]:
    [localStorage.setItem(key, JSON.stringify(certificateData))]. *)
Fixpoint store (effs : list Effect) (storage : Storage) : Storage :=
  match effs with
  | [] => storage
  | localStorage_setItem key d :: rest =>
      store rest (setItem key (JSON_stringify d) storage)
  | _ :: rest => store rest storage
  end.

End Page.

(** *** Printing *)

Inductive PrintEvent : Type := beforeprint | afterprint.

(** A registered listener: the call of [handlePrint] that created the
    closure, the event it listens to and the mode it closes over. *)
Record Listener : Type :=
  { l_call : nat; l_event : PrintEvent; l_mode : Certificate.PrintMode }.

Record Window : Type :=
  { classList : list string;   (* of document.body *)
    listeners : list Listener;
    calls : nat }.

Definition modeClass (mode : Certificate.PrintMode) : string :=
  match mode with
  | Certificate.print_all => "print-mode-all"
  | Certificate.print_en => "print-mode-en"
  | Certificate.print_hi => "print-mode-hi"
  end.

Definition hasClass (c : string) (classes : list string) : bool :=
  existsb (String.eqb c) classes.

(** [classList.add] and [classList.remove] *)
Definition addClass (c : string) (classes : list string) : list string :=
  if hasClass c classes then classes else classes ++ [c].

Definition removeClass (c : string) (classes : list string) : list string :=
  filter (fun c' => negb (String.eqb c c')) classes.

Definition PrintEvent_eqb (a b : PrintEvent) : bool :=
  match a, b with
  | beforeprint, beforeprint | afterprint, afterprint => true
  | _, _ => false
  end.

Definition sameListener (a b : Listener) : bool :=
  (Nat.eqb (l_call a) (l_call b) && PrintEvent_eqb (l_event a) (l_event b))%bool.

(** [onBeforePrint] and [onAfterPrint] of the call that made [l]. *)
Definition invoke (l : Listener) (w : Window) : Window :=
  match l_event l with
  | beforeprint =>
      {| classList := addClass (modeClass (l_mode l)) (classList w);
         listeners := listeners w; calls := calls w |}
  | afterprint =>
      {| classList := removeClass (modeClass (l_mode l)) (classList w);
         listeners :=
           filter (fun l' => negb (Nat.eqb (l_call l') (l_call l))) (listeners w);
         calls := calls w |}
  end.

(** Firing [ev] on the window: the listeners registered when the event is
    fired are run in order, except those removed in the meantime. *)
Fixpoint fireOn (ev : PrintEvent) (snapshot : list Listener) (w : Window) : Window :=
  match snapshot with
  | [] => w
  | l :: rest =>
      if (PrintEvent_eqb (l_event l) ev && existsb (sameListener l) (listeners w))%bool
      then fireOn ev rest (invoke l w)
      else fireOn ev rest w
  end.

Definition fire (ev : PrintEvent) (w : Window) : Window :=
  fireOn ev (listeners w) w.

(** The print style sheet applied to the two pages under the classes of
    the body. *)
Definition visible (classes : list string) (pages : list Certificate.Page)
  : list Certificate.Page :=
  filter (fun p =>
            match Certificate.page_lang p with
            | hi => negb (hasClass "print-mode-en" classes)
            | en => negb (hasClass "print-mode-hi" classes)
            end) pages.

(** [window.print()]: beforeprint is fired, the document is printed,
    afterprint is fired. *)
Definition print (pages : list Certificate.Page) (w : Window)
  : Window * list Certificate.Page :=
  let w1 := fire beforeprint w in
  (fire afterprint w1, visible (classList w1) pages).

(** [handlePrint(mode)] *)
Definition handlePrint (mode : Certificate.PrintMode)
    (pages : list Certificate.Page) (w : Window)
  : Window * list Certificate.Page :=
  let n := calls w in
  print pages
    {| classList := classList w;
       listeners :=
         listeners w
         ++ [{| l_call := n; l_event := beforeprint; l_mode := mode |};
             {| l_call := n; l_event := afterprint; l_mode := mode |}];
       calls := S n |}.

(** The user presses print buttons one after the other; each press gives
    a window and a printout. *)
Fixpoint printAll (modes : list Certificate.PrintMode)
    (pages : list Certificate.Page) (w : Window)
  : Window * list (list Certificate.Page) :=
  match modes with
  | [] => (w, [])
  | m :: rest =>
      let '(w1, out) := handlePrint m pages w in
      let '(w2, outs) := printAll rest pages w1 in
      (w2, out :: outs)
  end.

Definition freshWindow : Window :=
  {| classList := []; listeners := []; calls := 0 |}.

End CertificatePage.

(** ** More of app/api/log/route.ts: the POST handler *)

Module LogHandler.

(** The module constants read from [process.env]. *)
Record Env : Type :=
  { supabaseUrl : option string; supabaseServiceKey : option string }.

Definition present (v : option string) : bool :=
  match v with
  | Some (String _ _) => true
  | _ => false
  end.

(** How [supabase.from(..).insert(..).select()] ends. *)
Inductive Insert : Type :=
| insert_error (message : string)
| inserted.

(** The three JSON answers of the handler. *)
Inductive Reply : Type :=
| submitted (data : LogRoute.DbRow)
| configuration_error
| failed (details : string).

Definition status (r : Reply) : Z :=
  match r with
  | submitted _ => 200
  | _ => 500
  end.

Definition error_field (r : Reply) : option string :=
  match r with
  | submitted _ => None
  | configuration_error => Some "Server configuration error"
  | failed _ => Some "Failed to submit assessment"
  end.

Definition details_field (r : Reply) : option string :=
  match r with
  | submitted _ => None
  | configuration_error => Some "Missing required Supabase credentials"
  | failed details => Some details
  end.

(** What a request to the route gets: the module did not load, so there
    is no handler and no JSON answer, or the handler's reply together with
    the row it handed to the database, if it got that far. *)
Inductive Served : Type :=
| module_failed
| replied (r : Reply) (row : option LogRoute.DbRow).

Section Handler.

Variable env : Env.
(** Whether [createClient] of supabase-js accepts a URL and a key that are
    both set; it throws for a missing or empty URL or key, and for a URL
    it cannot use. *)
Variable clientAccepts : string -> string -> bool.
Variable insert : LogRoute.DbRow -> Insert.

(** Loading the module: [const supabase = createClient(supabaseUrl,
    supabaseServiceKey)] at module scope. [None] is the exception thrown
    there, after which the module exports no handler. *)
Definition load : option (string * string) :=
  match supabaseUrl env, supabaseServiceKey env with
  | Some (String c r), Some (String c' r') =>
      if clientAccepts (String c r) (String c' r')
      then Some (String c r, String c' r')
      else None
  | _, _ => None
  end.

(** [POST(request)]: the body is [inl message] when [request.json()]
    throws. The second component is the row handed to the database, if the
    handler got that far. *)
Definition POST (body : string + SubmissionData) : Reply * option LogRoute.DbRow :=
  match body with
  | inl message => (failed message, None)
  | inr submission =>
      if (negb (present (supabaseUrl env)) || negb (present (supabaseServiceKey env)))%bool
      then (configuration_error, None)
      else
        let row := LogRoute.saveAssessmentToSupabase submission in
        match insert row with
        | insert_error message =>
            (failed (String.append "Supabase insert failed: " message), Some row)
        | inserted => (submitted row, Some row)
        end
  end.

(** A request to /api/log: the handler runs only in a module that loaded. *)
Definition serve (body : string + SubmissionData) : Served :=
  match load with
  | None => module_failed
  | Some _ => let '(r, row) := POST body in replied r row
  end.

End Handler.

(** What the browser's [fetch] makes of a reply: [response.ok] and the
    parsed body. *)
Definition received (r : Reply) : FetchOutcome :=
  responded ((200 <=? status r) && (status r <? 300))
    (Some {| r_error := error_field r; r_details := details_field r |}).

End LogHandler.

(** ** The keep-alive route (cron) *)

Module KeepAlive.

Record Env : Type :=
  { supabaseUrl : option string;
    supabaseServiceKey : option string;
    supabaseAnonKey : option string;
    supabaseSecretKey : option string;
    supabasePublishableKey : option string;
    cronSecret : option string }.

(** A string that is set and not empty. *)
Definition truthy (v : option string) : option string :=
  match v with
  | Some (String c r) => Some (String c r)
  | _ => None
  end.

(** [selectSupabaseKey()]: [None] is the thrown "Missing Supabase key". *)
Definition selectSupabaseKey (env : Env) : option (string * string) :=
  match truthy (supabaseSecretKey env) with
  | Some k => Some (k, "secret (sb_secret_)")
  | None =>
  match truthy (supabaseServiceKey env) with
  | Some k => Some (k, "service_role (JWT - legacy)")
  | None =>
  match truthy (supabasePublishableKey env) with
  | Some k => Some (k, "publishable (sb_publishable_)")
  | None =>
  match truthy (supabaseAnonKey env) with
  | Some k => Some (k, "anon (JWT - legacy)")
  | None => None
  end end end end.

(** How creating the client and counting the rows ends. *)
Inductive Db : Type :=
| create_throws (message : string)
| query_error (message : string)
| query_ok (count : option Z).

Inductive Reply : Type :=
| unauthorized
| alive (totalRecords : Z) (url : string)
| failed (error : string).

Definition status (r : Reply) : Z :=
  match r with
  | unauthorized => 401
  | alive _ _ => 200
  | failed _ => 500
  end.

Section Handler.

Variable env : Env.
(** The database behind the client made from a URL and a key. *)
Variable database : string -> string -> Db.

(** [GET(request)], with the request's authorization header. The second
    component is the URL and key the client was created with, if the
    handler got that far. *)
Definition GET (authorization : option string) : Reply * option (string * string) :=
  let denied :=
    match truthy (cronSecret env) with
    | Some secret =>
        match authorization with
        | Some h => negb (String.eqb h (String.append "Bearer " secret))
        | None => true
        end
    | None => false
    end in
  if denied then (unauthorized, None)
  else
    match truthy (supabaseUrl env) with
    | None => (failed "Missing NEXT_PUBLIC_SUPABASE_URL", None)
    | Some url =>
        match selectSupabaseKey env with
        | None =>
            (failed
               "Missing Supabase key. Set one of: SUPABASE_SECRET_KEY (recommended), SUPABASE_SERVICE_ROLE_KEY, SUPABASE_PUBLISHABLE_KEY, or NEXT_PUBLIC_SUPABASE_ANON_KEY",
             None)
        | Some (key, _) =>
            match database url key with
            | create_throws message => (failed message, Some (url, key))
            | query_error message =>
                (failed (String.append "Database query failed: " message),
                 Some (url, key))
            | query_ok count =>
                (alive (match count with Some n => n | None => 0 end) url,
                 Some (url, key))
            end
        end
    end.

(** [POST(request)] of the same route. *)
Definition POST (authorization : option string) : Reply * option (string * string) :=
  GET authorization.

End Handler.

End KeepAlive.

(** ** Invariants of the wizard *)

Definition answerKey (a : AnswerDetail) : Z * Trait := (a_id a, a_trait a).

Definition questionKey (q : Question) : Z * Trait := (id q, trait q).

(** What every reachable state of the wizard satisfies: the answer step
    points at a question of the catalog and holds one answer for each
    question before it, and on Results the answers are those of the whole
    catalog, the Results step is mounted and the user's details are there. *)
Definition wellFormed (questions : list Question) (s : App.State) : Prop :=
  match App.screen s with
  | App.assessment_screen quiz =>
      (AssessmentStep.currentQuestionIndex quiz < List.length questions)%nat
      /\ map answerKey (AssessmentStep.answers quiz)
         = map questionKey (firstn (AssessmentStep.currentQuestionIndex quiz) questions)
      /\ App.userData s <> None
  | App.results_screen ref =>
      map answerKey (App.assessmentData s) = map questionKey questions
      /\ ref <> None
      /\ App.userData s <> None
  | _ => True
  end.

(** The order of the steps. *)
Definition rank (st : App.Step) : nat :=
  match st with
  | App.language => 0
  | App.info => 1
  | App.assessment => 2
  | App.results => 3
  end.

(** An age the buttons can produce from a valid start: a whole number
    from 1 to 120, or still undefined. *)
Definition wholeAge (value : option Q) : Prop :=
  match value with
  | Some q => exists z : Z, (q == inject_Z z)%Q /\ 1 <= z <= 120
  | None => True
  end.

(** The answer of the transliteration route after its [try] block threw. *)
Definition emptyAnswer : Transliterate.Response :=
  Transliterate.response 200
    (Transliterate.transliteration_body (Some (Transliterate.jstr ""))).

(** The keys of the environment in the order [selectSupabaseKey] tries
    them, the unset and empty ones dropped. *)
Definition usableKeys (env : KeepAlive.Env) : list string :=
  flat_map (fun v => match KeepAlive.truthy v with Some k => [k] | None => [] end)
    [KeepAlive.supabaseSecretKey env; KeepAlive.supabaseServiceKey env;
     KeepAlive.supabasePublishableKey env; KeepAlive.supabaseAnonKey env].

(** Whether the request passes the check of the cron secret. *)
Definition authorized (env : KeepAlive.Env) (authorization : option string) : Prop :=
  match KeepAlive.truthy (KeepAlive.cronSecret env) with
  | Some secret => authorization = Some (String.append "Bearer " secret)
  | None => True
  end.

(** No print-mode class is on the body. *)
Definition noPrintClass (classes : list string) : Prop :=
  forall mode, CertificatePage.hasClass (CertificatePage.modeClass mode) classes = false.

(** The number a run of decimal digits stands for, continuing from [acc]. *)
Fixpoint decimalValue (u : Decimal.uint) (acc : Z) : Z :=
  match u with
  | Decimal.Nil => acc
  | Decimal.D0 l => decimalValue l (10 * acc + 0)
  | Decimal.D1 l => decimalValue l (10 * acc + 1)
  | Decimal.D2 l => decimalValue l (10 * acc + 2)
  | Decimal.D3 l => decimalValue l (10 * acc + 3)
  | Decimal.D4 l => decimalValue l (10 * acc + 4)
  | Decimal.D5 l => decimalValue l (10 * acc + 5)
  | Decimal.D6 l => decimalValue l (10 * acc + 6)
  | Decimal.D7 l => decimalValue l (10 * acc + 7)
  | Decimal.D8 l => decimalValue l (10 * acc + 8)
  | Decimal.D9 l => decimalValue l (10 * acc + 9)
  end.

(** The user clicks one radio button after the other on the same
    question. *)
Fixpoint choose (questions : list Question)
    (getIndividualFeedback : Trait -> Js.number -> Language -> string)
    (lang : Language) (values : list string) (st : AssessmentStep.State)
  : AssessmentStep.Outcome :=
  match values with
  | [] => AssessmentStep.Returned st []
  | v :: rest =>
      match AssessmentStep.handleOptionChange questions getIndividualFeedback lang v st with
      | AssessmentStep.Threw => AssessmentStep.Threw
      | AssessmentStep.Returned st1 _ =>
          choose questions getIndividualFeedback lang rest st1
      end
  end.

(** ** Sessions and sample data *)

(** The arithmetic sum of a list of per-question scores. *)
Definition sumScores (scores : list Z) : Z := fold_right Z.add 0 scores.

(** The user answers the questions in order: for each score, the radio
    button carrying [String(score)] and then Next. *)
Definition answering (scores : list Z) : list App.Event :=
  flat_map (fun sc => [App.optionChange (Js.String_of sc); App.next]) scores.

(** The bodies handed to the submission sink and the objects written for
    the certificate page, in order. *)
Definition submissions (effs : list Effect) : list SubmissionData :=
  flat_map (fun e => match e with fetch_log b => [b] | _ => [] end) effs.

Definition certificates (effs : list Effect) : list CertificateData :=
  flat_map (fun e => match e with localStorage_setItem _ d => [d] | _ => [] end) effs.

(** The stored feedback of an answer is the English text for its trait
    and score. *)
Definition englishFeedback
    (getIndividualFeedback : Trait -> Js.number -> Language -> string)
    (a : AnswerDetail) : Prop :=
  a_feedback a = getIndividualFeedback (a_trait a) (a_score a) en.

(** The one-shot guard: no mounted Results step is still waiting to run
    its effect. *)
Definition guarded (s : App.State) : Prop :=
  App.screen s <> App.results_screen (Some false).

(** How many submissions the session may still make. *)
Definition budget (s : App.State) : nat :=
  match App.step s with
  | App.results => 0
  | _ => 1
  end.

(** Two answer steps that differ at most in the feedback shown for the
    current selection. *)
Definition sameQuiz (a b : AssessmentStep.State) : Prop :=
  AssessmentStep.showInstructions a = AssessmentStep.showInstructions b
  /\ AssessmentStep.currentQuestionIndex a = AssessmentStep.currentQuestionIndex b
  /\ AssessmentStep.answers a = AssessmentStep.answers b
  /\ AssessmentStep.selectedOption a = AssessmentStep.selectedOption b.

Definition sameScreen (a b : App.Screen) : Prop :=
  match a, b with
  | App.language_screen, App.language_screen => True
  | App.info_screen f1, App.info_screen f2 => f1 = f2
  | App.assessment_screen q1, App.assessment_screen q2 => sameQuiz q1 q2
  | App.results_screen r1, App.results_screen r2 => r1 = r2
  | _, _ => False
  end.

(** Two sessions that agree on everything but the display language and the
    text displayed in it. *)
Definition sameSession (a b : App.State) : Prop :=
  App.userData a = App.userData b
  /\ App.assessmentData a = App.assessmentData b
  /\ App.inflight a = App.inflight b
  /\ sameScreen (App.screen a) (App.screen b).

(** Every answer the session holds carries English feedback. *)
Definition englishSession
    (getIndividualFeedback : Trait -> Js.number -> Language -> string)
    (s : App.State) : Prop :=
  Forall (englishFeedback getIndividualFeedback) (App.assessmentData s)
  /\ match App.screen s with
     | App.assessment_screen quiz =>
         Forall (englishFeedback getIndividualFeedback) (AssessmentStep.answers quiz)
     | _ => True
     end.

(** A submission body whose texts were all resolved with the English
    locale. *)
Definition storedInEnglish
    (getIndividualFeedback : Trait -> Js.number -> Language -> string)
    (getFinalFeedback : Js.number -> Language -> string)
    (getFinalAssessment : string -> Language -> string)
    (b : SubmissionData) : Prop :=
  Forall (englishFeedback getIndividualFeedback) (s_assessmentData b)
  /\ s_finalAssessmentText b
     = getFinalAssessment (getFinalFeedback (s_totalScore b) en) en.

(** The district picker agrees with the selected state: its items are the
    districts the table lists for that state, and a chosen district is one
    of the items. *)
Definition pickerConsistent (table : list StateEntry) (st : UserInfoStep.State) : Prop :=
  match UserInfoStep.v_state (UserInfoStep.values st) with
  | Some (String c r) =>
      UserInfoStep.districts st = UserInfoStep.districtsOf table (String c r)
      /\ match UserInfoStep.v_district (UserInfoStep.values st) with
         | Some d => In d (UserInfoStep.districts st)
         | None => True
         end
  | _ => UserInfoStep.districts st = []
  end.

(** The form after the user's actions, from the freshly mounted form. *)
Definition fill (table : list StateEntry) (actions : list UserInfoStep.Action)
  : UserInfoStep.State :=
  fold_left (fun st a => UserInfoStep.edit table a st) actions
    (UserInfoStep.mount table).

(** Personal details that passed validation and came through the pickers. *)
Definition validUser (table : list StateEntry) (u : UserInfo) : Prop :=
  (2 <= Js.length (name u))%nat
  /\ (1 <= Js.length (name_hi u))%nat
  /\ (inject_Z 1 <= age u)%Q /\ (age u <= inject_Z 120)%Q
  /\ (1 <= Js.length (mobile u))%nat
  /\ In (district u) (UserInfoStep.districtsOf table (state u)).

(** The form shown has a consistent district picker and the details held,
    if any, are valid. *)
Definition validSession (table : list StateEntry) (s : App.State) : Prop :=
  match App.screen s with
  | App.info_screen form => pickerConsistent table form
  | _ => True
  end
  /\ match App.userData s with
     | Some u => validUser table u
     | None => True
     end.

(** A submission body whose personal fields are valid. *)
Definition validBody (table : list StateEntry) (b : SubmissionData) : Prop :=
  (2 <= Js.length (s_name b))%nat
  /\ (inject_Z 1 <= s_age b)%Q /\ (s_age b <= inject_Z 120)%Q
  /\ In (s_district b) (UserInfoStep.districtsOf table (s_state b)).

(** What a session has handed to the certificate page so far: nothing
    before Results; on Results the step is mounted with its guard set, the
    user's details are there, and, unless the storage refused, one record
    was written, holding the details, the answers, the English final
    assessment text for their total and the date. *)
Definition handedOff
    (getFinalFeedback : Js.number -> Language -> string)
    (getFinalAssessment : string -> Language -> string)
    (today : string) (storageThrows : bool)
    (s : App.State) (out : list Effect) : Prop :=
  match App.screen s with
  | App.results_screen ref =>
      ref = Some true
      /\ exists u,
           App.userData s = Some u
           /\ certificates out
              = if storageThrows then []
                else [{| c_user := u;
                         c_assessmentData := App.assessmentData s;
                         c_finalAssessmentText :=
                           getFinalAssessment
                             (getFinalFeedback
                                (App.totalScore (App.assessmentData s)) en) en;
                         c_date := today |}]
  | App.assessment_screen _ => App.userData s <> None /\ certificates out = []
  | _ => certificates out = []
  end.

(** The message of the error that the [catch] of [logSubmission] gets:
    that of the rejected fetch or of the failed [response.json()], the
    [error] or else the [details] of a JSON answer that is not OK, or the
    TypeError of reading [error] off a null answer. *)
Definition failureReason (o : FetchOutcome) : string :=
  match o with
  | fetch_rejected message => message
  | json_rejected message => message
  | responded _ (Some result) =>
      match r_error result, r_details result with
      | Some (String c r), _ => String c r
      | _, Some (String c r) => String c r
      | _, _ => "Failed to log submission"
      end
  | responded _ None => "Cannot read properties of null (reading 'error')"
  end.

Definition sinkFailed (o : FetchOutcome) : bool :=
  match o with
  | responded true _ => false
  | _ => true
  end.

(** A small catalog, lookup table and feedback functions on which the
    model is run. *)
Module Fixture.

Definition opt (en_text : string) (sc : Z) : QOption :=
  {| text := {| text_en := en_text; text_hi := en_text |}; score := sc |}.

Definition question (i : Z) (t : Trait) : Question :=
  {| id := i; trait := t;
     questionText := {| text_en := "Question"; text_hi := "Question" |};
     options := [opt "first" 3; opt "second" 2; opt "third" 1] |}.

Definition questions : list Question :=
  [question 1 Gratitude; question 2 Resilience; question 3 Empathy;
   question 4 Sociability; question 5 SocialCognition; question 6 Courage].

Definition traitName (t : Trait) : string :=
  match t with
  | Gratitude => "Gratitude" | Resilience => "Resilience"
  | Empathy => "Empathy" | Sociability => "Sociability"
  | SocialCognition => "Social Cognition" | Courage => "Courage"
  end.

Definition translations (l : Language) : Translations :=
  {| assessment_toast_title :=
       match l with en => "No selection" | hi => "No selection (hi)" end;
     assessment_toast_description :=
       match l with en => "Please select an option." | hi => "Please select an option (hi)." end;
     cert_traits := traitName;
     cert_score := match l with en => "Score:" | hi => "Score (hi):" end;
     cert_finalAssessment := fun s => String.append "hi: " s |}.

Definition langTag (l : Language) : string :=
  match l with en => "en" | hi => "hi" end.

Definition getIndividualFeedback (t : Trait) (s : Js.number) (l : Language) : string :=
  String.append (traitName t)
    (String.append (match s with Js.Num z => Js.String_of z | Js.NaN => "NaN" end)
       (langTag l)).

Definition getFinalFeedback (s : Js.number) (l : Language) : string :=
  String.append (match s with Js.Num z => Js.String_of z | Js.NaN => "NaN" end) (langTag l).

Definition getFinalAssessment (feedback : string) (l : Language) : string :=
  String.append feedback (langTag l).

Definition is_email (s : string) : bool :=
  existsb (fun c => Ascii.eqb c "@") (list_ascii_of_string s).

Definition statesWithDistricts : list StateEntry :=
  [ {| se_state := "Madhya Pradesh"; se_districts := ["Bhopal"; "Indore"] |};
    {| se_state := "Maharashtra"; se_districts := ["Mumbai"; "Pune"] |} ].

Definition user : UserInfo :=
  {| name := "Test User"; name_hi := "Test User"; age := inject_Z 30;
     gender := Male; countryCode := "+91"; mobile := "9999999999";
     email := Some ""; state := "Madhya Pradesh"; district := "Bhopal" |}.

(** The user picks Maharashtra and its district Mumbai, then goes back to
    Madhya Pradesh, having filled in everything else. *)
Definition mumbaiThenMadhyaPradesh : list UserInfoStep.Action :=
  [UserInfoStep.typeName "Test User"; UserInfoStep.setNameHi "Test User";
   UserInfoStep.setAge (Some (inject_Z 30)); UserInfoStep.pickGender "Male";
   UserInfoStep.typeMobile "9999999999"; UserInfoStep.pickState 1;
   UserInfoStep.pickDistrict 0; UserInfoStep.pickState 0].

Definition fillForm : list UserInfoStep.Action :=
  [UserInfoStep.typeName "Test User"; UserInfoStep.setNameHi "Test User";
   UserInfoStep.setAge (Some (inject_Z 30)); UserInfoStep.pickGender "Male";
   UserInfoStep.typeMobile "9999999999"; UserInfoStep.pickDistrict 0].

Definition answer (i : Z) (t : Trait) (sc : Z) : AnswerDetail :=
  {| a_id := i; a_trait := t; a_score := Js.Num sc;
     a_feedback := getIndividualFeedback t (Js.Num sc) en |}.

Definition assessmentData : list AnswerDetail :=
  [answer 1 Gratitude 3; answer 2 Resilience 2; answer 3 Empathy 1;
   answer 4 Sociability 3; answer 5 SocialCognition 2; answer 6 Courage 3].

Definition certificate : CertificateData :=
  {| c_user := user; c_assessmentData := assessmentData;
     c_finalAssessmentText := "A balanced profile."; c_date := "November 2, 2026" |}.

(** The wizard with the user's details accepted, on the instructions
    screen of the assessment. *)
Definition atAssessment (l : Language) : App.State :=
  {| App.lang := l; App.userData := Some user; App.assessmentData := [];
     App.screen := App.assessment_screen AssessmentStep.initial;
     App.inflight := 0 |}.

(** The wizard on the Results screen, the submission request in flight. *)
Definition atResults : App.State :=
  {| App.lang := en; App.userData := Some user;
     App.assessmentData := assessmentData;
     App.screen := App.results_screen (Some true);
     App.inflight := 1 |}.

(** A whole session: language, personal details, instructions, answers. *)
Definition fullSession (l : Language) (scores : list Z) : list App.Event :=
  App.selectLanguage l :: map App.formEdit fillForm
  ++ [App.formSubmit; App.beginAssessment] ++ answering scores.

Definition resultsProps : ResultsStep.Props :=
  {| ResultsStep.p_score := App.totalScore assessmentData;
     ResultsStep.p_userData := user;
     ResultsStep.p_assessmentData := assessmentData;
     ResultsStep.p_lang := en |}.

Definition sinkError : FetchOutcome :=
  responded false
    (Some {| r_error := Some "Failed to submit assessment";
             r_details := Some "Supabase insert failed" |}).

End Fixture.

(** Proof steps shared by the case analyses over screens and events. *)
Ltac same_trivial :=
  solve [unfold sameSession, sameQuiz; cbn; repeat split; auto].

Ltac english_trivial :=
  solve [unfold englishSession, storedInEnglish in *; cbn in *;
         repeat split; intuition (auto using Forall_nil)].

(** * Properties *)

Lemma Trait_eqb_eq (a b : Trait) : Trait_eqb a b = true <-> a = b.
Proof. destruct a, b; simpl; split; intro H; try reflexivity; discriminate. Qed.

Lemma Trait_eqb_neq (a b : Trait) : Trait_eqb a b = false <-> a <> b.
Proof.
  split.
  - intros H E. apply Trait_eqb_eq in E. congruence.
  - intro H. destruct (Trait_eqb a b) eqn:E; [|reflexivity].
    apply Trait_eqb_eq in E. contradiction.
Qed.

(** ** Strings: characters, length and white space *)

Lemma chars_from_join (s : string) :
  String.append (fst (Js.chars_from s)) (Js.join (snd (Js.chars_from s))) = s.
Proof.
  induction s as [|c r IH]; [reflexivity|].
  cbn [Js.chars_from]. destruct (Js.chars_from r) as [more rest].
  cbn [fst snd] in IH.
  destruct (Js.continues c); cbn [fst snd Js.join fold_right String.append];
    fold (Js.join rest); rewrite IH; reflexivity.
Qed.

Lemma join_chars (s : string) : Js.join (Js.chars s) = s.
Proof.
  pose proof (chars_from_join s) as H. unfold Js.chars.
  destruct (Js.chars_from s) as [[|c more] rest]; exact H.
Qed.

Lemma chars_from_nonempty (s : string) :
  Forall (fun ch => ch <> "") (snd (Js.chars_from s)).
Proof.
  induction s as [|c r IH]; [constructor|].
  cbn [Js.chars_from]. destruct (Js.chars_from r) as [more rest].
  cbn [snd] in IH. destruct (Js.continues c); cbn [snd]; [exact IH|].
  constructor; [discriminate|exact IH].
Qed.

Lemma chars_nonempty (s : string) : Forall (fun ch => ch <> "") (Js.chars s).
Proof.
  pose proof (chars_from_nonempty s) as H. unfold Js.chars.
  destruct (Js.chars_from s) as [[|c more] rest]; cbn [snd] in H; [exact H|].
  constructor; [discriminate|exact H].
Qed.

Lemma join_empty (cs : list string) :
  Forall (fun ch => ch <> "") cs -> Js.join cs = "" -> cs = [].
Proof.
  intros H E. destruct cs as [|ch cs]; [reflexivity|].
  inversion H as [|? ? Hne _]; subst.
  destruct ch as [|c r]; [contradiction|discriminate E].
Qed.

Lemma chars_empty (s : string) : Js.chars s = [] <-> s = "".
Proof.
  split.
  - intro H. rewrite <- (join_chars s), H. reflexivity.
  - intros ->. reflexivity.
Qed.

(** Only the empty string has length 0. *)
Lemma length_pos (s : string) : (1 <= Js.length s)%nat <-> s <> "".
Proof.
  unfold Js.length. pose proof (chars_nonempty s) as H.
  rewrite <- chars_empty.
  destruct (Js.chars s) as [|ch cs].
  - cbn. split; [lia|congruence].
  - split; [discriminate|]. intros _.
    inversion H as [|? ? Hne _]; subst.
    destruct ch as [|c r]; [contradiction|].
    cbn [map list_sum Js.units fold_right].
    destruct (240 <=? N_of_ascii c)%N; lia.
Qed.

Lemma isWhite_startsWhite (c : ascii) (more : string) :
  Js.isWhite (String c more) = true -> Js.startsWhite c = true.
Proof.
  unfold Js.isWhite, Js.startsWhite. rewrite !existsb_exists.
  intros (cp & Hin & H). exists cp. split; [exact Hin|].
  destruct (Js.utf8 cp) as [|w t]; [discriminate H|].
  cbn [String.eqb] in H. destruct (Ascii.eqb c w); [reflexivity|discriminate H].
Qed.

(** A string that begins with a byte no white-space character begins with
    has no white space to skip. *)
Lemma skip_white_keeps (c : ascii) (r : string) :
  Js.continues c = false -> Js.startsWhite c = false ->
  Js.skip_white (String c r) = String c r.
Proof.
  intros Hc Hw. unfold Js.skip_white, Js.chars. cbn [Js.chars_from].
  pose proof (chars_from_join r) as J.
  destruct (Js.chars_from r) as [more rest]. cbn [fst snd] in J.
  rewrite Hc. cbn [Js.dropWhile].
  destruct (Js.isWhite (String c more)) eqn:E.
  - apply isWhite_startsWhite in E. congruence.
  - cbn [Js.join fold_right String.append]. fold (Js.join rest).
    rewrite J. reflexivity.
Qed.

Lemma parseInt_String_of_score (sc : Z) :
  1 <= sc <= 3 -> Js.parseInt (Js.String_of sc) = Js.Num sc.
Proof.
  intro H.
  assert (sc = 1 \/ sc = 2 \/ sc = 3) as [-> | [-> | ->]] by lia; reflexivity.
Qed.

(** ** The answer step: advancing without a selection *)

Section AssessmentStepFacts.

Variable questions : list Question.
Variable translations : Language -> Translations.
Variable getIndividualFeedback : Trait -> Js.number -> Language -> string.
Variable lang : Language.

(** Choosing an option on a question that exists and then advancing appends
    exactly one record, whose score is the parsed radio value and whose
    feedback is the English text. *)
Lemma answer_appends (value : string) (st : AssessmentStep.State) (q : Question) :
  nth_error questions (AssessmentStep.currentQuestionIndex st) = Some q ->
  exists st' effs,
    AssessmentStep.answer questions translations getIndividualFeedback lang value st
    = AssessmentStep.Returned st' effs /\
    AssessmentStep.answers st' =
      AssessmentStep.answers st ++
        [{| a_id := id q; a_trait := trait q; a_score := Js.parseInt value;
            a_feedback := getIndividualFeedback (trait q) (Js.parseInt value) en |}].
Proof.
  intro Hq.
  unfold AssessmentStep.answer, AssessmentStep.handleOptionChange,
    AssessmentStep.handleNext, AssessmentStep.currentQuestion.
  rewrite Hq. cbn [AssessmentStep.selectedOption AssessmentStep.currentQuestionIndex].
  rewrite Hq.
  destruct (Z.of_nat (AssessmentStep.currentQuestionIndex st) <? _);
    eexists; eexists; split; reflexivity.
Qed.

Lemma with_screen_same (s : App.State) (sc : App.Screen) :
  App.screen s = sc -> App.with_screen s sc = s.
Proof. intros <-. destruct s; reflexivity. Qed.


End AssessmentStepFacts.


(** ** The wizard: from the answers to the total score *)

Lemma add_Num (x y : Z) : Js.add (Js.Num x) (Js.Num y) = Js.Num (x + y).
Proof. reflexivity. Qed.

Lemma fold_scores (scores : list Js.number) (zs : list Z) (acc : Z) :
  scores = map Js.Num zs ->
  fold_left Js.add scores (Js.Num acc) = Js.Num (acc + sumScores zs).
Proof.
  intros ->. revert acc.
  induction zs as [|z zs IH]; intro acc; simpl.
  - f_equal. lia.
  - rewrite IH. f_equal. lia.
Qed.

Lemma totalScore_fold (data : list AnswerDetail) :
  App.totalScore data = fold_left Js.add (map a_score data) (Js.Num 0).
Proof.
  unfold App.totalScore. generalize (Js.Num 0).
  induction data as [|a data IH]; intro acc; simpl; [reflexivity|apply IH].
Qed.

(** The reduce over the answer list is the arithmetic sum of the scores. *)
Lemma totalScore_sum (data : list AnswerDetail) (zs : list Z) :
  map a_score data = map Js.Num zs ->
  App.totalScore data = Js.Num (sumScores zs).
Proof.
  intro H. rewrite totalScore_fold, (fold_scores _ zs 0 H). reflexivity.
Qed.

Lemma sumScores_bounds (zs : list Z) :
  Forall (fun sc => 1 <= sc <= 3) zs ->
  Z.of_nat (List.length zs) <= sumScores zs <= 3 * Z.of_nat (List.length zs).
Proof.
  induction 1 as [|z zs Hz _ IH]; simpl; [lia|].
  change (fold_right Z.add 0 zs) with (sumScores zs). lia.
Qed.

Section WizardFacts.

Variable questions : list Question.
Variable translations : Language -> Translations.
Variable getIndividualFeedback : Trait -> Js.number -> Language -> string.
Variable getFinalFeedback : Js.number -> Language -> string.
Variable getFinalAssessment : string -> Language -> string.
Variable is_email : string -> bool.
Variable statesWithDistricts : list StateEntry.
Variable today : string.
Variable storageThrows : bool.

Local Abbreviation react :=
  (App.react questions translations getIndividualFeedback getFinalFeedback
     getFinalAssessment is_email statesWithDistricts today storageThrows).
Local Abbreviation run :=
  (App.run questions translations getIndividualFeedback getFinalFeedback
     getFinalAssessment is_email statesWithDistricts today storageThrows).
Local Abbreviation runResultsEffect :=
  (App.runResultsEffect getFinalFeedback getFinalAssessment today storageThrows).

Lemma run_cons (s : App.State) (e : App.Event) (es : list App.Event) :
  run s (e :: es)
  = (fst (run (fst (react s e)) es), snd (react s e) ++ snd (run (fst (react s e)) es)).
Proof.
  cbn [App.run]. destruct (react s e) as [s1 o1].
  cbn [fst snd]. destruct (run s1 es); reflexivity.
Qed.

Lemma run_app (es1 es2 : list App.Event) (s : App.State) :
  run s (es1 ++ es2)
  = (fst (run (fst (run s es1)) es2), snd (run s es1) ++ snd (run (fst (run s es1)) es2)).
Proof.
  revert s. induction es1 as [|e es1 IH]; intro s.
  - cbn [app App.run fst snd]. destruct (run s es2); reflexivity.
  - rewrite <- app_comm_cons, !run_cons, IH. cbn [fst snd].
    rewrite app_assoc. reflexivity.
Qed.

(** The answer record [handleNext] builds for question [q] and radio value
    [String(sc)]. *)
Lemma react_optionChange (s : App.State) (quiz : AssessmentStep.State)
    (q : Question) (value : string) :
  App.screen s = App.assessment_screen quiz ->
  AssessmentStep.showInstructions quiz = false ->
  nth_error questions (AssessmentStep.currentQuestionIndex quiz) = Some q ->
  react s (App.optionChange value)
  = (App.with_screen s
       (App.assessment_screen
          {| AssessmentStep.showInstructions := false;
             AssessmentStep.currentQuestionIndex := AssessmentStep.currentQuestionIndex quiz;
             AssessmentStep.answers := AssessmentStep.answers quiz;
             AssessmentStep.selectedOption := Some value;
             AssessmentStep.currentFeedback :=
               Some (getIndividualFeedback (trait q) (Js.parseInt value) (App.lang s)) |}),
     []).
Proof.
  intros Hscreen Hshow Hq.
  unfold App.react. rewrite Hscreen, Hshow.
  unfold AssessmentStep.handleOptionChange, AssessmentStep.currentQuestion.
  rewrite Hq, Hshow. reflexivity.
Qed.

Lemma react_next_selected (s : App.State) (quiz : AssessmentStep.State)
    (q : Question) (value : string) :
  App.screen s = App.assessment_screen quiz ->
  AssessmentStep.showInstructions quiz = false ->
  AssessmentStep.selectedOption quiz = Some value ->
  nth_error questions (AssessmentStep.currentQuestionIndex quiz) = Some q ->
  let newAnswers :=
    AssessmentStep.answers quiz ++
      [{| a_id := id q; a_trait := trait q; a_score := Js.parseInt value;
          a_feedback := getIndividualFeedback (trait q) (Js.parseInt value) en |}] in
  react s App.next
  = if Z.of_nat (AssessmentStep.currentQuestionIndex quiz)
       <? Z.of_nat (List.length questions) - 1
    then
      (App.with_screen s
         (App.assessment_screen
            {| AssessmentStep.showInstructions := false;
               AssessmentStep.currentQuestionIndex :=
                 (AssessmentStep.currentQuestionIndex quiz + 1)%nat;
               AssessmentStep.answers := newAnswers;
               AssessmentStep.selectedOption := None;
               AssessmentStep.currentFeedback := None |}), [])
    else
      runResultsEffect
        (App.handleAssessmentComplete newAnswers s).
Proof.
  intros Hscreen Hshow Hsel Hq newAnswers.
  unfold App.react. rewrite Hscreen, Hshow.
  unfold AssessmentStep.handleNext, AssessmentStep.currentQuestion.
  rewrite Hsel, Hq, Hshow.
  destruct (Z.of_nat (AssessmentStep.currentQuestionIndex quiz) <? _).
  - reflexivity.
  - unfold App.quizOutcome. cbn [App.deliver].
    match goal with
    | |- (let '(s1, out1) := ?R in _) = _ =>
        change R with (runResultsEffect (App.handleAssessmentComplete newAnswers s))
    end.
    destruct (runResultsEffect (App.handleAssessmentComplete newAnswers s)) as [s1 out1].
    rewrite app_nil_r. reflexivity.
Qed.

Lemma answering_cons (sc : Z) (rest : list Z) :
  answering (sc :: rest)
  = App.optionChange (Js.String_of sc) :: App.next :: answering rest.
Proof. reflexivity. Qed.

Lemma submissions_app (a b : list Effect) :
  submissions (a ++ b) = submissions a ++ submissions b.
Proof. apply flat_map_app. Qed.

(** Entering Results with the user's details present: the effect runs once,
    sets the guard and issues one request. *)
Lemma enter_results (s : App.State) (u : UserInfo) (data : list AnswerDetail) :
  App.userData s = Some u ->
  let r := runResultsEffect (App.handleAssessmentComplete data s) in
  let p := {| ResultsStep.p_score := App.totalScore data;
              ResultsStep.p_userData := u;
              ResultsStep.p_assessmentData := data;
              ResultsStep.p_lang := App.lang s |} in
  App.screen (fst r) = App.results_screen (Some true)
  /\ App.userData (fst r) = Some u
  /\ App.lang (fst r) = App.lang s
  /\ App.assessmentData (fst r) = data
  /\ submissions (snd r)
     = [ResultsStep.submissionData getFinalFeedback getFinalAssessment today p].
Proof.
  intros Hu r p. subst r.
  unfold App.runResultsEffect, App.handleAssessmentComplete, App.resultsProps.
  cbn [App.screen App.userData App.assessmentData App.lang].
  rewrite Hu. unfold ResultsStep.effect.
  cbn [fst snd App.screen App.userData App.lang App.assessmentData].
  repeat split. rewrite submissions_app.
  destruct storageThrows; reflexivity.
Qed.

Lemma answering_reaches_results (scores : list Z) :
  forall (quiz : AssessmentStep.State) (s : App.State) (u : UserInfo),
  App.screen s = App.assessment_screen quiz ->
  App.userData s = Some u ->
  AssessmentStep.showInstructions quiz = false ->
  AssessmentStep.selectedOption quiz = None ->
  Forall (fun sc => 1 <= sc <= 3) scores ->
  scores <> [] ->
  (AssessmentStep.currentQuestionIndex quiz + List.length scores
   = List.length questions)%nat ->
  Forall (englishFeedback getIndividualFeedback) (AssessmentStep.answers quiz) ->
  exists data,
    map a_score data = map a_score (AssessmentStep.answers quiz) ++ map Js.Num scores
    /\ Forall (englishFeedback getIndividualFeedback) data
    /\ App.screen (fst (run s (answering scores))) = App.results_screen (Some true)
    /\ App.userData (fst (run s (answering scores))) = Some u
    /\ App.lang (fst (run s (answering scores))) = App.lang s
    /\ App.assessmentData (fst (run s (answering scores))) = data
    /\ submissions (snd (run s (answering scores)))
       = [ResultsStep.submissionData getFinalFeedback getFinalAssessment today
            {| ResultsStep.p_score := App.totalScore data;
               ResultsStep.p_userData := u;
               ResultsStep.p_assessmentData := data;
               ResultsStep.p_lang := App.lang s |}].
Proof.
  induction scores as [|sc rest IH]; intros quiz s u Hscreen Hu Hshow Hsel Hok Hne Hlen Heng.
  - contradiction.
  - inversion Hok as [|? ? Hsc Hrest]; subst.
    destruct (nth_error questions (AssessmentStep.currentQuestionIndex quiz))
      as [q|] eqn:Hq.
    2:{ apply nth_error_None in Hq. simpl in Hlen. lia. }
    rewrite answering_cons, !run_cons.
    rewrite (react_optionChange s quiz q _ Hscreen Hshow Hq).
    cbn [fst snd app].
    match goal with
    | |- context [react (App.with_screen s (App.assessment_screen ?quiz1)) App.next] =>
        rewrite (react_next_selected (App.with_screen s (App.assessment_screen quiz1))
                   quiz1 q (Js.String_of sc) eq_refl eq_refl eq_refl Hq)
    end.
    cbn [AssessmentStep.currentQuestionIndex AssessmentStep.answers].
    rewrite (parseInt_String_of_score sc Hsc).
    set (new := {| a_id := id q; a_trait := trait q; a_score := Js.Num sc;
                   a_feedback := getIndividualFeedback (trait q) (Js.Num sc) en |}).
    destruct rest as [|sc2 rest2].
    + assert (Hlast : (Z.of_nat (AssessmentStep.currentQuestionIndex quiz)
                       <? Z.of_nat (List.length questions) - 1) = false).
      { apply Z.ltb_ge. simpl in Hlen. lia. }
      rewrite Hlast. cbn [answering flat_map App.run fst snd].
      rewrite app_nil_r.
      destruct (enter_results (App.with_screen s (App.assessment_screen
                  {| AssessmentStep.showInstructions := false;
                     AssessmentStep.currentQuestionIndex :=
                       AssessmentStep.currentQuestionIndex quiz;
                     AssessmentStep.answers := AssessmentStep.answers quiz;
                     AssessmentStep.selectedOption := Some (Js.String_of sc);
                     AssessmentStep.currentFeedback :=
                       Some (getIndividualFeedback (trait q)
                               (Js.parseInt (Js.String_of sc)) (App.lang s)) |}))
                 u (AssessmentStep.answers quiz ++ [new]) Hu)
        as (E1 & E2 & E3 & E4 & E5).
      exists (AssessmentStep.answers quiz ++ [new]).
      split; [rewrite map_app; reflexivity|].
      split.
      { apply Forall_app. split; [exact Heng|].
        constructor; [reflexivity|constructor]. }
      split; [exact E1|]. split; [exact E2|]. split; [exact E3|].
      split; [exact E4|exact E5].
    + assert (Hmid : (Z.of_nat (AssessmentStep.currentQuestionIndex quiz)
                      <? Z.of_nat (List.length questions) - 1) = true).
      { apply Z.ltb_lt. simpl in Hlen. lia. }
      rewrite Hmid. cbn [fst snd app].
      match goal with
      | |- context [run (App.with_screen ?s0 (App.assessment_screen ?quiz2)) _] =>
          destruct (IH quiz2 (App.with_screen s0 (App.assessment_screen quiz2)) u
                      eq_refl Hu eq_refl eq_refl Hrest ltac:(discriminate)
                      ltac:(cbn [AssessmentStep.currentQuestionIndex];
                            simpl in Hlen |- *; lia)
                      ltac:(cbn [AssessmentStep.answers]; apply Forall_app;
                            split; [exact Heng|];
                            constructor; [reflexivity|constructor]))
            as (data & D1 & D2 & D3 & D4 & D5 & D6 & D7)
      end.
      cbn [AssessmentStep.answers] in D1.
      exists data.
      split.
      { rewrite D1, map_app, <- app_assoc. reflexivity. }
      split; [exact D2|].
      split; [exact D3|]. split; [exact D4|]. split; [exact D5|].
      split; [exact D6|exact D7].
Qed.

(** C2: when the user answers every catalog question in order, each with
    a score among 1, 2 and 3, the wizard reaches Results and the score it
    passes to the Results step (and to the submission sink) is the
    arithmetic sum of the per-question scores, which lies between N and 3N
    for the N questions of the catalog. *)
Theorem totalScore_is_sum_of_answers (s : App.State) (u : UserInfo) (scores : list Z) :
  App.screen s = App.assessment_screen AssessmentStep.initial ->
  App.userData s = Some u ->
  questions <> [] ->
  List.length scores = List.length questions ->
  Forall (fun sc => 1 <= sc <= 3) scores ->
  exists p,
    App.resultsProps (fst (run s (App.beginAssessment :: answering scores))) = Some p
    /\ App.step (fst (run s (App.beginAssessment :: answering scores))) = App.results
    /\ map a_score (ResultsStep.p_assessmentData p) = map Js.Num scores
    /\ ResultsStep.p_score p = Js.Num (sumScores scores)
    /\ Z.of_nat (List.length questions) <= sumScores scores
       <= 3 * Z.of_nat (List.length questions)
    /\ map s_totalScore
         (submissions (snd (run s (App.beginAssessment :: answering scores))))
       = [Js.Num (sumScores scores)].
Proof.
  intros Hscreen Hu Hq Hlen Hok.
  assert (Hne : scores <> []).
  { intros ->. destruct questions; [contradiction|discriminate]. }
  rewrite run_cons.
  assert (Hbegin : react s App.beginAssessment
                   = (App.with_screen s
                        (App.assessment_screen
                           (AssessmentStep.beginAssessment AssessmentStep.initial)), [])).
  { unfold App.react. rewrite Hscreen. reflexivity. }
  rewrite Hbegin. cbn [fst snd app].
  destruct (answering_reaches_results scores
              (AssessmentStep.beginAssessment AssessmentStep.initial)
              (App.with_screen s
                 (App.assessment_screen
                    (AssessmentStep.beginAssessment AssessmentStep.initial)))
              u eq_refl Hu eq_refl eq_refl Hok Hne Hlen (Forall_nil _))
    as (data & D1 & D2 & D3 & D4 & D5 & D6 & D7).
  cbn [AssessmentStep.answers AssessmentStep.beginAssessment AssessmentStep.initial
       map app] in D1.
  pose proof (totalScore_sum data scores D1) as Hsum.
  eexists. split.
  { unfold App.resultsProps. rewrite D4, D6. reflexivity. }
  split; [unfold App.step; rewrite D3; reflexivity|].
  cbn [ResultsStep.p_assessmentData ResultsStep.p_score].
  split; [exact D1|]. split; [exact Hsum|]. split.
  { rewrite <- Hlen. apply sumScores_bounds, Hok. }
  rewrite D7. cbn [map ResultsStep.submissionData s_totalScore ResultsStep.p_score].
  rewrite Hsum. reflexivity.
Qed.

(** *** The one-shot guard of the Results step *)

Lemma complete_effect (data : list AnswerDetail) (s : App.State) :
  let r := runResultsEffect (App.handleAssessmentComplete data s) in
  App.step (fst r) = App.results
  /\ guarded (fst r)
  /\ (List.length (submissions (snd r)) <= 1)%nat
  /\ (List.length (certificates (snd r)) <= 1)%nat.
Proof.
  destruct s as [lg ud ad sc inf].
  unfold App.runResultsEffect, App.handleAssessmentComplete, App.resultsProps,
    ResultsStep.effect, guarded, App.step.
  destruct ud; cbn; [destruct storageThrows; cbn|];
    repeat split; try lia; congruence.
Qed.

Lemma handleNext_shape (l : Language) (quiz : AssessmentStep.State) :
  let o := AssessmentStep.handleNext questions translations getIndividualFeedback l quiz in
  o = AssessmentStep.Threw
  \/ (exists quiz', o = AssessmentStep.Returned quiz' [])
  \/ (exists quiz' m, o = AssessmentStep.Returned quiz' [AssessmentStep.toast m])
  \/ (exists quiz' data, o = AssessmentStep.Returned quiz' [AssessmentStep.onComplete data]).
Proof.
  unfold AssessmentStep.handleNext.
  destruct (AssessmentStep.selectedOption quiz).
  - destruct (AssessmentStep.currentQuestion questions quiz); [|left; reflexivity].
    destruct (Z.of_nat _ <? _).
    + right; left. eexists. reflexivity.
    + right; right; right. eexists. eexists. reflexivity.
  - right; right; left. eexists. eexists. reflexivity.
Qed.

(** Every event spends at most what is left of the budget, and keeps the
    guard. *)
Lemma react_budget (s : App.State) (e : App.Event) :
  guarded s ->
  guarded (fst (react s e))
  /\ (List.length (submissions (snd (react s e))) + budget (fst (react s e))
      <= budget s)%nat
  /\ (List.length (certificates (snd (react s e))) + budget (fst (react s e))
      <= budget s)%nat.
Proof.
  intro G. destruct s as [lg ud ad sc inf]. unfold guarded in G. cbn in G.
  destruct sc as [|form|quiz|ref].
  - destruct e; cbn; repeat split; try lia; unfold guarded; cbn; congruence.
  - destruct e; cbn; try (repeat split; try lia; unfold guarded; cbn; congruence).
    destruct (UserInfoStep.handleSubmit is_email form) as [form' [data|]]; cbn;
      repeat split; try lia; unfold guarded; cbn; congruence.
  - destruct e; cbn; try (repeat split; try lia; unfold guarded; cbn; congruence).
    + destruct (AssessmentStep.showInstructions quiz); cbn;
        [repeat split; try lia; unfold guarded; cbn; congruence|].
      unfold AssessmentStep.handleOptionChange.
      destruct (AssessmentStep.currentQuestion questions quiz); cbn;
        repeat split; try lia; unfold guarded; cbn; congruence.
    + destruct (AssessmentStep.showInstructions quiz); cbn;
        [repeat split; try lia; unfold guarded; cbn; congruence|].
      destruct (handleNext_shape lg quiz)
        as [H | [(q' & H) | [(q' & m & H) | (q' & data & H)]]];
        cbn in H; rewrite H; cbn [App.quizOutcome App.deliver];
        try (cbn; repeat split; try lia; unfold guarded; cbn; congruence).
      match goal with
      | |- context [runResultsEffect (App.handleAssessmentComplete data ?s0)] =>
          pose proof (complete_effect data s0) as C;
          destruct (runResultsEffect (App.handleAssessmentComplete data s0)) as [s1 out1]
      end.
      cbn [fst snd] in C |- *. destruct C as (C1 & C2 & C3 & C4).
      assert (B : budget s1 = 0%nat) by (unfold budget; rewrite C1; reflexivity).
      rewrite app_nil_r, B.
      repeat split; [exact C2|cbn; lia|cbn; lia].
  - destruct ref as [[|]|]; [|congruence|];
      destruct e; cbn;
      try (repeat split; try lia; unfold guarded; cbn; congruence).
    + unfold App.runResultsEffect, App.resultsProps. cbn.
      destruct ud; cbn; repeat split; try lia; unfold guarded; cbn; congruence.
    + destruct inf; cbn; repeat split; try lia; unfold guarded; cbn; try congruence.
      all: destruct o as [m|m|[|] [r|]]; cbn; lia.
Qed.

Lemma certificates_app (a b : list Effect) :
  certificates (a ++ b) = certificates a ++ certificates b.
Proof. apply flat_map_app. Qed.

Lemma run_budget (es : list App.Event) :
  forall s : App.State,
  guarded s ->
  guarded (fst (run s es))
  /\ (List.length (submissions (snd (run s es))) + budget (fst (run s es))
      <= budget s)%nat
  /\ (List.length (certificates (snd (run s es))) + budget (fst (run s es))
      <= budget s)%nat.
Proof.
  induction es as [|e es IH]; intros s G.
  - cbn. repeat split; [exact G|lia|lia].
  - rewrite run_cons. cbn [fst snd].
    destruct (react_budget s e G) as (G1 & B1 & B2).
    destruct (IH _ G1) as (G2 & B3 & B4).
    rewrite submissions_app, certificates_app, !length_app.
    repeat split; [exact G2|lia|lia].
Qed.

(** C4: over a whole session, whatever the user does and however often the
    Results step is rendered again, the submission sink is called at most
    once and the certificate data is written at most once; once the
    session is on Results, no later event causes another call or write. *)
Theorem submission_at_most_once (es1 es2 : list App.Event) :
  (List.length (submissions (snd (run App.initial es1))) <= 1)%nat
  /\ (List.length (certificates (snd (run App.initial es1))) <= 1)%nat
  /\ (App.step (fst (run App.initial es1)) = App.results ->
      submissions (snd (run (fst (run App.initial es1)) es2)) = []
      /\ certificates (snd (run (fst (run App.initial es1)) es2)) = []).
Proof.
  assert (G0 : guarded App.initial) by (unfold guarded; cbn; congruence).
  destruct (run_budget es1 App.initial G0) as (G1 & B1 & B2).
  change (budget App.initial) with 1%nat in B1, B2.
  split; [lia|]. split; [lia|].
  intro Hres.
  destruct (run_budget es2 _ G1) as (_ & B3 & B4).
  assert (Hb : budget (fst (run App.initial es1)) = 0%nat)
    by (unfold budget; rewrite Hres; reflexivity).
  rewrite Hb in B3, B4.
  split; apply length_zero_iff_nil; lia.
Qed.

(** *** The display language does not reach the persisted record *)

Lemma complete_sim (data : list AnswerDetail) (s1 s2 : App.State) :
  App.userData s1 = App.userData s2 ->
  App.inflight s1 = App.inflight s2 ->
  let r1 := runResultsEffect (App.handleAssessmentComplete data s1) in
  let r2 := runResultsEffect (App.handleAssessmentComplete data s2) in
  sameSession (fst r1) (fst r2)
  /\ submissions (snd r1) = submissions (snd r2)
  /\ certificates (snd r1) = certificates (snd r2).
Proof.
  destruct s1 as [l1 u1 a1 sc1 i1], s2 as [l2 u2 a2 sc2 i2]. cbn.
  intros -> ->.
  unfold App.runResultsEffect, App.handleAssessmentComplete, App.resultsProps,
    ResultsStep.effect, sameSession.
  destruct u2; cbn; [destruct storageThrows; cbn|]; repeat split.
Qed.

Lemma react_sim (s1 s2 : App.State) (e : App.Event) :
  sameSession s1 s2 ->
  sameSession (fst (react s1 e)) (fst (react s2 e))
  /\ submissions (snd (react s1 e)) = submissions (snd (react s2 e))
  /\ certificates (snd (react s1 e)) = certificates (snd (react s2 e)).
Proof.
  destruct s1 as [l1 u1 a1 sc1 i1], s2 as [l2 u2 a2 sc2 i2].
  intros (Hu & Ha & Hi & Hsc). cbn in Hu, Ha, Hi, Hsc. subst u2 a2 i2.
  destruct sc1 as [|f1|q1|r1], sc2 as [|f2|q2|r2]; cbn in Hsc;
    try contradiction.
  - destruct e; same_trivial.
  - subst f2. destruct e; try solve [same_trivial].
    cbn. destruct (UserInfoStep.handleSubmit is_email f1) as [form' [data|]];
      same_trivial.
  - destruct q1 as [sh1 ix1 an1 se1 fb1], q2 as [sh2 ix2 an2 se2 fb2].
    destruct Hsc as (Hsh & Hix & Han & Hse). cbn in Hsh, Hix, Han, Hse.
    subst sh2 ix2 an2 se2.
    destruct e; try solve [same_trivial].
    + cbn. destruct sh1; [same_trivial|].
      unfold AssessmentStep.handleOptionChange, AssessmentStep.currentQuestion. cbn.
      destruct (nth_error questions ix1); same_trivial.
    + cbn. destruct sh1; [same_trivial|].
      unfold AssessmentStep.handleNext, AssessmentStep.currentQuestion. cbn.
      destruct se1 as [sel|]; [|same_trivial].
      destruct (nth_error questions ix1) as [q|]; [|same_trivial].
      destruct (Z.of_nat ix1 <? Z.of_nat (List.length questions) - 1);
        [same_trivial|].
      unfold App.quizOutcome. cbn [App.deliver].
      match goal with
      | |- context [runResultsEffect (App.handleAssessmentComplete ?d ?x)] =>
          match goal with
          | |- context [runResultsEffect (App.handleAssessmentComplete d ?y)] =>
              lazymatch x with
              | y => fail
              | _ =>
                  pose proof (complete_sim d x y eq_refl eq_refl) as C;
                  destruct (runResultsEffect (App.handleAssessmentComplete d x));
                  destruct (runResultsEffect (App.handleAssessmentComplete d y))
              end
          end
      end.
      cbn [fst snd] in C |- *. rewrite !app_nil_r. exact C.
  - subst r2. destruct r1 as [[|]|]; destruct e; try solve [same_trivial].
    all: cbn; unfold App.runResultsEffect, App.resultsProps, ResultsStep.effect; cbn.
    all: try (destruct u1; cbn; same_trivial).
    all: destruct i1; same_trivial.
Qed.

Lemma run_sim (es : list App.Event) :
  forall s1 s2 : App.State,
  sameSession s1 s2 ->
  submissions (snd (run s1 es)) = submissions (snd (run s2 es))
  /\ certificates (snd (run s1 es)) = certificates (snd (run s2 es)).
Proof.
  induction es as [|e es IH]; intros s1 s2 H.
  - split; reflexivity.
  - rewrite !run_cons. cbn [fst snd].
    destruct (react_sim s1 s2 e H) as (H1 & H2 & H3).
    destruct (IH _ _ H1) as (H4 & H5).
    rewrite !submissions_app, !certificates_app, H2, H3, H4, H5.
    split; reflexivity.
Qed.

Lemma complete_english (data : list AnswerDetail) (s : App.State) :
  Forall (englishFeedback getIndividualFeedback) data ->
  let r := runResultsEffect (App.handleAssessmentComplete data s) in
  englishSession getIndividualFeedback (fst r)
  /\ Forall (storedInEnglish getIndividualFeedback getFinalFeedback getFinalAssessment)
       (submissions (snd r)).
Proof.
  intro Hd. destruct s as [l u a sc i].
  unfold App.runResultsEffect, App.handleAssessmentComplete, App.resultsProps,
    ResultsStep.effect.
  destruct u; cbn; [destruct storageThrows; cbn|]; split;
    try (constructor; [|constructor]); english_trivial.
Qed.

Lemma react_english (s : App.State) (e : App.Event) :
  englishSession getIndividualFeedback s ->
  englishSession getIndividualFeedback (fst (react s e))
  /\ Forall (storedInEnglish getIndividualFeedback getFinalFeedback getFinalAssessment)
       (submissions (snd (react s e))).
Proof.
  destruct s as [l u a sc i]. intros (Ha & Hsc). cbn in Ha, Hsc.
  destruct sc as [|f|q|r].
  - destruct e; english_trivial.
  - destruct e; try english_trivial.
    cbn. destruct (UserInfoStep.handleSubmit is_email f) as [form' [data|]];
      english_trivial.
  - destruct e; try english_trivial.
    + cbn. destruct (AssessmentStep.showInstructions q); [english_trivial|].
      unfold AssessmentStep.handleOptionChange.
      destruct (AssessmentStep.currentQuestion questions q); english_trivial.
    + cbn. destruct (AssessmentStep.showInstructions q); [english_trivial|].
      unfold AssessmentStep.handleNext.
      destruct (AssessmentStep.selectedOption q) as [sel|]; [|english_trivial].
      destruct (AssessmentStep.currentQuestion questions q) as [qq|]; [|english_trivial].
      assert (Hnew : Forall (englishFeedback getIndividualFeedback)
                       (AssessmentStep.answers q ++
                          [{| a_id := id qq; a_trait := trait qq;
                              a_score := Js.parseInt sel;
                              a_feedback :=
                                getIndividualFeedback (trait qq) (Js.parseInt sel) en |}])).
      { apply Forall_app. split; [exact Hsc|].
        constructor; [reflexivity|constructor]. }
      destruct (Z.of_nat _ <? _); [english_trivial|].
      unfold App.quizOutcome. cbn [App.deliver].
      match goal with
      | |- context [runResultsEffect (App.handleAssessmentComplete ?d ?x)] =>
          pose proof (complete_english d x Hnew) as C;
          destruct (runResultsEffect (App.handleAssessmentComplete d x))
      end.
      cbn [fst snd] in C |- *. rewrite app_nil_r. exact C.
  - destruct r as [[|]|]; destruct e; try english_trivial.
    all: cbn; unfold App.runResultsEffect, App.resultsProps, ResultsStep.effect; cbn.
    all: try (destruct i; [|destruct o as [m|m|[|] [r|]]]; english_trivial).
    all: destruct u; cbn; try english_trivial.
    all: destruct storageThrows; cbn; split; try english_trivial.
    all: (constructor; [|constructor]); english_trivial.
Qed.

Lemma run_english (es : list App.Event) :
  forall s : App.State,
  englishSession getIndividualFeedback s ->
  Forall (storedInEnglish getIndividualFeedback getFinalFeedback getFinalAssessment)
    (submissions (snd (run s es))).
Proof.
  induction es as [|e es IH]; intros s H.
  - constructor.
  - rewrite run_cons. cbn [fst snd].
    destruct (react_english s e H) as (H1 & H2).
    rewrite submissions_app. apply Forall_app. split; [exact H2|apply IH, H1].
Qed.

(** C6: two sessions that receive the same events after choosing different
    display languages hand the same records to the submission sink and to
    the certificate page; in every such record each answer's feedback is
    the English text for its trait and score, and the final assessment
    text is resolved with the English locale from the total score. *)
Theorem persisted_record_ignores_language (l1 l2 : Language) (es : list App.Event) :
  submissions (snd (run App.initial (App.selectLanguage l1 :: es)))
  = submissions (snd (run App.initial (App.selectLanguage l2 :: es)))
  /\ certificates (snd (run App.initial (App.selectLanguage l1 :: es)))
     = certificates (snd (run App.initial (App.selectLanguage l2 :: es)))
  /\ Forall (storedInEnglish getIndividualFeedback getFinalFeedback getFinalAssessment)
       (submissions (snd (run App.initial (App.selectLanguage l1 :: es)))).
Proof.
  split; [|split].
  - rewrite !run_cons. cbn [fst snd App.react App.initial App.screen app].
    apply run_sim. unfold sameSession. cbn. repeat split.
  - rewrite !run_cons. cbn [fst snd App.react App.initial App.screen app].
    apply run_sim. unfold sameSession. cbn. repeat split.
  - apply run_english. unfold englishSession. cbn. split; constructor.
Qed.

End WizardFacts.

Lemma totalScore_is_sum_of_answers_witness :
  App.screen (Fixture.atAssessment hi) = App.assessment_screen AssessmentStep.initial
  /\ Forall (fun sc => 1 <= sc <= 3) [3; 3; 3; 3; 3; 3]
  /\ exists p,
       App.resultsProps
         (fst (App.run Fixture.questions Fixture.translations
                 Fixture.getIndividualFeedback Fixture.getFinalFeedback
                 Fixture.getFinalAssessment Fixture.is_email
                 Fixture.statesWithDistricts "November 2, 2026" false
                 (Fixture.atAssessment hi)
                 (App.beginAssessment :: answering [3; 3; 3; 3; 3; 3]))) = Some p
       /\ ResultsStep.p_score p = Js.Num 18.
Proof.
  assert (Hok : Forall (fun sc => 1 <= sc <= 3) [3; 3; 3; 3; 3; 3])
    by (repeat constructor; lia).
  split; [reflexivity|]. split; [exact Hok|].
  destruct (totalScore_is_sum_of_answers Fixture.questions Fixture.translations
              Fixture.getIndividualFeedback Fixture.getFinalFeedback
              Fixture.getFinalAssessment Fixture.is_email
              Fixture.statesWithDistricts "November 2, 2026" false
              (Fixture.atAssessment hi) Fixture.user [3; 3; 3; 3; 3; 3]
              eq_refl eq_refl ltac:(discriminate) eq_refl Hok)
    as (p & H1 & _ & _ & H4 & _).
  exists p. split; [exact H1|exact H4].
Defined.

Lemma submission_at_most_once_witness :
  App.step
    (fst (App.run Fixture.questions Fixture.translations
            Fixture.getIndividualFeedback Fixture.getFinalFeedback
            Fixture.getFinalAssessment Fixture.is_email
            Fixture.statesWithDistricts "November 2, 2026" false
            App.initial (Fixture.fullSession hi [1; 2; 3; 1; 2; 3]))) = App.results
  /\ submissions
       (snd (App.run Fixture.questions Fixture.translations
               Fixture.getIndividualFeedback Fixture.getFinalFeedback
               Fixture.getFinalAssessment Fixture.is_email
               Fixture.statesWithDistricts "November 2, 2026" false
               (fst (App.run Fixture.questions Fixture.translations
                       Fixture.getIndividualFeedback Fixture.getFinalFeedback
                       Fixture.getFinalAssessment Fixture.is_email
                       Fixture.statesWithDistricts "November 2, 2026" false
                       App.initial (Fixture.fullSession hi [1; 2; 3; 1; 2; 3])))
               [App.rerender; App.rerender; App.viewCertificate])) = [].
Proof.
  assert (Hres :
    App.step
      (fst (App.run Fixture.questions Fixture.translations
              Fixture.getIndividualFeedback Fixture.getFinalFeedback
              Fixture.getFinalAssessment Fixture.is_email
              Fixture.statesWithDistricts "November 2, 2026" false
              App.initial (Fixture.fullSession hi [1; 2; 3; 1; 2; 3]))) = App.results)
    by (vm_compute; reflexivity).
  split; [exact Hres|].
  apply (submission_at_most_once Fixture.questions Fixture.translations
           Fixture.getIndividualFeedback Fixture.getFinalFeedback
           Fixture.getFinalAssessment Fixture.is_email
           Fixture.statesWithDistricts "November 2, 2026" false
           (Fixture.fullSession hi [1; 2; 3; 1; 2; 3])
           [App.rerender; App.rerender; App.viewCertificate]).
  exact Hres.
Defined.

(** ** The certificate *)

Lemma add_comm (a b : Js.number) : Js.add a b = Js.add b a.
Proof. destruct a, b; simpl; try reflexivity. f_equal. lia. Qed.

Lemma add_assoc (a b c : Js.number) : Js.add (Js.add a b) c = Js.add a (Js.add b c).
Proof. destruct a, b, c; simpl; try reflexivity. f_equal. lia. Qed.

Lemma fold_add_acc (l : list Js.number) (acc x : Js.number) :
  fold_left Js.add l (Js.add acc x) = Js.add (fold_left Js.add l acc) x.
Proof.
  revert acc. induction l as [|y l IH]; intro acc; simpl; [reflexivity|].
  rewrite <- IH. f_equal. rewrite !add_assoc. f_equal. apply add_comm.
Qed.

(** Every answer contributes its score to the total, wherever it stands. *)
Lemma totalScore_includes (pre post : list AnswerDetail) (c : AnswerDetail) :
  App.totalScore (pre ++ c :: post) = Js.add (App.totalScore (pre ++ post)) (a_score c).
Proof.
  rewrite !totalScore_fold, !map_app, !fold_left_app. simpl.
  apply fold_add_acc.
Qed.

Lemma sumScores_app (zs1 zs2 : list Z) :
  sumScores (zs1 ++ zs2) = sumScores zs1 + sumScores zs2.
Proof.
  unfold sumScores. induction zs1 as [|z zs1 IH]; cbn [app fold_right]; lia.
Qed.

(** The column of a trait holds the score of the first answer for it. *)
Lemma traitScore_first (t : Trait) (pre post : list AnswerDetail) (c : AnswerDetail) :
  Forall (fun a => a_trait a <> t) pre -> a_trait c = t ->
  LogRoute.traitScore t (pre ++ c :: post) = a_score c.
Proof.
  intros Hpre Hc. unfold LogRoute.traitScore.
  induction Hpre as [|a pre Ha _ IH]; cbn [app find].
  - assert (E : Trait_eqb (a_trait c) t = true) by (apply Trait_eqb_eq, Hc).
    rewrite E. reflexivity.
  - assert (E : Trait_eqb (a_trait a) t = false) by (apply Trait_eqb_neq, Ha).
    rewrite E. exact IH.
Qed.

Section CertificateFacts.

Variable translations : Language -> Translations.
Variable getIndividualFeedback : Trait -> Js.number -> Language -> string.

Local Abbreviation CertificateContent :=
  (Certificate.CertificateContent translations getIndividualFeedback).
Local Abbreviation renderRow :=
  (Certificate.renderRow translations getIndividualFeedback).

Lemma mapT_fst {A B : Type} (f : A -> Certificate.Traced B) (l : list A) :
  fst (Certificate.mapT f l) = map (fun x => fst (f x)) l.
Proof.
  induction l as [|x l IH]; [reflexivity|].
  cbn [Certificate.mapT Certificate.bind Certificate.ret map].
  destruct (f x) as [y t1]. destruct (Certificate.mapT f l) as [ys t2].
  cbn [fst] in IH. cbn. rewrite IH. reflexivity.
Qed.

Lemma mapT_snd {A B : Type} (f : A -> Certificate.Traced B) (l : list A) :
  snd (Certificate.mapT f l) = flat_map (fun x => snd (f x)) l.
Proof.
  induction l as [|x l IH]; [reflexivity|].
  cbn [Certificate.mapT Certificate.bind Certificate.ret flat_map].
  destruct (f x) as [y t1]. destruct (Certificate.mapT f l) as [ys t2].
  cbn [snd] in IH. cbn. rewrite IH, app_nil_r. reflexivity.
Qed.

Lemma content_rows (data : CertificateData) (l : Language) :
  Certificate.page_rows (fst (CertificateContent data l))
  = map (fun item => fst (renderRow l item)) (Certificate.detailedResults data).
Proof.
  unfold Certificate.CertificateContent, Certificate.bind.
  rewrite <- mapT_fst.
  destruct (Certificate.mapT _ _) as [rows t]. reflexivity.
Qed.

Lemma content_calls (data : CertificateData) (l : Language) :
  snd (CertificateContent data l)
  = map (fun a => Certificate.call_getIndividualFeedback (a_trait a) (a_score a) l)
      (Certificate.detailedResults data).
Proof.
  unfold Certificate.CertificateContent, Certificate.bind.
  pose proof (mapT_snd (renderRow l) (Certificate.detailedResults data)) as H.
  destruct (Certificate.mapT _ _) as [rows t]. cbn [snd Certificate.ret] in H |- *.
  rewrite app_nil_r, H. clear H.
  induction (Certificate.detailedResults data) as [|a rest IH]; [reflexivity|].
  cbn. rewrite <- IH. reflexivity.
Qed.

Lemma content_summary (data : CertificateData) (l : Language) :
  Certificate.page_lang (fst (CertificateContent data l)) = l
  /\ Certificate.page_summary (fst (CertificateContent data l))
     = match l with
       | en => c_finalAssessmentText data
       | hi => cert_finalAssessment (translations hi) (c_finalAssessmentText data)
       end.
Proof.
  unfold Certificate.CertificateContent, Certificate.bind.
  destruct (Certificate.mapT _ _) as [rows t]. split; reflexivity.
Qed.

(** C10: on either page of the certificate the detailed results are the
    answers whose trait is not Courage, in order, each with its score and
    the feedback for its trait and score; an answer is listed exactly when
    it is in the record and its trait is not Courage. The Courage answer
    still counts. Let the record hold a Courage answer [c] of score [k],
    after answers of scores [zs1] and before answers of scores [zs2]: [c]
    is not listed, yet the total the wizard computes is the sum of [zs1],
    [k] and [zs2], and the row the log route builds from the submission of
    the same user and answers has [k] in its Courage column and that sum
    as its total, keeps [c] in its answer list and its feedback among the
    feedback comments. *)
Theorem certificate_omits_courage (data : CertificateData) (l : Language) :
  let rows := Certificate.page_rows (fst (CertificateContent data l)) in
  let shown :=
    filter (fun a => negb (Trait_eqb (a_trait a) Courage)) (c_assessmentData data) in
  map Certificate.row_key rows = map a_id shown
  /\ map Certificate.row_score rows = map a_score shown
  /\ map Certificate.row_feedback rows
     = map (fun a => getIndividualFeedback (a_trait a) (a_score a) l) shown
  /\ (forall a, In a shown <-> In a (c_assessmentData data) /\ a_trait a <> Courage)
  /\ (forall pre c post zs1 k zs2,
        c_assessmentData data = pre ++ c :: post ->
        a_trait c = Courage ->
        Forall (fun a => a_trait a <> Courage) pre ->
        map a_score pre = map Js.Num zs1 ->
        a_score c = Js.Num k ->
        map a_score post = map Js.Num zs2 ->
        ~ In c shown
        /\ App.totalScore (c_assessmentData data)
           = Js.Num (sumScores zs1 + k + sumScores zs2)
        /\ forall gff gfa today lang,
             let p :=
               {| ResultsStep.p_score := App.totalScore (c_assessmentData data);
                  ResultsStep.p_userData := c_user data;
                  ResultsStep.p_assessmentData := c_assessmentData data;
                  ResultsStep.p_lang := lang |} in
             let row :=
               LogRoute.saveAssessmentToSupabase
                 (ResultsStep.submissionData gff gfa today p) in
             LogRoute.courage_score row = Js.Num k
             /\ LogRoute.total_score row = Js.Num (sumScores zs1 + k + sumScores zs2)
             /\ In c (LogRoute.assessment_data row)
             /\ In {| LogRoute.fc_trait := Courage;
                      LogRoute.fc_feedback := a_feedback c |}
                   (LogRoute.feedback_comments row)).
Proof.
  intros rows shown. subst rows. rewrite content_rows.
  change (Certificate.detailedResults data) with shown.
  rewrite !map_map. cbn [Certificate.renderRow Certificate.bind
    Certificate.getIndividualFeedbackT Certificate.ret fst
    Certificate.row_key Certificate.row_score Certificate.row_feedback].
  split; [reflexivity|]. split; [reflexivity|]. split; [reflexivity|].
  assert (Hshown : forall a,
            In a shown <-> In a (c_assessmentData data) /\ a_trait a <> Courage).
  { intro a. subst shown. rewrite filter_In, negb_true_iff, Trait_eqb_neq.
    reflexivity. }
  split; [exact Hshown|].
  intros pre c post zs1 k zs2 Hdata Hc Hpre H1 Hk H2.
  assert (Htotal : App.totalScore (c_assessmentData data)
                   = Js.Num (sumScores zs1 + k + sumScores zs2)).
  { rewrite (totalScore_sum _ (zs1 ++ k :: zs2)).
    - rewrite sumScores_app. cbn [sumScores fold_right].
      fold (sumScores zs2). f_equal. lia.
    - rewrite Hdata, !map_app. cbn [map]. rewrite H1, Hk, H2. reflexivity. }
  split; [|split; [exact Htotal|]].
  - intro Hin. apply Hshown in Hin. destruct Hin as (_ & Hne). contradiction.
  - intros gff gfa today lang.
    cbn [LogRoute.saveAssessmentToSupabase ResultsStep.submissionData
         LogRoute.courage_score LogRoute.total_score LogRoute.assessment_data
         LogRoute.feedback_comments s_assessmentData s_totalScore
         ResultsStep.p_assessmentData ResultsStep.p_score].
    split; [|split; [exact Htotal|split]].
    + rewrite Hdata, (traitScore_first Courage pre post c Hpre Hc). exact Hk.
    + rewrite Hdata. apply in_or_app. right. left. reflexivity.
    + rewrite Hdata, map_app. apply in_or_app. right. left.
      rewrite Hc. reflexivity.
Qed.

(** C7, as the code has it: rendering the certificate resolves the feedback
    of every listed answer again, once per page, through
    getIndividualFeedback in that page's language, and makes no other call
    into the feedback functions; what each page displays for an answer is
    the result of that call, not the feedback string stored with the
    answer. The summary is the stored final assessment
    text (passed through the Hindi translation on the Hindi page), and the
    three print variants are selections of the same two pages. *)
Theorem certificate_rendered_from_record (data : CertificateData) :
  let shown :=
    filter (fun a => negb (Trait_eqb (a_trait a) Courage)) (c_assessmentData data) in
  let pages := fst (Certificate.Certificate translations getIndividualFeedback data) in
  snd (Certificate.Certificate translations getIndividualFeedback data)
  = map (fun a => Certificate.call_getIndividualFeedback (a_trait a) (a_score a) en) shown
    ++ map (fun a => Certificate.call_getIndividualFeedback (a_trait a) (a_score a) hi) shown
  /\ pages = [fst (CertificateContent data en); fst (CertificateContent data hi)]
  /\ map Certificate.page_summary pages
     = [c_finalAssessmentText data;
        cert_finalAssessment (translations hi) (c_finalAssessmentText data)]
  /\ Certificate.printed Certificate.print_all pages = pages
  /\ Certificate.printed Certificate.print_en pages = [fst (CertificateContent data en)]
  /\ Certificate.printed Certificate.print_hi pages = [fst (CertificateContent data hi)]
  /\ map (fun p => map Certificate.row_feedback (Certificate.page_rows p)) pages
     = [map (fun a => getIndividualFeedback (a_trait a) (a_score a) en) shown;
        map (fun a => getIndividualFeedback (a_trait a) (a_score a) hi) shown].
Proof.
  intros shown pages. subst pages.
  assert (Hfb : forall l,
            map Certificate.row_feedback
              (Certificate.page_rows (fst (CertificateContent data l)))
            = map (fun a => getIndividualFeedback (a_trait a) (a_score a) l) shown).
  { intro l. rewrite content_rows, map_map. reflexivity. }
  pose proof (Hfb en) as Fen. pose proof (Hfb hi) as Fhi. clear Hfb.
  pose proof (content_calls data en) as Cen.
  pose proof (content_calls data hi) as Chi.
  destruct (content_summary data en) as (Len & Sen).
  destruct (content_summary data hi) as (Lhi & Shi).
  unfold Certificate.Certificate, Certificate.bind, Certificate.ret.
  destruct (CertificateContent data en) as [p_en t_en].
  destruct (CertificateContent data hi) as [p_hi t_hi].
  cbn [fst snd] in *. rewrite app_nil_r, Cen, Chi.
  split; [reflexivity|]. split; [reflexivity|].
  cbn [map]. rewrite Sen, Shi. split; [reflexivity|].
  unfold Certificate.printed. cbn [filter]. rewrite Len, Lhi.
  rewrite Fen, Fhi. repeat split.
Qed.

End CertificateFacts.

(** C7, as the specification words it, fails: rendering the certificate of
    a record with a Gratitude answer calls getIndividualFeedback. *)
Lemma certificate_calls_engine :
  In (Certificate.call_getIndividualFeedback Gratitude (Js.Num 3) hi)
     (snd (Certificate.Certificate Fixture.translations
             Fixture.getIndividualFeedback Fixture.certificate))
  /\ ~ (forall data : CertificateData,
          snd (Certificate.Certificate Fixture.translations
                 Fixture.getIndividualFeedback data) = []).
Proof.
  split.
  - vm_compute. right; right; right; right; right. left. reflexivity.
  - intro H. specialize (H Fixture.certificate). vm_compute in H. discriminate H.
Qed.

Lemma certificate_omits_courage_witness :
  let courage := Fixture.answer 6 Courage 3 in
  let pre :=
    [Fixture.answer 1 Gratitude 3; Fixture.answer 2 Resilience 2;
     Fixture.answer 3 Empathy 1; Fixture.answer 4 Sociability 3;
     Fixture.answer 5 SocialCognition 2] in
  c_assessmentData Fixture.certificate = pre ++ courage :: []
  /\ a_trait courage = Courage
  /\ Forall (fun a => a_trait a <> Courage) pre
  /\ map Certificate.row_key
       (Certificate.page_rows
          (fst (Certificate.CertificateContent Fixture.translations
                  Fixture.getIndividualFeedback Fixture.certificate hi)))
     = [1; 2; 3; 4; 5]
  /\ App.totalScore (c_assessmentData Fixture.certificate) = Js.Num 14
  /\ LogRoute.courage_score
       (LogRoute.saveAssessmentToSupabase
          (ResultsStep.submissionData Fixture.getFinalFeedback
             Fixture.getFinalAssessment "November 2, 2026"
             {| ResultsStep.p_score := App.totalScore (c_assessmentData Fixture.certificate);
                ResultsStep.p_userData := c_user Fixture.certificate;
                ResultsStep.p_assessmentData := c_assessmentData Fixture.certificate;
                ResultsStep.p_lang := hi |}))
     = Js.Num 3.
Proof.
  intros courage pre.
  assert (Hd : c_assessmentData Fixture.certificate = pre ++ courage :: [])
    by reflexivity.
  assert (Hc : a_trait courage = Courage) by reflexivity.
  assert (Hp : Forall (fun a => a_trait a <> Courage) pre)
    by (repeat constructor; discriminate).
  destruct (certificate_omits_courage Fixture.translations
              Fixture.getIndividualFeedback Fixture.certificate hi)
    as (H1 & _ & _ & _ & H5).
  destruct (H5 pre courage [] [3; 2; 1; 3; 2] 3 [] Hd Hc Hp eq_refl eq_refl eq_refl)
    as (_ & Ht & Hrow).
  destruct (Hrow Fixture.getFinalFeedback Fixture.getFinalAssessment
              "November 2, 2026" hi) as (Hk & _).
  split; [exact Hd|]. split; [exact Hc|]. split; [exact Hp|].
  split; [rewrite H1; reflexivity|].
  split; [exact Ht|exact Hk].
Defined.

(** ** Personal details: state and district *)

Section UserInfoFacts.

Variable is_email : string -> bool.
Variable table : list StateEntry.

Lemma min_len_nil (n : nat) (f : UserInfoStep.Field) (msg s : string) :
  UserInfoStep.min_len n f msg s = [] <-> (n <= Js.length s)%nat.
Proof.
  unfold UserInfoStep.min_len.
  destruct (Nat.leb n (Js.length s)) eqn:E.
  - apply Nat.leb_le in E. tauto.
  - apply Nat.leb_gt in E. split; [discriminate|lia].
Qed.

Lemma required_min1_nil (f : UserInfoStep.Field) (msg : string) (v : option string) :
  UserInfoStep.required_min1 f msg v = [] <-> exists c r, v = Some (String c r).
Proof.
  destruct v as [s|]; cbn [UserInfoStep.required_min1].
  - unfold UserInfoStep.min_len.
    destruct (Nat.leb 1 (Js.length s)) eqn:E.
    + apply Nat.leb_le, length_pos in E.
      destruct s as [|c r]; [contradiction|].
      split; [intros _; exists c, r; reflexivity|reflexivity].
    + apply Nat.leb_gt in E.
      split; [discriminate|]. intros (c & r & H). injection H as ->.
      assert (X : (1 <= Js.length (String c r))%nat)
        by (apply length_pos; discriminate).
      lia.
  - split; [discriminate|]. intros (c & r & H). discriminate H.
Qed.

(** What a successful validation says about state and district: both are
    the form's values and both are non-empty; nothing else is asked. *)
Lemma formSchema_success (v : UserInfoStep.FormValues) (data : UserInfo) :
  UserInfoStep.formSchema is_email v = UserInfoStep.success data ->
  UserInfoStep.issues_of is_email v = []
  /\ (exists c r, UserInfoStep.v_state v = Some (String c r) /\ state data = String c r)
  /\ (exists c r, UserInfoStep.v_district v = Some (String c r)
                  /\ district data = String c r).
Proof.
  unfold UserInfoStep.formSchema.
  destruct (UserInfoStep.issues_of is_email v) eqn:E; [|discriminate].
  unfold UserInfoStep.issues_of in E.
  do 7 (apply app_eq_nil in E; destruct E as (_ & E)).
  apply app_eq_nil in E. destruct E as (Es & Ed).
  apply required_min1_nil in Es. destruct Es as (cs & rs & Es).
  apply required_min1_nil in Ed. destruct Ed as (cd & rd & Ed).
  rewrite Es, Ed.
  destruct (UserInfoStep.v_age v); [|discriminate].
  destruct (option_map Gender_of_string (UserInfoStep.v_gender v)) as [[g|]|];
    try discriminate.
  intro H. injection H as <-. cbn.
  split; [reflexivity|]. split; [exists cs, rs|exists cd, rd]; split; reflexivity.
Qed.

Lemma mount_consistent : pickerConsistent table (UserInfoStep.mount table).
Proof. unfold pickerConsistent. cbn. split; [reflexivity|exact I]. Qed.

Lemma stateEffect_consistent (st : UserInfoStep.State) :
  pickerConsistent table (UserInfoStep.stateEffect table st).
Proof.
  unfold pickerConsistent, UserInfoStep.stateEffect.
  destruct (UserInfoStep.v_state (UserInfoStep.values st)) as [[|c r]|] eqn:E; cbn;
    rewrite ?E; try reflexivity.
  split; [reflexivity|exact I].
Qed.

Lemma edit_consistent (a : UserInfoStep.Action) (st : UserInfoStep.State) :
  pickerConsistent table st -> pickerConsistent table (UserInfoStep.edit table a st).
Proof.
  intro H. destruct a; try exact H.
  - (* pickState *)
    unfold UserInfoStep.edit.
    destruct (nth_error (UserInfoStep.states table) i) as [s|]; [|exact H].
    destruct (UserInfoStep.same_state
                (UserInfoStep.v_state (UserInfoStep.values st)) (Some s)) eqn:E.
    + destruct (UserInfoStep.v_state (UserInfoStep.values st)) as [s0|] eqn:E0;
        [|discriminate].
      cbn in E. apply String.eqb_eq in E. subst s0.
      unfold pickerConsistent in *. cbn. rewrite E0 in H. exact H.
    + apply stateEffect_consistent.
  - (* pickDistrict *)
    unfold UserInfoStep.edit.
    destruct (nth_error (UserInfoStep.districts st) i) as [d|] eqn:E; [|exact H].
    unfold pickerConsistent in *. cbn.
    destruct (UserInfoStep.v_state (UserInfoStep.values st)) as [[|c r]|];
      try exact H.
    split; [apply H|]. apply nth_error_In in E. exact E.
Qed.

Lemma fill_consistent (actions : list UserInfoStep.Action) :
  pickerConsistent table (fill table actions).
Proof.
  unfold fill. generalize (UserInfoStep.mount table), mount_consistent.
  induction actions as [|a actions IH]; intros st H; [exact H|].
  cbn [fold_left]. apply IH, edit_consistent, H.
Qed.

End UserInfoFacts.

(** ** The transliteration route *)

Section TransliterateFacts.

Import Transliterate.

(** After the [try] block has read the body, reading it again rejects. *)
Lemma attempt_uses_body (req : Request) (up : Upstream) :
  bodyUsed req = false -> bodyUsed (snd (attempt req up)) = true.
Proof.
  intro H. unfold attempt, req_json. rewrite H.
  destruct (parsed req) as [j|]; [|reflexivity].
  destruct (destructure_text j) as [text|]; [|reflexivity].
  destruct (negb (truthy text)); [reflexivity|].
  destruct up; try reflexivity.
  match goal with |- context [if ?c then _ else _] => destruct c end; reflexivity.
Qed.

(** Whenever the [try] block throws, the [catch] cannot recover the text:
    the answer carries the empty string. *)
Lemma fallback_after_throw (req : Request) (up : Upstream) :
  bodyUsed req = false ->
  fst (attempt req up) = None ->
  POST req up = response 200 (transliteration_body (Some (jstr ""))).
Proof.
  intros Hfresh Hthrow. unfold POST.
  pose proof (attempt_uses_body req up Hfresh) as Hused.
  destruct (attempt req up) as [[r|] req1]; [discriminate|].
  cbn [snd] in Hused. unfold req_json. rewrite Hused. reflexivity.
Qed.

Lemma truthy_nonempty (c : ascii) (r : string) :
  truthy (Some (jstr (String c r))) = true.
Proof. reflexivity. Qed.

(** C9, as the code has it: a request with an empty text, or with a body
    that has no text or a falsy one, is answered with
    status 400 and an error body. For a non-empty text and an upstream
    answer that parses, the response has status 200 and a transliteration
    body: the first candidate when the answer has the SUCCESS shape with a
    non-empty candidate, and the input text when the answer does not start
    with SUCCESS. *)
Theorem transliterate_responses (c : ascii) (r : string) :
  (forall up, POST (request_with_text "") up
              = response 400 (error_body "Text is required"))
  /\ (forall cw rw more meta,
        POST (request_with_text (String c r))
          (up_json (googleSuccess (String c r) (String cw rw) more meta))
        = response 200 (transliteration_body (Some (jstr (String cw rw)))))
  /\ (forall data,
        index data 0 <> Some (jstr "SUCCESS") ->
        POST (request_with_text (String c r)) (up_json data)
        = response 200 (transliteration_body (Some (jstr (String c r)))))
  /\ (forall data, exists v,
        POST (request_with_text (String c r)) (up_json data)
        = response 200 (transliteration_body v))
  /\ (forall fields up,
        field "text" fields = None ->
        POST {| parsed := Some (jobj fields); bodyUsed := false |} up
        = response 400 (error_body "Text is required"))
  /\ (forall j text up,
        destructure_text j = Some text -> truthy text = false ->
        POST {| parsed := Some j; bodyUsed := false |} up
        = response 400 (error_body "Text is required")).
Proof.
  split; [|split; [|split; [|split; [|split]]]].
  5:{ intros fields up Hnone. unfold POST, attempt, req_json.
      cbn [bodyUsed parsed destructure_text]. rewrite Hnone. reflexivity. }
  5:{ intros j text up Hd Ht. unfold POST, attempt, req_json.
      cbn [bodyUsed parsed]. rewrite Hd, Ht. reflexivity. }
  - intro up. reflexivity.
  - intros cw rw more meta. reflexivity.
  - intros data Hne.
    unfold POST, attempt, request_with_text, req_json.
    cbn [bodyUsed parsed destructure_text field String.eqb fst snd].
    cbn [truthy negb String.eqb Ascii.eqb Bool.eqb].
    assert (Hs : match index data 0 with
                 | Some (jstr s) => String.eqb s "SUCCESS"
                 | _ => false
                 end = false).
    { destruct (index data 0) as [[| | |s| |]|]; try reflexivity.
      destruct (String.eqb s "SUCCESS") eqn:E; [|reflexivity].
      apply String.eqb_eq in E. subst s. contradiction. }
    rewrite Hs, andb_false_r. reflexivity.
  - intro data.
    unfold POST, attempt, request_with_text, req_json.
    cbn [bodyUsed parsed destructure_text field String.eqb fst snd].
    cbn [truthy negb String.eqb Ascii.eqb Bool.eqb].
    match goal with |- context [if ?b then _ else _] => destruct b end;
      eexists; reflexivity.
Qed.

End TransliterateFacts.

(** C9, as the specification words it, fails: the body [{ text: "" }]
    carries a string, and the answer is an error with status 400. *)
Lemma empty_text_gets_an_error :
  Transliterate.POST (Transliterate.request_with_text "")
    (Transliterate.up_json (Transliterate.googleSuccess "" "x" [] []))
  = Transliterate.response 400 (Transliterate.error_body "Text is required")
  /\ ~ (exists v,
          Transliterate.POST (Transliterate.request_with_text "")
            (Transliterate.up_json (Transliterate.googleSuccess "" "x" [] []))
          = Transliterate.response 200 (Transliterate.transliteration_body v)).
Proof.
  split; [reflexivity|].
  intros (v & H). discriminate H.
Qed.

(** The fallback of the [catch] block at work: the upstream answers 500
    for the text "ram", and the answer carries the empty string. *)
Example fallback_loses_the_text :
  Transliterate.POST (Transliterate.request_with_text "ram")
    (Transliterate.up_not_ok 500)
  = Transliterate.response 200
      (Transliterate.transliteration_body (Some (Transliterate.jstr ""))).
Proof. apply fallback_after_throw; reflexivity. Qed.

Lemma transliterate_responses_witness :
  Transliterate.index (Transliterate.jarr [Transliterate.jstr "FAILED"]) 0
  <> Some (Transliterate.jstr "SUCCESS")
  /\ Transliterate.POST (Transliterate.request_with_text "ram")
       (Transliterate.up_json (Transliterate.jarr [Transliterate.jstr "FAILED"]))
     = Transliterate.response 200
         (Transliterate.transliteration_body (Some (Transliterate.jstr "ram"))).
Proof.
  assert (H : Transliterate.index (Transliterate.jarr [Transliterate.jstr "FAILED"]) 0
              <> Some (Transliterate.jstr "SUCCESS")) by (cbn; discriminate).
  split; [exact H|].
  destruct (transliterate_responses "r" "am") as (_ & _ & H3 & _).
  exact (H3 _ H).
Defined.

(** * Further properties of the code *)

(** ** The wizard as a whole *)

Lemma firstn_succ_nth {A : Type} (l : list A) :
  forall (i : nat) (x : A),
  nth_error l i = Some x -> firstn (S i) l = firstn i l ++ [x].
Proof.
  induction l as [|y l IH]; intros [|i] x H; try discriminate.
  - injection H as ->. reflexivity.
  - cbn [firstn app]. f_equal. apply IH, H.
Qed.

Section WizardInvariants.

Variable questions : list Question.
Variable translations : Language -> Translations.
Variable getIndividualFeedback : Trait -> Js.number -> Language -> string.
Variable getFinalFeedback : Js.number -> Language -> string.
Variable getFinalAssessment : string -> Language -> string.
Variable is_email : string -> bool.
Variable statesWithDistricts : list StateEntry.
Variable today : string.
Variable storageThrows : bool.

Local Abbreviation react :=
  (App.react questions translations getIndividualFeedback getFinalFeedback
     getFinalAssessment is_email statesWithDistricts today storageThrows).
Local Abbreviation run :=
  (App.run questions translations getIndividualFeedback getFinalFeedback
     getFinalAssessment is_email statesWithDistricts today storageThrows).
Local Abbreviation runResultsEffect :=
  (App.runResultsEffect getFinalFeedback getFinalAssessment today storageThrows).

Hypothesis catalog_not_empty : questions <> [].

Lemma complete_wellFormed (data : list AnswerDetail) (s : App.State) :
  App.userData s <> None ->
  map answerKey data = map questionKey questions ->
  wellFormed questions (fst (runResultsEffect (App.handleAssessmentComplete data s)))
  /\ ~ In uncaught_error (snd (runResultsEffect (App.handleAssessmentComplete data s))).
Proof.
  intros Hu Hd. destruct s as [l u a sc i]. cbn in Hu.
  destruct u as [u|]; [|contradiction].
  unfold App.runResultsEffect, App.handleAssessmentComplete, App.resultsProps,
    ResultsStep.effect, wellFormed.
  cbn. destruct storageThrows; cbn; repeat split; try assumption; try discriminate.
  all: intros H; repeat (destruct H as [H|H]; try discriminate H); exact H.
Qed.

Ltac wf_trivial :=
  solve [unfold wellFormed in *; cbn in *;
         repeat split; try tauto; try discriminate;
         try (intros H; repeat (destruct H as [H|H]; try discriminate H); exact H)].

Lemma react_wellFormed (s : App.State) (e : App.Event) :
  wellFormed questions s ->
  wellFormed questions (fst (react s e)) /\ ~ In uncaught_error (snd (react s e)).
Proof.
  destruct s as [l u a sc i]. intro W.
  destruct sc as [|f|q|r].
  - destruct e; try wf_trivial.
  - destruct e; try wf_trivial.
    cbn. destruct (UserInfoStep.handleSubmit is_email f) as [form' [data|]];
      [|wf_trivial].
    unfold wellFormed. cbn. repeat split; try discriminate; try tauto.
    destruct questions; [contradiction|cbn; lia].
  - unfold wellFormed in W. cbn in W. destruct W as (Hidx & Hans & Hu).
    destruct (nth_error questions (AssessmentStep.currentQuestionIndex q))
      as [qq|] eqn:Hq.
    2:{ apply nth_error_None in Hq. lia. }
    destruct e; try wf_trivial.
    + cbn. destruct (AssessmentStep.showInstructions q); [wf_trivial|].
      unfold AssessmentStep.handleOptionChange, AssessmentStep.currentQuestion.
      rewrite Hq. wf_trivial.
    + cbn. destruct (AssessmentStep.showInstructions q); [wf_trivial|].
      unfold AssessmentStep.handleNext, AssessmentStep.currentQuestion.
      destruct (AssessmentStep.selectedOption q) as [sel|]; [|wf_trivial].
      rewrite Hq.
      assert (Hnew : map answerKey
                       (AssessmentStep.answers q ++
                          [{| a_id := id qq; a_trait := trait qq;
                              a_score := Js.parseInt sel;
                              a_feedback :=
                                getIndividualFeedback (trait qq) (Js.parseInt sel) en |}])
                     = map questionKey
                         (firstn (S (AssessmentStep.currentQuestionIndex q)) questions)).
      { rewrite (firstn_succ_nth _ _ _ Hq), !map_app, Hans. reflexivity. }
      destruct (Z.of_nat _ <? _) eqn:Hlt.
      * apply Z.ltb_lt in Hlt. unfold wellFormed. cbn.
        rewrite Nat.add_1_r. repeat split; try assumption; try lia; tauto.
      * apply Z.ltb_ge in Hlt.
        assert (Hlast : S (AssessmentStep.currentQuestionIndex q)
                        = List.length questions) by lia.
        rewrite Hlast, firstn_all in Hnew.
        unfold App.quizOutcome. cbn [App.deliver].
        match goal with
        | |- context [runResultsEffect (App.handleAssessmentComplete ?d ?x)] =>
            pose proof (complete_wellFormed d x Hu Hnew) as C;
            destruct (runResultsEffect (App.handleAssessmentComplete d x))
        end.
        cbn [fst snd] in C |- *. rewrite app_nil_r. exact C.
  - unfold wellFormed in W. cbn in W. destruct W as (Hd & Hr & Hu).
    destruct r as [ref|]; [|contradiction].
    destruct u as [u|]; [|contradiction].
    destruct e; try wf_trivial.
    + cbn. unfold App.runResultsEffect, App.resultsProps, ResultsStep.effect. cbn.
      destruct ref; [wf_trivial|]. destruct storageThrows; wf_trivial.
    + cbn. destruct i; [wf_trivial|].
      destruct o as [m|m|[|] [res|]]; wf_trivial.
Qed.

Lemma run_wellFormed (es : list App.Event) :
  forall s : App.State,
  wellFormed questions s ->
  wellFormed questions (fst (run s es)) /\ ~ In uncaught_error (snd (run s es)).
Proof.
  induction es as [|e es IH]; intros s W.
  - cbn. split; [exact W|tauto].
  - rewrite run_cons. cbn [fst snd].
    destruct (react_wellFormed s e W) as (W1 & N1).
    destruct (IH _ W1) as (W2 & N2).
    split; [exact W2|]. intro H. apply in_app_or in H. tauto.
Qed.

Lemma initial_wellFormed : wellFormed questions App.initial.
Proof. exact I. Qed.

(** X1: with a catalog that has at least one question, no sequence of user
    and environment events makes a handler of the wizard throw, and
    whenever the answer step is shown its current question exists. *)
Theorem wizard_never_throws (es : list App.Event) :
  ~ In uncaught_error (snd (run App.initial es))
  /\ (forall quiz,
        App.screen (fst (run App.initial es)) = App.assessment_screen quiz ->
        exists q, AssessmentStep.currentQuestion questions quiz = Some q).
Proof.
  destruct (run_wellFormed es App.initial initial_wellFormed) as (W & N).
  split; [exact N|].
  intros quiz Hq. unfold wellFormed in W. rewrite Hq in W.
  destruct W as (Hidx & _ & _).
  unfold AssessmentStep.currentQuestion.
  destruct (nth_error questions (AssessmentStep.currentQuestionIndex quiz))
    as [q|] eqn:E; [exists q; reflexivity|].
  apply nth_error_None in E. lia.
Qed.

(** X2: however the session got to Results, the answers handed to the
    Results step are one per catalog question, in catalog order, each with
    the id and trait of its question; the Results step is mounted and has
    run its effect. *)
Theorem results_hold_one_answer_per_question (es : list App.Event) :
  App.step (fst (run App.initial es)) = App.results ->
  exists p,
    App.resultsProps (fst (run App.initial es)) = Some p
    /\ map answerKey (ResultsStep.p_assessmentData p) = map questionKey questions
    /\ List.length (ResultsStep.p_assessmentData p) = List.length questions
    /\ App.screen (fst (run App.initial es)) = App.results_screen (Some true).
Proof.
  intro Hres.
  destruct (run_wellFormed es App.initial initial_wellFormed) as (W & _).
  assert (G0 : guarded App.initial) by (unfold guarded; cbn; congruence).
  destruct (run_budget questions translations getIndividualFeedback
              getFinalFeedback getFinalAssessment is_email statesWithDistricts
              today storageThrows es App.initial G0) as (G & _).
  unfold wellFormed in W. unfold App.step in Hres. unfold guarded in G.
  destruct (App.screen (fst (run App.initial es))) as [| | |ref] eqn:Hs;
    try discriminate.
  destruct W as (Hd & Hr & Hu).
  destruct (App.userData (fst (run App.initial es))) as [u|] eqn:Eu;
    [|contradiction].
  eexists. split; [unfold App.resultsProps; rewrite Eu; reflexivity|].
  cbn [ResultsStep.p_assessmentData].
  split; [exact Hd|]. split.
  - apply (f_equal (@List.length _)) in Hd. rewrite !length_map in Hd. exact Hd.
  - destruct ref as [[|]|]; [reflexivity|contradiction|contradiction].
Qed.

Lemma react_keeps_language (s : App.State) (e : App.Event) :
  App.screen s <> App.language_screen ->
  App.lang (fst (react s e)) = App.lang s
  /\ App.screen (fst (react s e)) <> App.language_screen.
Proof.
  destruct s as [l u a sc i]. cbn. intro H.
  destruct sc as [|f|q|r]; [contradiction| | |].
  - destruct e; cbn; try (split; [reflexivity|discriminate]).
    destruct (UserInfoStep.handleSubmit is_email f) as [form' [data|]];
      cbn; split; try reflexivity; discriminate.
  - destruct e; cbn; try (split; [reflexivity|discriminate]).
    + destruct (AssessmentStep.showInstructions q); cbn;
        [split; [reflexivity|discriminate]|].
      unfold AssessmentStep.handleOptionChange.
      destruct (AssessmentStep.currentQuestion questions q); cbn;
        split; try reflexivity; discriminate.
    + destruct (AssessmentStep.showInstructions q); cbn;
        [split; [reflexivity|discriminate]|].
      unfold AssessmentStep.handleNext.
      destruct (AssessmentStep.selectedOption q); cbn;
        [|split; [reflexivity|discriminate]].
      destruct (AssessmentStep.currentQuestion questions q); cbn;
        [|split; [reflexivity|discriminate]].
      destruct (Z.of_nat _ <? _); cbn; [split; [reflexivity|discriminate]|].
      unfold App.runResultsEffect, App.resultsProps, ResultsStep.effect. cbn.
      destruct u; cbn; split; try reflexivity; discriminate.
  - destruct r as [[|]|]; destruct e; cbn;
      try (split; [reflexivity|discriminate]).
    all: unfold App.runResultsEffect, App.resultsProps, ResultsStep.effect; cbn.
    all: try (destruct u; cbn; split; try reflexivity; discriminate).
    all: destruct i; cbn; split; try reflexivity; discriminate.
Qed.

(** X3: the language chosen on the first screen is the language of the
    session from then on: no later event changes it. *)
Theorem language_is_retained (l : Language) (es : list App.Event) :
  App.lang (fst (run App.initial (App.selectLanguage l :: es))) = l.
Proof.
  rewrite run_cons. cbn [fst snd App.react App.initial App.screen].
  assert (H : forall s, App.screen s <> App.language_screen ->
                        App.lang (fst (run s es)) = App.lang s).
  { induction es as [|e es' IH]; intros s Hs; [reflexivity|].
    rewrite run_cons. cbn [fst].
    destruct (react_keeps_language s e Hs) as (H1 & H2).
    rewrite (IH _ H2). exact H1. }
  rewrite H; [reflexivity|cbn; discriminate].
Qed.

Lemma react_rank (s : App.State) (e : App.Event) :
  (rank (App.step s) <= rank (App.step (fst (react s e))) <= S (rank (App.step s)))%nat
  /\ (App.step s = App.results ->
      App.userData (fst (react s e)) = App.userData s
      /\ App.assessmentData (fst (react s e)) = App.assessmentData s
      /\ App.lang (fst (react s e)) = App.lang s).
Proof.
  destruct s as [l u a sc i]. unfold App.step.
  destruct sc as [|f|q|r].
  - destruct e; cbn; split; try lia; discriminate.
  - destruct e; cbn; try (split; [lia|discriminate]).
    destruct (UserInfoStep.handleSubmit is_email f) as [form' [data|]];
      cbn; split; try lia; discriminate.
  - destruct e; cbn; try (split; [lia|discriminate]).
    + destruct (AssessmentStep.showInstructions q); cbn; [split; [lia|discriminate]|].
      unfold AssessmentStep.handleOptionChange.
      destruct (AssessmentStep.currentQuestion questions q); cbn;
        split; try lia; discriminate.
    + destruct (AssessmentStep.showInstructions q); cbn; [split; [lia|discriminate]|].
      unfold AssessmentStep.handleNext.
      destruct (AssessmentStep.selectedOption q); cbn; [|split; [lia|discriminate]].
      destruct (AssessmentStep.currentQuestion questions q); cbn;
        [|split; [lia|discriminate]].
      destruct (Z.of_nat _ <? _); cbn; [split; [lia|discriminate]|].
      unfold App.runResultsEffect, App.resultsProps, ResultsStep.effect. cbn.
      destruct u; cbn; split; try lia; discriminate.
  - destruct r as [[|]|]; destruct e; cbn; try (split; [lia|intros _; repeat split]).
    all: unfold App.runResultsEffect, App.resultsProps, ResultsStep.effect; cbn.
    all: try (destruct u; cbn; (split; [lia|intros _; repeat split])).
    all: destruct i; cbn; (split; [lia|intros _; repeat split]).
Qed.

(** X4: the wizard only moves forward: an event leaves the step where it
    is or moves it to the next one, so no run ever returns to an earlier
    step; and once Results is reached the session stays there with the
    user's details, the answers and the language unchanged. *)
Theorem steps_never_go_back (s : App.State) (es : list App.Event) :
  (rank (App.step s) <= rank (App.step (fst (run s es))))%nat
  /\ (App.step s = App.results ->
      App.step (fst (run s es)) = App.results
      /\ App.userData (fst (run s es)) = App.userData s
      /\ App.assessmentData (fst (run s es)) = App.assessmentData s
      /\ App.lang (fst (run s es)) = App.lang s).
Proof.
  revert s. induction es as [|e es IH]; intro s.
  - cbn. split; [lia|intros H; repeat split; exact H].
  - rewrite run_cons. cbn [fst].
    destruct (react_rank s e) as (R1 & R2).
    destruct (IH (fst (react s e))) as (I1 & I2).
    split; [lia|].
    intro Hres. destruct (R2 Hres) as (U & A & L).
    assert (Hres' : App.step (fst (react s e)) = App.results).
    { rewrite Hres in R1. cbn in R1.
      destruct (App.step (fst (react s e))); cbn in R1; try lia. reflexivity. }
    destruct (I2 Hres') as (S1 & U1 & A1 & L1).
    repeat split; congruence.
Qed.

End WizardInvariants.

(** ** A failed submission *)

Section SinkFailureFacts.

Variable questions : list Question.
Variable translations : Language -> Translations.
Variable getIndividualFeedback : Trait -> Js.number -> Language -> string.
Variable getFinalFeedback : Js.number -> Language -> string.
Variable getFinalAssessment : string -> Language -> string.
Variable is_email : string -> bool.
Variable statesWithDistricts : list StateEntry.
Variable today : string.
Variable storageThrows : bool.

Local Abbreviation react :=
  (App.react questions translations getIndividualFeedback getFinalFeedback
     getFinalAssessment is_email statesWithDistricts today storageThrows).
Local Abbreviation run :=
  (App.run questions translations getIndividualFeedback getFinalFeedback
     getFinalAssessment is_email statesWithDistricts today storageThrows).
Local Abbreviation handed :=
  (handedOff getFinalFeedback getFinalAssessment today storageThrows).

Lemma settle_quiet (o : FetchOutcome) :
  certificates (ResultsStep.settle o) = []
  /\ submissions (ResultsStep.settle o) = []
  /\ ~ In uncaught_error (ResultsStep.settle o).
Proof.
  destruct o as [m|m|[|] [r|]]; cbn; repeat split;
    intro H; repeat (destruct H as [H|H]; try discriminate H); exact H.
Qed.

(** On Results with the guard set, an event changes neither the step nor
    the data, hands nothing over and throws nothing. *)
Lemma react_on_results (s : App.State) (e : App.Event) (u : UserInfo) :
  App.screen s = App.results_screen (Some true) ->
  App.userData s = Some u ->
  App.screen (fst (react s e)) = App.results_screen (Some true)
  /\ App.userData (fst (react s e)) = Some u
  /\ App.assessmentData (fst (react s e)) = App.assessmentData s
  /\ App.lang (fst (react s e)) = App.lang s
  /\ certificates (snd (react s e)) = []
  /\ submissions (snd (react s e)) = []
  /\ ~ In uncaught_error (snd (react s e)).
Proof.
  destruct s as [l ud a sc i]. cbn. intros -> ->.
  destruct e; cbn; try (repeat split; tauto).
  - destruct i; cbn; [repeat split; tauto|].
    destruct (settle_quiet o) as (S1 & S2 & S3). repeat split; assumption.
  - repeat split. intros [H|[]]. discriminate H.
Qed.

Lemma run_on_results (es : list App.Event) :
  forall (s : App.State) (u : UserInfo),
  App.screen s = App.results_screen (Some true) ->
  App.userData s = Some u ->
  App.screen (fst (run s es)) = App.results_screen (Some true)
  /\ App.userData (fst (run s es)) = Some u
  /\ App.assessmentData (fst (run s es)) = App.assessmentData s
  /\ App.lang (fst (run s es)) = App.lang s
  /\ certificates (snd (run s es)) = []
  /\ submissions (snd (run s es)) = []
  /\ ~ In uncaught_error (snd (run s es)).
Proof.
  induction es as [|e es IH]; intros s u Hs Hu.
  - cbn. repeat split; tauto.
  - rewrite (run_cons questions). cbn [fst snd].
    destruct (react_on_results s e u Hs Hu) as (R1 & R2 & R3 & R4 & R5 & R6 & R7).
    destruct (IH _ u R1 R2) as (I1 & I2 & I3 & I4 & I5 & I6 & I7).
    rewrite certificates_app, submissions_app, R5, R6, I5, I6.
    repeat split; try congruence.
    intro H. apply in_app_or in H. tauto.
Qed.

Lemma react_handedOff (s : App.State) (e : App.Event) (out : list Effect) :
  handed s out -> handed (fst (react s e)) (out ++ snd (react s e)).
Proof.
  unfold handedOff.
  destruct (App.screen s) as [|form|quiz|ref] eqn:Hs.
  - intro H. destruct s as [l ud a sc i]. cbn in Hs. subst sc.
    destruct e; cbn; rewrite ?app_nil_r; exact H.
  - intro H. destruct s as [l ud a sc i]. cbn in Hs. subst sc.
    destruct e; cbn; rewrite ?app_nil_r; try exact H.
    destruct (UserInfoStep.handleSubmit is_email form) as [form' [data|]];
      cbn; rewrite ?app_nil_r; [|exact H].
    split; [discriminate|exact H].
  - intros (Hu & H). destruct s as [l ud a sc i]. cbn in Hs, Hu. subst sc.
    destruct ud as [u|]; [|contradiction].
    destruct e; cbn; rewrite ?app_nil_r; try (split; assumption).
    + destruct (AssessmentStep.showInstructions quiz); cbn; rewrite ?app_nil_r;
        [split; assumption|].
      unfold AssessmentStep.handleOptionChange.
      destruct (AssessmentStep.currentQuestion questions quiz); cbn;
        rewrite ?certificates_app, ?app_nil_r, ?H; split; try assumption; reflexivity.
    + destruct (AssessmentStep.showInstructions quiz); cbn; rewrite ?app_nil_r;
        [split; assumption|].
      unfold AssessmentStep.handleNext.
      destruct (AssessmentStep.selectedOption quiz); cbn;
        [|rewrite certificates_app, H; split; [assumption|reflexivity]].
      destruct (AssessmentStep.currentQuestion questions quiz); cbn;
        [|rewrite certificates_app, H; split; [assumption|reflexivity]].
      destruct (Z.of_nat _ <? _); cbn; rewrite ?app_nil_r; [split; assumption|].
      unfold App.runResultsEffect, App.resultsProps, ResultsStep.effect. cbn.
      split; [reflexivity|]. exists u. split; [reflexivity|].
      rewrite ?app_nil_r, certificates_app, H.
      destruct storageThrows; reflexivity.
  - intros (-> & u & Hu & H).
    destruct (react_on_results s e u Hs Hu) as (R1 & R2 & R3 & _ & R5 & _).
    rewrite R1. split; [reflexivity|]. exists u. split; [exact R2|].
    rewrite certificates_app, R5, app_nil_r, R3. exact H.
Qed.

Lemma run_handedOff (es : list App.Event) :
  forall (s : App.State) (out : list Effect),
  handed s out -> handed (fst (run s es)) (out ++ snd (run s es)).
Proof.
  induction es as [|e es IH]; intros s out H.
  - cbn. rewrite app_nil_r. exact H.
  - rewrite (run_cons questions). cbn [fst snd]. rewrite app_assoc.
    apply IH, react_handedOff, H.
Qed.

(** C8: in a session that has reached Results and whose request to the
    submission sink is still under way, let the request fail (the fetch
    rejects, the body is not JSON, or the answer is not OK). The record for
    the certificate page, holding the user's details, the answers, the
    final assessment text and the date, was written before that, if the
    storage took it. The failure is surfaced as a console message and one
    destructive toast "Data Submission Failed" that names the reason, and
    nothing else happens: the wizard stays on Results with the same
    details, answers and language, the Results view shows the insight for
    the same total, and the certificate button navigates to the
    certificate page. Whatever follows, the session stays on Results with
    its data, no further request is sent to the sink, and nothing
    throws. *)
Theorem sink_failure_is_not_blocking
    (es : list App.Event) (o : FetchOutcome) (n : nat) :
  App.step (fst (run App.initial es)) = App.results ->
  App.inflight (fst (run App.initial es)) = S n ->
  sinkFailed o = true ->
  let s := fst (run App.initial es) in
  let s' := fst (react s (App.sinkSettled o)) in
  exists u,
    App.userData s = Some u
    /\ (storageThrows = false ->
        certificates (snd (run App.initial es))
        = [{| c_user := u;
              c_assessmentData := App.assessmentData s;
              c_finalAssessmentText :=
                getFinalAssessment
                  (getFinalFeedback (App.totalScore (App.assessmentData s)) en) en;
              c_date := today |}])
    /\ snd (react s (App.sinkSettled o))
       = [console_error "Failed to log submission:";
          toast {| title := "Data Submission Failed";
                   description :=
                     String.append
                       "Your assessment results could not be saved. Reason: "
                       (failureReason o);
                   variant := destructive |}]
    /\ s' = {| App.lang := App.lang s; App.userData := Some u;
               App.assessmentData := App.assessmentData s;
               App.screen := App.results_screen (Some true);
               App.inflight := n |}
    /\ (exists p,
          App.resultsProps s' = Some p
          /\ p = {| ResultsStep.p_score := App.totalScore (App.assessmentData s);
                    ResultsStep.p_userData := u;
                    ResultsStep.p_assessmentData := App.assessmentData s;
                    ResultsStep.p_lang := App.lang s |}
          /\ ResultsStep.insight (ResultsStep.view getFinalFeedback p)
             = getFinalFeedback (App.totalScore (App.assessmentData s)) (App.lang s))
    /\ react s' App.viewCertificate = (s', [router_push "/certificate"])
    /\ (forall es',
          App.step (fst (run s' es')) = App.results
          /\ App.userData (fst (run s' es')) = Some u
          /\ App.assessmentData (fst (run s' es')) = App.assessmentData s
          /\ App.lang (fst (run s' es')) = App.lang s
          /\ submissions (snd (run s' es')) = []
          /\ ~ In uncaught_error (snd (run s' es'))).
Proof.
  intros Hres Hin Hfail s s'.
  assert (H0 : handed App.initial []) by reflexivity.
  pose proof (run_handedOff es App.initial [] H0) as H.
  cbn [app] in H. fold s in H, Hres, Hin.
  unfold handedOff in H. unfold App.step in Hres.
  destruct (App.screen s) as [| | |ref] eqn:Hs; try discriminate Hres.
  destruct H as (-> & u & Hu & Hc).
  exists u. split; [exact Hu|]. split.
  { intros Hst. rewrite Hc.
    generalize Hst. generalize storageThrows at 1 2. intros b ->. reflexivity. }
  assert (Hreact : react s (App.sinkSettled o)
                   = ({| App.lang := App.lang s; App.userData := App.userData s;
                         App.assessmentData := App.assessmentData s;
                         App.screen := App.screen s; App.inflight := n |},
                      ResultsStep.settle o)).
  { unfold App.react. rewrite Hs, Hin. reflexivity. }
  assert (Hs' : s' = {| App.lang := App.lang s; App.userData := Some u;
                        App.assessmentData := App.assessmentData s;
                        App.screen := App.results_screen (Some true);
                        App.inflight := n |}).
  { subst s'. rewrite Hreact. cbn [fst]. rewrite Hu, Hs. reflexivity. }
  split.
  { rewrite Hreact. cbn [snd].
    destruct o as [m|m|[|] [[[[|c r]|] [[|c' r']|]]|]]; try discriminate Hfail;
      reflexivity. }
  split; [exact Hs'|]. rewrite Hs'. split.
  { eexists. split; [reflexivity|]. split; reflexivity. }
  split; [reflexivity|].
  intro es'.
  match goal with
  | |- context [run ?s1 es'] =>
      destruct (run_on_results es' s1 u eq_refl eq_refl)
        as (R1 & R2 & R3 & R4 & _ & R6 & R7)
  end.
  cbn [App.assessmentData App.lang] in R3, R4.
  unfold App.step. rewrite R1. repeat split; assumption.
Qed.

End SinkFailureFacts.

Lemma sink_failure_is_not_blocking_witness :
  let run :=
    App.run Fixture.questions Fixture.translations
      Fixture.getIndividualFeedback Fixture.getFinalFeedback
      Fixture.getFinalAssessment Fixture.is_email
      Fixture.statesWithDistricts "November 2, 2026" false in
  let react :=
    App.react Fixture.questions Fixture.translations
      Fixture.getIndividualFeedback Fixture.getFinalFeedback
      Fixture.getFinalAssessment Fixture.is_email
      Fixture.statesWithDistricts "November 2, 2026" false in
  let es := Fixture.fullSession hi [3; 2; 1; 3; 2; 1] in
  App.step (fst (run App.initial es)) = App.results
  /\ App.inflight (fst (run App.initial es)) = 1%nat
  /\ sinkFailed Fixture.sinkError = true
  /\ snd (react (fst (run App.initial es)) (App.sinkSettled Fixture.sinkError))
     = [console_error "Failed to log submission:";
        toast {| title := "Data Submission Failed";
                 description :=
                   "Your assessment results could not be saved. Reason: Failed to submit assessment";
                 variant := destructive |}]
  /\ map c_user (certificates (snd (run App.initial es))) = [Fixture.user].
Proof.
  intros run react es.
  assert (H1 : App.step (fst (run App.initial es)) = App.results)
    by (vm_compute; reflexivity).
  assert (H2 : App.inflight (fst (run App.initial es)) = 1%nat)
    by (vm_compute; reflexivity).
  assert (H3 : sinkFailed Fixture.sinkError = true) by reflexivity.
  split; [exact H1|]. split; [exact H2|]. split; [exact H3|].
  destruct (sink_failure_is_not_blocking Fixture.questions Fixture.translations
              Fixture.getIndividualFeedback Fixture.getFinalFeedback
              Fixture.getFinalAssessment Fixture.is_email
              Fixture.statesWithDistricts "November 2, 2026" false
              es Fixture.sinkError 0%nat H1 H2 H3)
    as (u & Hu & Hc & Ht & _).
  split; [exact Ht|].
  assert (Hu' : Some u = Some Fixture.user)
    by (rewrite <- Hu; vm_compute; reflexivity).
  injection Hu' as ->.
  fold run in Hc. rewrite (Hc eq_refl). reflexivity.
Defined.

(** ** The advance button and the trait columns *)

Section ButtonFacts.

Variable questions : list Question.
Variable translations : Language -> Translations.
Variable getIndividualFeedback : Trait -> Js.number -> Language -> string.
Variable lang : Language.


End ButtonFacts.


Lemma traitScore_cons (t : Trait) (a : AnswerDetail) (rest : list AnswerDetail) :
  LogRoute.traitScore t (a :: rest)
  = if Trait_eqb (a_trait a) t then a_score a else LogRoute.traitScore t rest.
Proof.
  unfold LogRoute.traitScore. cbn [find].
  destruct (Trait_eqb (a_trait a) t); reflexivity.
Qed.

(** A trait with no answer gets the score 0. *)
Lemma traitScore_absent (t : Trait) (data : list AnswerDetail) :
  ~ In t (map a_trait data) -> LogRoute.traitScore t data = Js.Num 0.
Proof.
  induction data as [|a rest IH]; intro H; [reflexivity|].
  rewrite traitScore_cons.
  destruct (Trait_eqb (a_trait a) t) eqn:E.
  - apply Trait_eqb_eq in E. exfalso. apply H. left. exact E.
  - apply IH. intro Hin. apply H. right. exact Hin.
Qed.

(** X6: when no trait is answered twice, the six trait-score columns of
    the row the log route inserts add up to the total of the stored
    answers (a trait without an answer counting 0). *)
Theorem trait_columns_sum_to_total (data : SubmissionData) :
  NoDup (map a_trait (s_assessmentData data)) ->
  let row := LogRoute.saveAssessmentToSupabase data in
  Js.add (LogRoute.gratitude_score row)
    (Js.add (LogRoute.resilience_score row)
       (Js.add (LogRoute.empathy_score row)
          (Js.add (LogRoute.sociability_score row)
             (Js.add (LogRoute.social_cognition_score row)
                (LogRoute.courage_score row)))))
  = App.totalScore (LogRoute.assessment_data row).
Proof.
  cbn [LogRoute.saveAssessmentToSupabase LogRoute.gratitude_score
       LogRoute.resilience_score LogRoute.empathy_score LogRoute.sociability_score
       LogRoute.social_cognition_score LogRoute.courage_score
       LogRoute.assessment_data].
  induction (s_assessmentData data) as [|a rest IH]; intro Hnd; [reflexivity|].
  cbn [map] in Hnd. inversion Hnd as [|? ? Hnotin Hrest]; subst.
  specialize (IH Hrest).
  pose proof (totalScore_includes [] rest a) as T. cbn [app] in T.
  rewrite T, <- IH. clear T.
  rewrite !traitScore_cons.
  pose proof (traitScore_absent (a_trait a) rest Hnotin) as Habs.
  destruct (a_trait a); cbn [Trait_eqb]; rewrite Habs;
    destruct (a_score a);
    destruct (LogRoute.traitScore Gratitude rest);
    destruct (LogRoute.traitScore Resilience rest);
    destruct (LogRoute.traitScore Empathy rest);
    destruct (LogRoute.traitScore Sociability rest);
    destruct (LogRoute.traitScore SocialCognition rest);
    destruct (LogRoute.traitScore Courage rest);
    cbn [Js.add]; try reflexivity; try discriminate; f_equal; lia.
Qed.

Lemma trait_columns_sum_to_total_witness :
  NoDup (map a_trait Fixture.assessmentData)
  /\ Js.add (LogRoute.traitScore Gratitude Fixture.assessmentData)
       (Js.add (LogRoute.traitScore Resilience Fixture.assessmentData)
          (Js.add (LogRoute.traitScore Empathy Fixture.assessmentData)
             (Js.add (LogRoute.traitScore Sociability Fixture.assessmentData)
                (Js.add (LogRoute.traitScore SocialCognition Fixture.assessmentData)
                   (LogRoute.traitScore Courage Fixture.assessmentData)))))
     = Js.Num 14.
Proof.
  assert (Hnd : NoDup (map a_trait Fixture.assessmentData)).
  { cbn. repeat constructor; cbn; intuition discriminate. }
  split; [exact Hnd|].
  exact (trait_columns_sum_to_total
           (ResultsStep.submissionData Fixture.getFinalFeedback
              Fixture.getFinalAssessment "November 2, 2026" Fixture.resultsProps)
           Hnd).
Defined.

(** ** Personal details: what validation lets through *)

Section ValidationFacts.

Variable is_email : string -> bool.

Lemma check_age_nil (v : option Q) :
  UserInfoStep.check_age v = [] <->
  exists q, v = Some q /\ (inject_Z 1 <= q)%Q /\ (q <= inject_Z 120)%Q.
Proof.
  destruct v as [q|]; cbn.
  - destruct (Qle_bool (inject_Z 1) q) eqn:E1;
      destruct (Qle_bool q (inject_Z 120)) eqn:E2; cbn; split; intro H;
      try discriminate.
    + exists q. apply Qle_bool_iff in E1. apply Qle_bool_iff in E2. tauto.
    + reflexivity.
    + destruct H as (q' & Hq & _ & H2). injection Hq as <-.
      apply Qle_bool_iff in H2. congruence.
    + destruct H as (q' & Hq & H1 & _). injection Hq as <-.
      apply Qle_bool_iff in H1. congruence.
    + destruct H as (q' & Hq & H1 & _). injection Hq as <-.
      apply Qle_bool_iff in H1. congruence.
  - split; [discriminate|]. intros (q & H & _). discriminate H.
Qed.

Lemma check_gender_nil (v : option string) :
  UserInfoStep.check_gender v = [] <->
  exists s g, v = Some s /\ Gender_of_string s = Some g.
Proof.
  destruct v as [s|]; cbn.
  - destruct (Gender_of_string s) as [g|] eqn:E; split; intro H.
    + exists s, g. tauto.
    + reflexivity.
    + discriminate.
    + destruct H as (s' & g & Hs & Hg). injection Hs as <-. congruence.
  - split; [discriminate|]. intros (s & g & H & _). discriminate H.
Qed.

Lemma check_email_nil (v : option string) :
  UserInfoStep.check_email is_email v = [] <->
  v = None \/ exists s, v = Some s /\ (is_email s = true \/ s = "").
Proof.
  destruct v as [s|]; cbn.
  - destruct (is_email s) eqn:E1.
    + split; [intros _; right; exists s; tauto|reflexivity].
    + destruct (String.eqb s "") eqn:E2.
      * apply String.eqb_eq in E2.
        split; [intros _; right; exists s; tauto|reflexivity].
      * apply String.eqb_neq in E2. split; [discriminate|].
        intros [H | (s' & Hs & [H | H])]; try discriminate.
        -- injection Hs as <-. congruence.
        -- injection Hs as <-. contradiction.
  - split; [tauto|reflexivity].
Qed.

(** X7: validation lets a form through exactly when the name has a length
    of at least two (counted as [s.length] counts, in UTF-16 code units),
    the Hindi name, country code and mobile number are not empty, the age
    is a number from 1 to 120, the gender is one of the four listed, the
    e-mail is absent, empty or an e-mail address, and state and district
    are set and not empty. *)
Theorem validation_accepts_exactly (v : UserInfoStep.FormValues) :
  (exists data, UserInfoStep.formSchema is_email v = UserInfoStep.success data) <->
  (2 <= Js.length (UserInfoStep.v_name v))%nat
  /\ (1 <= Js.length (UserInfoStep.v_name_hi v))%nat
  /\ (exists q, UserInfoStep.v_age v = Some q
                /\ (inject_Z 1 <= q)%Q /\ (q <= inject_Z 120)%Q)
  /\ (exists s g, UserInfoStep.v_gender v = Some s /\ Gender_of_string s = Some g)
  /\ (1 <= Js.length (UserInfoStep.v_countryCode v))%nat
  /\ (1 <= Js.length (UserInfoStep.v_mobile v))%nat
  /\ (UserInfoStep.v_email v = None
      \/ exists s, UserInfoStep.v_email v = Some s /\ (is_email s = true \/ s = ""))
  /\ (exists c r, UserInfoStep.v_state v = Some (String c r))
  /\ (exists c r, UserInfoStep.v_district v = Some (String c r)).
Proof.
  rewrite <- (min_len_nil is_email 2 UserInfoStep.f_name
                "Name must be at least 2 characters.").
  rewrite <- (min_len_nil is_email 1 UserInfoStep.f_name_hi "कृपया हिंदी में नाम दर्ज करें।").
  rewrite <- (min_len_nil is_email 1 UserInfoStep.f_countryCode "Please select country code.").
  rewrite <- (min_len_nil is_email 1 UserInfoStep.f_mobile "Please enter your mobile number.").
  rewrite <- check_age_nil, <- check_gender_nil, <- check_email_nil.
  rewrite <- (required_min1_nil UserInfoStep.f_state "Please select your state/UT.").
  rewrite <- (required_min1_nil UserInfoStep.f_district "Please select your district.").
  split.
  - intros (data & H).
    destruct (formSchema_success is_email v data H) as (Hiss & _).
    unfold UserInfoStep.issues_of in Hiss.
    repeat (apply app_eq_nil in Hiss;
            let H1 := fresh "H" in destruct Hiss as (H1 & Hiss)).
    repeat split; assumption.
  - intros (H1 & H2 & H3 & H4 & H5 & H6 & H7 & H8 & H9).
    unfold UserInfoStep.formSchema, UserInfoStep.issues_of.
    rewrite H1, H2, H3, H4, H5, H6, H7, H8, H9. cbn [app].
    apply check_age_nil in H3. destruct H3 as (q & -> & _).
    apply check_gender_nil in H4. destruct H4 as (s & g & -> & Hg).
    apply required_min1_nil in H8. destruct H8 as (cs & rs & ->).
    apply required_min1_nil in H9. destruct H9 as (cd & rd & ->).
    cbn [option_map]. rewrite Hg. eexists. reflexivity.
Qed.

Lemma formSchema_data (v : UserInfoStep.FormValues) (data : UserInfo) :
  UserInfoStep.formSchema is_email v = UserInfoStep.success data ->
  UserInfoStep.v_name v = name data
  /\ UserInfoStep.v_name_hi v = name_hi data
  /\ UserInfoStep.v_age v = Some (age data)
  /\ UserInfoStep.v_mobile v = mobile data
  /\ UserInfoStep.v_countryCode v = countryCode data.
Proof.
  unfold UserInfoStep.formSchema.
  destruct (UserInfoStep.issues_of is_email v); [|discriminate].
  destruct (UserInfoStep.v_age v); [|discriminate].
  destruct (option_map Gender_of_string (UserInfoStep.v_gender v)) as [[g|]|];
    try discriminate.
  destruct (UserInfoStep.v_state v); [|discriminate].
  destruct (UserInfoStep.v_district v); [|discriminate].
  intro H. injection H as <-. cbn. repeat split.
Qed.

Variable questions : list Question.
Variable translations : Language -> Translations.
Variable getIndividualFeedback : Trait -> Js.number -> Language -> string.
Variable getFinalFeedback : Js.number -> Language -> string.
Variable getFinalAssessment : string -> Language -> string.
Variable table : list StateEntry.
Variable today : string.
Variable storageThrows : bool.

Local Abbreviation react :=
  (App.react questions translations getIndividualFeedback getFinalFeedback
     getFinalAssessment is_email table today storageThrows).
Local Abbreviation run :=
  (App.run questions translations getIndividualFeedback getFinalFeedback
     getFinalAssessment is_email table today storageThrows).

Lemma react_validUser (s : App.State) (e : App.Event) :
  validSession table s -> validSession table (fst (react s e)).
Proof.
  destruct s as [l u a sc i]. unfold validSession. cbn. intros (Hf & Hu).
  destruct sc as [|f|q|r].
  - destruct e; cbn; try tauto;
      try (split; [apply mount_consistent|exact Hu]).
  - destruct e; try (cbn; tauto).
    + cbn. split; [apply edit_consistent, Hf|exact Hu].
    + cbn.
      unfold UserInfoStep.handleSubmit.
      destruct (UserInfoStep.formSchema is_email (UserInfoStep.values f))
        as [data|iss] eqn:E; cbn; [|tauto].
      split; [exact I|].
      destruct (formSchema_success is_email _ _ E)
        as (Hiss & (cs & rs & Hs & Hs') & (cd & rd & Hd & Hd')).
      destruct (formSchema_data _ _ E) as (D1 & D2 & D3 & D4 & D5).
      unfold UserInfoStep.issues_of in Hiss.
      apply app_eq_nil in Hiss. destruct Hiss as (V1 & Hiss).
      apply app_eq_nil in Hiss. destruct Hiss as (V2 & Hiss).
      apply app_eq_nil in Hiss. destruct Hiss as (Va & Hiss).
      apply app_eq_nil in Hiss. destruct Hiss as (_ & Hiss).
      apply app_eq_nil in Hiss. destruct Hiss as (_ & Hiss).
      apply app_eq_nil in Hiss. destruct Hiss as (V6 & _).
      apply (min_len_nil is_email) in V1. apply (min_len_nil is_email) in V2.
      apply (min_len_nil is_email) in V6.
      apply check_age_nil in Va. destruct Va as (q' & Vq & V3 & V4).
      rewrite D3 in Vq. injection Vq as <-.
      unfold validUser. rewrite <- D1, <- D2, <- D4.
      repeat split; try assumption.
      unfold pickerConsistent in Hf. rewrite Hs, Hd in Hf.
      destruct Hf as (C1 & C2). rewrite Hs', Hd', <- C1. exact C2.
  - destruct e; cbn; try tauto.
    + destruct (AssessmentStep.showInstructions q); cbn; [tauto|].
      unfold AssessmentStep.handleOptionChange.
      destruct (AssessmentStep.currentQuestion questions q); cbn; tauto.
    + destruct (AssessmentStep.showInstructions q); cbn; [tauto|].
      unfold AssessmentStep.handleNext.
      destruct (AssessmentStep.selectedOption q); cbn; [|tauto].
      destruct (AssessmentStep.currentQuestion questions q); cbn; [|tauto].
      destruct (Z.of_nat _ <? _); cbn; [tauto|].
      unfold App.runResultsEffect, App.resultsProps, ResultsStep.effect. cbn.
      destruct u; cbn; tauto.
  - destruct r as [[|]|]; destruct e; cbn; try tauto.
    all: unfold App.runResultsEffect, App.resultsProps, ResultsStep.effect; cbn.
    all: try (destruct u; cbn; tauto).
    all: destruct i; cbn; tauto.
Qed.

Lemma run_validSession (es : list App.Event) :
  forall s, validSession table s -> validSession table (fst (run s es)).
Proof.
  induction es as [|e es IH]; intros s V; [exact V|].
  rewrite (run_cons questions). cbn [fst]. apply IH, react_validUser, V.
Qed.

Lemma formSchema_failure (v : UserInfoStep.FormValues) (i : UserInfoStep.Issue) :
  In i (UserInfoStep.issues_of is_email v) ->
  UserInfoStep.formSchema is_email v
  = UserInfoStep.failure (UserInfoStep.issues_of is_email v).
Proof.
  unfold UserInfoStep.formSchema.
  destruct (UserInfoStep.issues_of is_email v); [intros []|reflexivity].
Qed.

(** C5: the form holds a district only through the district picker, whose
    items are the districts the table lists for the selected state, and
    selecting another state clears it. So in every form the user can
    reach, a district that does not belong to the selected state is a
    district that is not set (or the state itself is not set): validation
    then fails with the field-level error of the district (of the state,
    when that is empty), the submit handler is not called, and the wizard
    stays on the personal details with nothing stored. Whenever
    validation succeeds, the district handed on is one the table lists for
    the state. *)
Theorem mismatched_district_is_rejected
    (es : list App.Event) (form : UserInfoStep.State) :
  App.screen (fst (run App.initial es)) = App.info_screen form ->
  let s := fst (run App.initial es) in
  let v := UserInfoStep.values form in
  (forall c r d,
     UserInfoStep.v_state v = Some (String c r) ->
     UserInfoStep.v_district v = Some d ->
     In d (UserInfoStep.districtsOf table (String c r)))
  /\ (forall i st,
        nth_error (UserInfoStep.states table) i = Some st ->
        UserInfoStep.v_state v <> Some st -> st <> "" ->
        UserInfoStep.v_district
          (UserInfoStep.values (UserInfoStep.edit table (UserInfoStep.pickState i) form))
        = None)
  /\ ((~ exists st d,
          UserInfoStep.v_state v = Some st /\ UserInfoStep.v_district v = Some d
          /\ In d (UserInfoStep.districtsOf table st)) ->
      exists issues,
        UserInfoStep.formSchema is_email v = UserInfoStep.failure issues
        /\ (In (UserInfoStep.f_district, "Please select your district.") issues
            \/ In (UserInfoStep.f_state, "Please select your state/UT.") issues)
        /\ (forall c r,
              UserInfoStep.v_state v = Some (String c r) ->
              UserInfoStep.v_district v = None
              /\ In (UserInfoStep.f_district, "Please select your district.") issues)
        /\ react s App.formSubmit
           = (App.with_screen s
                (App.info_screen
                   {| UserInfoStep.values := v;
                      UserInfoStep.districts := UserInfoStep.districts form;
                      UserInfoStep.errors := issues |}), [])
        /\ App.step (fst (react s App.formSubmit)) = App.info
        /\ App.userData (fst (react s App.formSubmit)) = App.userData s)
  /\ (forall data,
        UserInfoStep.formSchema is_email v = UserInfoStep.success data ->
        In (district data) (UserInfoStep.districtsOf table (state data))
        /\ App.step (fst (react s App.formSubmit)) = App.assessment
        /\ App.userData (fst (react s App.formSubmit)) = Some data).
Proof.
  intros Hscreen s v.
  assert (V : validSession table s).
  { apply run_validSession. unfold validSession. cbn. tauto. }
  fold s in Hscreen. destruct V as (C & _). rewrite Hscreen in C.
  unfold pickerConsistent in C. fold v in C.
  split; [|split; [|split]].
  - intros c r d Hs Hd. rewrite Hs, Hd in C. destruct C as (C1 & C2).
    rewrite <- C1. exact C2.
  - intros i st Hi Hne Hst. unfold UserInfoStep.edit. rewrite Hi. fold v.
    assert (E : UserInfoStep.same_state (UserInfoStep.v_state v) (Some st) = false).
    { destruct (UserInfoStep.v_state v) as [st0|]; cbn; [|reflexivity].
      apply String.eqb_neq. congruence. }
    rewrite E. unfold UserInfoStep.stateEffect. cbn.
    destruct st as [|c r]; [contradiction|reflexivity].
  - intro Hmis.
    assert (Hissue :
      (In (UserInfoStep.f_district, "Please select your district.")
          (UserInfoStep.issues_of is_email v)
       \/ In (UserInfoStep.f_state, "Please select your state/UT.")
            (UserInfoStep.issues_of is_email v))
      /\ (forall c r,
            UserInfoStep.v_state v = Some (String c r) ->
            UserInfoStep.v_district v = None
            /\ In (UserInfoStep.f_district, "Please select your district.")
                 (UserInfoStep.issues_of is_email v))).
    { unfold UserInfoStep.issues_of. rewrite !in_app_iff.
      destruct (UserInfoStep.v_state v) as [[|c r]|] eqn:Hs.
      - split; [|discriminate]. right. do 7 right. left. left. reflexivity.
      - assert (Hd : UserInfoStep.v_district v = None).
        { destruct (UserInfoStep.v_district v) as [d|] eqn:Hd; [|reflexivity].
          exfalso. apply Hmis. exists (String c r), d.
          destruct C as (C1 & C2). rewrite <- C1. auto. }
        rewrite Hd.
        assert (X : In (UserInfoStep.f_district, "Please select your district.")
                      (UserInfoStep.required_min1 UserInfoStep.f_district
                         "Please select your district." None))
          by (left; reflexivity).
        split; [left; tauto|]. intros c0 r0 _. split; [reflexivity|].
        rewrite !in_app_iff. tauto.
      - split; [|discriminate]. right. do 7 right. left. left. reflexivity. }
    destruct Hissue as (Hany & Hdist).
    assert (Hfail : UserInfoStep.formSchema is_email v
                    = UserInfoStep.failure (UserInfoStep.issues_of is_email v)).
    { destruct Hany as [H | H]; exact (formSchema_failure v _ H). }
    exists (UserInfoStep.issues_of is_email v).
    split; [exact Hfail|]. split; [exact Hany|]. split; [exact Hdist|].
    assert (Hreact : react s App.formSubmit
                     = (App.with_screen s
                          (App.info_screen
                             {| UserInfoStep.values := v;
                                UserInfoStep.districts := UserInfoStep.districts form;
                                UserInfoStep.errors := UserInfoStep.issues_of is_email v |}),
                        [])).
    { unfold App.react. rewrite Hscreen. unfold UserInfoStep.handleSubmit.
      fold v. rewrite Hfail. reflexivity. }
    rewrite Hreact. repeat split.
  - intros data Hok.
    destruct (formSchema_success is_email v data Hok)
      as (_ & (cs & rs & Hs & Hs') & (cd & rd & Hd & Hd')).
    rewrite Hs, Hd in C. destruct C as (C1 & C2).
    split; [rewrite Hs', Hd', <- C1; exact C2|].
    unfold App.react. rewrite Hscreen. unfold UserInfoStep.handleSubmit.
    fold v. rewrite Hok. split; reflexivity.
Qed.

Lemma react_validBody (s : App.State) (e : App.Event) :
  validSession table s ->
  Forall (validBody table) (submissions (snd (react s e))).
Proof.
  destruct s as [l u a sc i]. unfold validSession. cbn. intros (Hf & Hu).
  destruct sc as [|f|q|r].
  - destruct e; cbn; constructor.
  - destruct e; try (cbn; constructor).
    cbn. destruct (UserInfoStep.handleSubmit is_email f) as [form' [data|]];
      cbn; constructor.
  - destruct e; try (cbn; constructor).
    + cbn. destruct (AssessmentStep.showInstructions q); cbn; [constructor|].
      unfold AssessmentStep.handleOptionChange.
      destruct (AssessmentStep.currentQuestion questions q); cbn; constructor.
    + cbn. destruct (AssessmentStep.showInstructions q); cbn; [constructor|].
      unfold AssessmentStep.handleNext.
      destruct (AssessmentStep.selectedOption q); cbn; [|constructor].
      destruct (AssessmentStep.currentQuestion questions q); cbn; [|constructor].
      destruct (Z.of_nat _ <? _); cbn; [constructor|].
      unfold App.runResultsEffect, App.resultsProps, ResultsStep.effect. cbn.
      destruct u as [u|]; cbn; [|constructor].
      unfold validUser in Hu.
      destruct storageThrows; cbn; (constructor; [|constructor]);
        unfold validBody; cbn; tauto.
  - destruct r as [[|]|]; destruct e; try (cbn; constructor).
    all: cbn; unfold App.runResultsEffect, App.resultsProps, ResultsStep.effect; cbn.
    all: try (destruct i; [|destruct o as [m|m|[|] [res|]]]; cbn; constructor).
    all: destruct u as [u|]; cbn; try constructor.
    all: unfold validUser in Hu.
    all: destruct storageThrows; cbn; (constructor; [|constructor]);
        unfold validBody; cbn; tauto.
Qed.

(** X8: whatever the user does, the personal details the wizard holds
    passed validation and came through the pickers: a name of length at
    least two (in UTF-16 code units, as [s.length] counts), a Hindi name
    and a mobile number that are not empty, an age from 1 to 120 and a
    district that the table lists for the state. Every record handed to
    the submission sink carries such a name, age, state and district. *)
Theorem stored_user_is_valid (es : list App.Event) :
  (forall u, App.userData (fst (run App.initial es)) = Some u -> validUser table u)
  /\ Forall (validBody table) (submissions (snd (run App.initial es))).
Proof.
  assert (H : forall s, validSession table s ->
                        validSession table (fst (run s es))
                        /\ Forall (validBody table) (submissions (snd (run s es)))).
  { induction es as [|e es' IH]; intros s V.
    - cbn. split; [exact V|constructor].
    - rewrite run_cons. cbn [fst snd].
      destruct (IH _ (react_validUser s e V)) as (V2 & F2).
      split; [exact V2|].
      rewrite submissions_app. apply Forall_app.
      split; [apply react_validBody, V|exact F2]. }
  destruct (H App.initial) as (V & F).
  { unfold validSession. cbn. tauto. }
  split; [|exact F].
  intros u Hu. unfold validSession in V. rewrite Hu in V. apply V.
Qed.

End ValidationFacts.

Lemma mismatched_district_is_rejected_witness :
  let run :=
    App.run Fixture.questions Fixture.translations
      Fixture.getIndividualFeedback Fixture.getFinalFeedback
      Fixture.getFinalAssessment Fixture.is_email
      Fixture.statesWithDistricts "November 2, 2026" false in
  let react :=
    App.react Fixture.questions Fixture.translations
      Fixture.getIndividualFeedback Fixture.getFinalFeedback
      Fixture.getFinalAssessment Fixture.is_email
      Fixture.statesWithDistricts "November 2, 2026" false in
  let es :=
    App.selectLanguage en :: map App.formEdit Fixture.mumbaiThenMadhyaPradesh in
  let form :=
    {| UserInfoStep.values :=
         {| UserInfoStep.v_name := "Test User";
            UserInfoStep.v_name_hi := "Test User";
            UserInfoStep.v_age := Some (inject_Z 30);
            UserInfoStep.v_gender := Some "Male";
            UserInfoStep.v_countryCode := "+91";
            UserInfoStep.v_mobile := "9999999999";
            UserInfoStep.v_email := Some "";
            UserInfoStep.v_state := Some "Madhya Pradesh";
            UserInfoStep.v_district := None |};
       UserInfoStep.districts := ["Bhopal"; "Indore"];
       UserInfoStep.errors := [] |} in
  App.screen (fst (run App.initial es)) = App.info_screen form
  /\ ~ In "Mumbai" (UserInfoStep.districtsOf Fixture.statesWithDistricts "Madhya Pradesh")
  /\ exists issues,
       UserInfoStep.formSchema Fixture.is_email (UserInfoStep.values form)
       = UserInfoStep.failure issues
       /\ In (UserInfoStep.f_district, "Please select your district.") issues
       /\ App.step (fst (react (fst (run App.initial es)) App.formSubmit)) = App.info.
Proof.
  intros run react es form.
  assert (Hs : App.screen (fst (run App.initial es)) = App.info_screen form)
    by (vm_compute; reflexivity).
  split; [exact Hs|]. split.
  { cbn. intros [H | [H | []]]; discriminate H. }
  destruct (mismatched_district_is_rejected Fixture.is_email Fixture.questions
              Fixture.translations Fixture.getIndividualFeedback
              Fixture.getFinalFeedback Fixture.getFinalAssessment
              Fixture.statesWithDistricts "November 2, 2026" false es form Hs)
    as (_ & _ & H & _).
  destruct H as (issues & Hf & _ & Hd & _ & Hstep & _).
  { intros (st & d & _ & Hdist & _). discriminate Hdist. }
  exists issues. split; [exact Hf|]. split; [|exact Hstep].
  apply (Hd "M"%char "adhya Pradesh" eq_refl).
Defined.

Lemma validation_accepts_exactly_witness :
  exists data,
    UserInfoStep.formSchema Fixture.is_email
      (UserInfoStep.values (fill Fixture.statesWithDistricts Fixture.fillForm))
    = UserInfoStep.success data.
Proof.
  apply (validation_accepts_exactly Fixture.is_email
           (UserInfoStep.values (fill Fixture.statesWithDistricts Fixture.fillForm))).
  cbn. repeat split; try lia.
  - exists (inject_Z 30). repeat split; [vm_compute; discriminate|vm_compute; discriminate].
  - exists "Male", Male. split; reflexivity.
  - right. exists "". split; [reflexivity|right; reflexivity].
  - eexists. eexists. reflexivity.
  - eexists. eexists. reflexivity.
Defined.


(** A name of one letter is rejected, also when the letter takes two
    bytes. *)
Example one_letter_name_is_rejected :
  Js.length "é" = 1%nat
  /\ UserInfoStep.formSchema Fixture.is_email
       (UserInfoStep.values
          (UserInfoStep.edit Fixture.statesWithDistricts (UserInfoStep.typeName "é")
             (fill Fixture.statesWithDistricts Fixture.fillForm)))
     = UserInfoStep.failure
         [(UserInfoStep.f_name, "Name must be at least 2 characters.")].
Proof. split; reflexivity. Qed.

Lemma stored_user_is_valid_witness :
  App.userData
    (fst (App.run Fixture.questions Fixture.translations
            Fixture.getIndividualFeedback Fixture.getFinalFeedback
            Fixture.getFinalAssessment Fixture.is_email
            Fixture.statesWithDistricts "November 2, 2026" false
            App.initial (Fixture.fullSession en [3; 2; 1; 3; 2; 1])))
  = Some Fixture.user
  /\ validUser Fixture.statesWithDistricts Fixture.user.
Proof.
  assert (H : App.userData
                (fst (App.run Fixture.questions Fixture.translations
                        Fixture.getIndividualFeedback Fixture.getFinalFeedback
                        Fixture.getFinalAssessment Fixture.is_email
                        Fixture.statesWithDistricts "November 2, 2026" false
                        App.initial (Fixture.fullSession en [3; 2; 1; 3; 2; 1])))
              = Some Fixture.user) by (vm_compute; reflexivity).
  split; [exact H|].
  destruct (stored_user_is_valid Fixture.is_email Fixture.questions
              Fixture.translations Fixture.getIndividualFeedback
              Fixture.getFinalFeedback Fixture.getFinalAssessment
              Fixture.statesWithDistricts "November 2, 2026" false
              (Fixture.fullSession en [3; 2; 1; 3; 2; 1])) as (V & _).
  exact (V Fixture.user H).
Defined.

(** ** The age buttons *)

Lemma whole_not_zero (q : Q) (z : Z) :
  (q == inject_Z z)%Q -> 1 <= z -> Qeq_bool q 0 = false.
Proof.
  intros Hq Hz. destruct (Qeq_bool q 0) eqn:E; [|reflexivity].
  apply Qeq_bool_iff in E. rewrite Hq in E.
  unfold Qeq in E. cbn in E. lia.
Qed.

Lemma whole_le (q : Q) (z k : Z) :
  (q == inject_Z z)%Q -> ((q <= inject_Z k)%Q <-> z <= k).
Proof. intro Hq. rewrite Hq, <- Zle_Qle. reflexivity. Qed.

Lemma whole_ge (q : Q) (z k : Z) :
  (q == inject_Z z)%Q -> ((inject_Z k <= q)%Q <-> k <= z).
Proof. intro Hq. rewrite Hq, <- Zle_Qle. reflexivity. Qed.

Lemma click_keeps_whole (c : AgeButtons.Click) (value : option Q) :
  wholeAge value -> wholeAge (AgeButtons.click c value).
Proof.
  destruct c, value as [q|]; cbn; try tauto.
  - (* minus *)
    intros (z & Hq & Hz). unfold AgeButtons.minus.
    rewrite (whole_not_zero q z Hq) by lia. cbn [negb andb].
    destruct (Qle_bool q (inject_Z 1)) eqn:E; cbn [negb].
    + exists z. tauto.
    + assert (Hgt : ~ z <= 1).
      { intro H. apply (whole_le q z 1 Hq) in H. apply Qle_bool_iff in H. congruence. }
      exists (z - 1). split; [|lia].
      rewrite Hq. unfold Qeq. cbn. lia.
  - (* plus *)
    intros (z & Hq & Hz). unfold AgeButtons.plus.
    rewrite (whole_not_zero q z Hq) by lia.
    destruct (Qle_bool (inject_Z 120) q) eqn:E; cbn [negb].
    + exists z. tauto.
    + assert (Hlt : ~ 120 <= z).
      { intro H. apply (whole_ge q z 120 Hq) in H. apply Qle_bool_iff in H. congruence. }
      exists (z + 1). split; [|lia].
      rewrite Hq. unfold Qeq. cbn. lia.
  - (* plus on an empty field *)
    intros _. exists 1. split; [reflexivity|lia].
Qed.

(** X9: the plus and minus buttons never take the age out of the valid
    range: starting from an empty field or from a whole number between 1
    and 120, after any sequence of clicks the field is still empty or holds
    a whole number between 1 and 120, which validation accepts. *)
Theorem age_buttons_keep_a_valid_age
    (clicks : list AgeButtons.Click) (value : option Q) :
  wholeAge value ->
  wholeAge (fold_left (fun v c => AgeButtons.click c v) clicks value)
  /\ (forall q,
        fold_left (fun v c => AgeButtons.click c v) clicks value = Some q ->
        UserInfoStep.check_age (Some q) = []).
Proof.
  intro H.
  assert (W : wholeAge (fold_left (fun v c => AgeButtons.click c v) clicks value)).
  { revert value H. induction clicks as [|c clicks IH]; intros value H; [exact H|].
    cbn [fold_left]. apply IH, click_keeps_whole, H. }
  split; [exact W|].
  intros q Hq. rewrite Hq in W. destruct W as (z & Hz & Hr).
  apply check_age_nil. exists q. split; [reflexivity|].
  split; [apply (whole_ge q z 1 Hz); lia|apply (whole_le q z 120 Hz); lia].
Qed.

Lemma age_buttons_keep_a_valid_age_witness :
  wholeAge (Some (inject_Z 120))
  /\ wholeAge
       (fold_left (fun v c => AgeButtons.click c v)
          [AgeButtons.click_plus; AgeButtons.click_plus; AgeButtons.click_minus]
          (Some (inject_Z 120))).
Proof.
  assert (H : wholeAge (Some (inject_Z 120))).
  { exists 120. split; [reflexivity|lia]. }
  split; [exact H|].
  apply (age_buttons_keep_a_valid_age
           [AgeButtons.click_plus; AgeButtons.click_plus; AgeButtons.click_minus]
           (Some (inject_Z 120)) H).
Defined.

(** ** The transliteration route and its two callers *)

Section RouteFacts.

Import Transliterate.

(** X10: the route answers every request whose body has not been read:
    either the [try] block threw (the body is not JSON or is null, or the
    upstream request failed) and the answer is 200 with an empty
    transliteration; or the text is missing or falsy and the answer is 400;
    or the upstream answer parsed and the answer is 200 with a truthy
    transliteration. It never fails unhandled, and a failed upstream never
    gives back the text that was sent. *)
Theorem route_always_answers (req : Request) (up : Upstream) :
  bodyUsed req = false ->
  (fst (attempt req up) = None /\ POST req up = emptyAnswer)
  \/ (POST req up = response 400 (error_body "Text is required")
      /\ exists j text,
           parsed req = Some j /\ destructure_text j = Some text
           /\ truthy text = false)
  \/ (exists data v,
        up = up_json data
        /\ POST req up = response 200 (transliteration_body v)
        /\ truthy v = true).
Proof.
  intro Hfresh.
  destruct (fst (attempt req up)) as [r|] eqn:E.
  2:{ left. split; [reflexivity|]. apply fallback_after_throw; assumption. }
  right. revert E. unfold POST, attempt, req_json. rewrite Hfresh.
  destruct (parsed req) as [j|] eqn:Ep; [|discriminate].
  destruct (destructure_text j) as [text|] eqn:Ed; [|discriminate].
  destruct (truthy text) eqn:Ht; cbn [negb].
  - destruct up as [| | |data]; try discriminate.
    match goal with |- context [if ?c then _ else _] => destruct c eqn:Hc end;
      cbn [fst]; intro E; injection E as <-; right.
    + exists data. eexists. split; [reflexivity|]. split; [reflexivity|].
      apply andb_prop in Hc. apply Hc.
    + exists data, text. split; [reflexivity|]. split; [reflexivity|exact Ht].
  - cbn [fst]. intros _. left. split; [reflexivity|].
    exists j, text. split; [reflexivity|]. split; [exact Ed|exact Ht].
Qed.

Lemma route_echo (c : ascii) (r : string) (data : json) :
  index data 0 <> Some (jstr "SUCCESS") ->
  POST (request_with_text (String c r)) (up_json data)
  = response 200 (transliteration_body (Some (jstr (String c r)))).
Proof.
  intro Hne.
  unfold POST, attempt, request_with_text, req_json.
  cbn [bodyUsed parsed destructure_text field String.eqb fst snd].
  cbn [truthy negb String.eqb Ascii.eqb Bool.eqb].
  assert (Hs : match index data 0 with
               | Some (jstr s) => String.eqb s "SUCCESS"
               | _ => false
               end = false).
  { destruct (index data 0) as [[| | |s| |]|]; try reflexivity.
    destruct (String.eqb s "SUCCESS") eqn:E; [|reflexivity].
    apply String.eqb_eq in E. subst s. contradiction. }
  rewrite Hs, andb_false_r. reflexivity.
Qed.

Lemma route_parsed (c : ascii) (r : string) (data : json) :
  exists v,
    POST (request_with_text (String c r)) (up_json data)
    = response 200 (transliteration_body v).
Proof.
  unfold POST, attempt, request_with_text, req_json.
  cbn [bodyUsed parsed destructure_text field String.eqb fst snd].
  cbn [truthy negb String.eqb Ascii.eqb Bool.eqb].
  match goal with |- context [if ?b then _ else _] => destruct b end;
    eexists; reflexivity.
Qed.

Lemma dropWhile_nil {A : Type} (p : A -> bool) (l : list A) :
  Js.dropWhile p l = [] <-> forallb p l = true.
Proof.
  induction l as [|x l IH]; cbn [Js.dropWhile forallb]; [tauto|].
  destruct (p x); cbn [andb]; [exact IH|]. split; discriminate.
Qed.

Lemma dropWhile_all {A : Type} (p : A -> bool) (l : list A) :
  forallb p (Js.dropWhile p l) = forallb p l.
Proof.
  induction l as [|x l IH]; [reflexivity|].
  cbn [Js.dropWhile]. destruct (p x) eqn:E; [|reflexivity].
  cbn [forallb]. rewrite E. exact IH.
Qed.

Lemma dropWhile_Forall {A : Type} (P : A -> Prop) (p : A -> bool) (l : list A) :
  Forall P l -> Forall P (Js.dropWhile p l).
Proof.
  induction 1 as [|x l Hx Hl IH]; cbn [Js.dropWhile]; [constructor|].
  destruct (p x); [exact IH|constructor; assumption].
Qed.

Lemma forallb_rev {A : Type} (p : A -> bool) (l : list A) :
  forallb p (rev l) = forallb p l.
Proof.
  induction l as [|x l IH]; [reflexivity|].
  cbn [rev forallb]. rewrite forallb_app, IH. cbn [forallb].
  rewrite andb_true_r. apply andb_comm.
Qed.

(** Trimming leaves nothing exactly when every character is white space. *)
Lemma trimmed_nil (cs : list string) :
  JsStr.trimmed cs = [] <-> forallb Js.isWhite cs = true.
Proof.
  unfold JsStr.trimmed.
  rewrite <- (dropWhile_all Js.isWhite cs), <- forallb_rev, <- dropWhile_nil.
  split; intro H.
  - apply (f_equal (@rev string)) in H. rewrite rev_involutive in H. exact H.
  - rewrite H. reflexivity.
Qed.

Lemma trimmed_nonempty (cs : list string) :
  Forall (fun ch => ch <> "") cs -> Forall (fun ch => ch <> "") (JsStr.trimmed cs).
Proof.
  intro H. unfold JsStr.trimmed.
  apply Forall_rev, dropWhile_Forall, Forall_rev, dropWhile_Forall, H.
Qed.

(** A request is sent exactly for a name with a character that is not
    white space. *)
Lemma sends_iff (nameValue : string) :
  NameEffect.sends nameValue = true <->
  forallb Js.isWhite (Js.chars nameValue) = false.
Proof.
  unfold NameEffect.sends, JsStr.trim.
  pose proof (trimmed_nil (Js.chars nameValue)) as T.
  pose proof (trimmed_nonempty _ (chars_nonempty nameValue)) as N.
  pose proof (length_pos (Js.join (JsStr.trimmed (Js.chars nameValue)))) as L.
  destruct (forallb Js.isWhite (Js.chars nameValue)) eqn:W.
  - assert (E : JsStr.trimmed (Js.chars nameValue) = []) by (apply T; reflexivity).
    rewrite E. cbn. rewrite andb_false_r. split; discriminate.
  - assert (Hne : Js.join (JsStr.trimmed (Js.chars nameValue)) <> "").
    { intro E. apply (join_empty _ N) in E. apply T in E. discriminate E. }
    apply L in Hne.
    assert (Hs : String.eqb nameValue "" = false).
    { apply String.eqb_neq. intros ->. discriminate W. }
    rewrite Hs. cbn [negb andb].
    split; [reflexivity|]. intros _. apply Nat.ltb_lt. lia.
Qed.

(** X11: the name field never triggers the route's 400: a request is sent
    exactly for a name with a character that is not white space (any of
    the white-space and line-terminator characters [trim] removes, the
    no-break space among them), and then the route answers 200.
    When the upstream request fails, the Hindi name is left as it was (the
    English name is not filled in); when the upstream answer parses but
    does not start with SUCCESS, the Hindi name becomes the typed name; a
    successful answer puts its first candidate there. A blank name clears
    the Hindi name without any request. The certificate's request for the
    state and district names behaves alike: never a 400, and the shown
    name is kept when the upstream fails. *)
Theorem name_request_is_never_rejected
    (nameValue : string) (name_hi : value) (up : Upstream) :
  (NameEffect.sends nameValue = true <->
   forallb Js.isWhite (Js.chars nameValue) = false)
  /\ (NameEffect.sends nameValue = false ->
      NameEffect.onType nameValue name_hi = Some (jstr ""))
  /\ (NameEffect.sends nameValue = true ->
      (exists v, POST (request_with_text nameValue) up
                 = response 200 (transliteration_body v))
      /\ ((forall data, up <> up_json data) ->
          NameEffect.onAnswer nameValue name_hi
            (NameEffect.answered (POST (request_with_text nameValue) up))
          = name_hi)
      /\ (forall data,
            up = up_json data -> index data 0 <> Some (jstr "SUCCESS") ->
            NameEffect.onAnswer nameValue name_hi
              (NameEffect.answered (POST (request_with_text nameValue) up))
            = Some (jstr nameValue))
      /\ (forall cw rw more meta,
            up = up_json (googleSuccess nameValue (String cw rw) more meta) ->
            NameEffect.onAnswer nameValue name_hi
              (NameEffect.answered (POST (request_with_text nameValue) up))
            = Some (jstr (String cw rw))))
  /\ (NameEffect.certSends nameValue = true ->
      (exists v, POST (request_with_text nameValue) up
                 = response 200 (transliteration_body v))
      /\ ((forall data, up <> up_json data) ->
          NameEffect.certOnAnswer name_hi
            (NameEffect.answered (POST (request_with_text nameValue) up))
          = name_hi)).
Proof.
  assert (Hthrow : forall c r, (forall data, up <> up_json data) ->
                     POST (request_with_text (String c r)) up = emptyAnswer).
  { intros c r Hup. apply fallback_after_throw; [reflexivity|].
    destruct up as [| | |data]; try reflexivity.
    exfalso. apply (Hup data). reflexivity. }
  assert (Hok : forall c r, exists v,
                  POST (request_with_text (String c r)) up
                  = response 200 (transliteration_body v)).
  { intros c r. destruct up as [| | |data].
    - eexists. apply (fallback_after_throw (request_with_text (String c r)) up_rejected);
        reflexivity.
    - eexists. apply (fallback_after_throw (request_with_text (String c r)) (up_not_ok status));
        reflexivity.
    - eexists. apply (fallback_after_throw (request_with_text (String c r)) up_unparseable);
        reflexivity.
    - apply route_parsed. }
  split; [apply sends_iff|]. split; [|split].
  - intro H. unfold NameEffect.onType. rewrite H. reflexivity.
  - intro Hs.
    destruct nameValue as [|c r]; [discriminate Hs|].
    split; [apply Hok|]. split; [|split].
    + intro Hup. rewrite (Hthrow c r Hup). reflexivity.
    + intros data -> Hne. rewrite (route_echo c r data Hne). reflexivity.
    + intros cw rw more meta ->. reflexivity.
  - intro Hs.
    destruct nameValue as [|c r]; [discriminate Hs|].
    split; [apply Hok|].
    intro Hup. rewrite (Hthrow c r Hup). reflexivity.
Qed.

End RouteFacts.

Lemma route_always_answers_witness :
  Transliterate.bodyUsed (Transliterate.request_with_text "ram") = false
  /\ Transliterate.POST (Transliterate.request_with_text "ram") Transliterate.up_unparseable
     = emptyAnswer.
Proof.
  split; [reflexivity|].
  destruct (route_always_answers (Transliterate.request_with_text "ram")
              Transliterate.up_unparseable eq_refl)
    as [(_ & H) | [(H & _) | (data & v & H & _)]].
  - exact H.
  - discriminate H.
  - discriminate H.
Defined.

(** A name of no-break spaces is blank: nothing is sent and the Hindi
    name is cleared. *)
Example blank_name_sends_nothing :
  let blank := String.append (Js.utf8 160) (String.append " " (Js.utf8 8239)) in
  NameEffect.sends blank = false
  /\ NameEffect.onType blank (Some (Transliterate.jstr "previous"))
     = Some (Transliterate.jstr "").
Proof. split; reflexivity. Qed.

Lemma name_request_is_never_rejected_witness :
  NameEffect.sends " Asha " = true
  /\ NameEffect.onAnswer " Asha " (Some (Transliterate.jstr "previous"))
       (NameEffect.answered
          (Transliterate.POST (Transliterate.request_with_text " Asha ")
             (Transliterate.up_not_ok 503)))
     = Some (Transliterate.jstr "previous").
Proof.
  assert (Hs : NameEffect.sends " Asha " = true) by reflexivity.
  split; [exact Hs|].
  destruct (name_request_is_never_rejected " Asha "
              (Some (Transliterate.jstr "previous")) (Transliterate.up_not_ok 503))
    as (_ & _ & H & _).
  destruct (H Hs) as (_ & Hkeep & _).
  apply Hkeep. intros data Hd. discriminate Hd.
Defined.

(** ** The Hindi date of the certificate *)

Section HindiDateFacts.

Import HindiDate.

Lemma hasAsciiDigit_app (a b : string) :
  hasAsciiDigit (String.append a b) = (hasAsciiDigit a || hasAsciiDigit b)%bool.
Proof.
  unfold hasAsciiDigit.
  induction a as [|c a IH]; [reflexivity|].
  cbn [String.append list_ascii_of_string existsb]. rewrite IH.
  apply orb_assoc.
Qed.

(** A single character, mapped: no ASCII digit is left. *)
Lemma digit_no_ascii_digit (c : ascii) : hasAsciiDigit (digit c) = false.
Proof. destruct c as [[] [] [] [] [] [] [] []]; reflexivity. Qed.

Lemma digit_not_empty (c : ascii) : digit c <> "".
Proof. destruct c as [[] [] [] [] [] [] [] []]; discriminate. Qed.

Lemma toDevanagari_app (a b : string) :
  toDevanagari (String.append a b)
  = String.append (toDevanagari a) (toDevanagari b).
Proof.
  induction a as [|c a IH]; [reflexivity|].
  cbn [String.append toDevanagari]. rewrite IH.
  generalize (digit c) as d. intro d.
  induction d as [|x d IHd]; [reflexivity|].
  cbn [String.append]. rewrite IHd. reflexivity.
Qed.

Lemma toDevanagari_no_ascii_digit (s : string) :
  hasAsciiDigit (toDevanagari s) = false.
Proof.
  induction s as [|c r IH]; [reflexivity|].
  cbn [toDevanagari]. rewrite hasAsciiDigit_app, digit_no_ascii_digit, IH.
  reflexivity.
Qed.

Lemma toDevanagari_not_empty (s : string) : s <> "" -> toDevanagari s <> "".
Proof.
  destruct s as [|c r]; [contradiction|]. intros _.
  cbn [toDevanagari]. pose proof (digit_not_empty c) as H.
  destruct (digit c); [contradiction|discriminate].
Qed.

Lemma String_of_not_empty (z : Z) : Js.String_of z <> "".
Proof.
  unfold Js.String_of. destruct (Z.to_int z) as [u|u]; cbn.
  - destruct u; discriminate.
  - discriminate.
Qed.

Lemma eqb_empty (s : string) : s <> "" -> String.eqb s "" = false.
Proof. intro H. apply String.eqb_neq. exact H. Qed.

Variable parseDate : string -> option Parts.

(** X12: a date string the engine cannot parse comes back unchanged; a
    date it can parse is written as day, Hindi month name and year with
    every ASCII digit replaced by its Devanagari digit: each of the twelve
    English month names is in the table, and no ASCII digit is left in the
    result. Replacing digits distributes over concatenation. *)
Theorem formatDateHindi_cases (dateString : string) :
  (parseDate dateString = None ->
   formatDateHindi parseDate dateString = dateString)
  /\ (forall p, parseDate dateString = Some p ->
        exists hindiMonth,
          lookupMonth (monthName (month p)) = Some hindiMonth
          /\ formatDateHindi parseDate dateString
             = String.append (toDevanagari (Js.String_of (day p)))
                 (String.append " "
                    (String.append hindiMonth
                       (String.append ", " (toDevanagari (Js.String_of (year p))))))
          /\ hasAsciiDigit (formatDateHindi parseDate dateString) = false)
  /\ (forall a b, toDevanagari (String.append a b)
                  = String.append (toDevanagari a) (toDevanagari b)).
Proof.
  split; [|split].
  - intro H. unfold formatDateHindi. rewrite H. reflexivity.
  - intros p H. unfold formatDateHindi. rewrite H.
    pose proof (toDevanagari_not_empty _ (String_of_not_empty (day p))) as Hd.
    pose proof (toDevanagari_not_empty _ (String_of_not_empty (year p))) as Hy.
    assert (Hm : exists hm, lookupMonth (monthName (month p)) = Some hm
                            /\ hm <> "" /\ hasAsciiDigit hm = false).
    { destruct (month p); eexists; (split; [reflexivity|]);
        (split; [discriminate|reflexivity]). }
    destruct Hm as (hm & Hl & Hne & Hnd).
    exists hm. rewrite Hl, (eqb_empty _ Hne), (eqb_empty _ Hd), (eqb_empty _ Hy).
    cbn [negb andb].
    split; [reflexivity|]. split; [reflexivity|].
    rewrite !hasAsciiDigit_app, !toDevanagari_no_ascii_digit, Hnd. reflexivity.
  - exact toDevanagari_app.
Qed.

End HindiDateFacts.

Lemma formatDateHindi_cases_witness :
  let parseDate := fun s : string =>
    if String.eqb s "November 2, 2026"
    then Some {| HindiDate.day := 2; HindiDate.month := HindiDate.November;
                 HindiDate.year := 2026 |}
    else None in
  parseDate "soon" = None
  /\ HindiDate.formatDateHindi parseDate "soon" = "soon"
  /\ HindiDate.formatDateHindi parseDate "November 2, 2026" = "२ नवंबर, २०२६".
Proof.
  intro parseDate.
  destruct (formatDateHindi_cases parseDate "soon") as (H1 & _).
  destruct (formatDateHindi_cases parseDate "November 2, 2026") as (_ & H2 & _).
  split; [reflexivity|]. split; [apply H1; reflexivity|].
  destruct (H2 {| HindiDate.day := 2; HindiDate.month := HindiDate.November;
                  HindiDate.year := 2026 |} eq_refl) as (hm & Hl & Hf & _).
  rewrite Hf. cbn in Hl. injection Hl as <-. reflexivity.
Defined.

(** ** The keep-alive route *)

Section KeepAliveFacts.

Variable env : KeepAlive.Env.
Variable database : string -> string -> KeepAlive.Db.

Lemma selectSupabaseKey_first :
  option_map fst (KeepAlive.selectSupabaseKey env) = hd_error (usableKeys env).
Proof.
  unfold KeepAlive.selectSupabaseKey, usableKeys. cbn [flat_map].
  destruct (KeepAlive.truthy (KeepAlive.supabaseSecretKey env)); [reflexivity|].
  destruct (KeepAlive.truthy (KeepAlive.supabaseServiceKey env)); [reflexivity|].
  destruct (KeepAlive.truthy (KeepAlive.supabasePublishableKey env)); [reflexivity|].
  destruct (KeepAlive.truthy (KeepAlive.supabaseAnonKey env)); reflexivity.
Qed.

(** X13: with a cron secret set, a request whose authorization header is
    not exactly "Bearer " followed by the secret is answered 401 and no
    database client is created; with no secret (unset or empty) every
    request passes the check. A request that passes reaches the database
    exactly when the URL and at least one key are set, and the client is
    then created with the first usable key in the order secret, service
    role, publishable, anon. The answer is 200 exactly when the request is
    authorized, that client exists and the count query succeeds. *)
Theorem keep_alive_gate (authorization : option string) :
  (~ authorized env authorization ->
   KeepAlive.GET env database authorization = (KeepAlive.unauthorized, None))
  /\ (authorized env authorization ->
      snd (KeepAlive.GET env database authorization)
      = match KeepAlive.truthy (KeepAlive.supabaseUrl env), hd_error (usableKeys env) with
        | Some url, Some key => Some (url, key)
        | _, _ => None
        end)
  /\ (KeepAlive.status (fst (KeepAlive.GET env database authorization)) = 200 <->
      authorized env authorization
      /\ exists url key count,
           KeepAlive.truthy (KeepAlive.supabaseUrl env) = Some url
           /\ hd_error (usableKeys env) = Some key
           /\ database url key = KeepAlive.query_ok count).
Proof.
  rewrite <- selectSupabaseKey_first.
  unfold KeepAlive.GET, authorized.
  destruct (KeepAlive.truthy (KeepAlive.cronSecret env)) as [secret|].
  - destruct authorization as [h|].
    + destruct (String.eqb h (String.append "Bearer " secret)) eqn:E; cbn [negb].
      * apply String.eqb_eq in E. subst h.
        split; [intro H; exfalso; apply H; reflexivity|].
        destruct (KeepAlive.truthy (KeepAlive.supabaseUrl env)) as [url|].
        -- destruct (KeepAlive.selectSupabaseKey env) as [[key ty]|]; cbn.
           ++ split; [intros _; destruct (database url key); reflexivity|].
              destruct (database url key) eqn:D; cbn; split;
                try discriminate; try (intros (_ & u & k & c & Hu & Hk & Hd);
                  injection Hu as <-; injection Hk as <-; congruence).
              intros _. split; [reflexivity|]. exists url, key, count. tauto.
           ++ split; [reflexivity|]. split; [discriminate|].
              intros (_ & u & k & c & _ & Hk & _). discriminate Hk.
        -- cbn. split; [intros _; destruct (option_map fst (KeepAlive.selectSupabaseKey env)); reflexivity|].
           split; [discriminate|].
           intros (_ & u & k & c & Hu & _). discriminate Hu.
      * apply String.eqb_neq in E.
        split; [reflexivity|]. split; [intro H; exfalso; congruence|].
        cbn [fst KeepAlive.status]. split; [discriminate|].
        intros (H & _). congruence.
    + split; [reflexivity|]. split; [discriminate|].
      cbn [fst KeepAlive.status]. split; [discriminate|].
      intros (H & _). discriminate H.
  - split; [intro H; exfalso; apply H; exact I|].
    destruct (KeepAlive.truthy (KeepAlive.supabaseUrl env)) as [url|].
    + destruct (KeepAlive.selectSupabaseKey env) as [[key ty]|]; cbn.
      * split; [intros _; destruct (database url key); reflexivity|].
        destruct (database url key) eqn:D; cbn; split;
          try discriminate; try (intros (_ & u & k & c & Hu & Hk & Hd);
            injection Hu as <-; injection Hk as <-; congruence).
        intros _. split; [exact I|]. exists url, key, count. tauto.
      * split; [reflexivity|]. split; [discriminate|].
        intros (_ & u & k & c & _ & Hk & _). discriminate Hk.
    + cbn. split; [intros _; destruct (option_map fst (KeepAlive.selectSupabaseKey env)); reflexivity|].
      split; [discriminate|].
      intros (_ & u & k & c & Hu & _). discriminate Hu.
Qed.

End KeepAliveFacts.

Lemma keep_alive_gate_witness :
  let env :=
    {| KeepAlive.supabaseUrl := Some "https://project.supabase.co";
       KeepAlive.supabaseServiceKey := Some "service";
       KeepAlive.supabaseAnonKey := Some "anon";
       KeepAlive.supabaseSecretKey := Some "";
       KeepAlive.supabasePublishableKey := None;
       KeepAlive.cronSecret := Some "s3cret" |} in
  let database := fun _ _ : string => KeepAlive.query_ok (Some 7) in
  ~ authorized env (Some "Bearer wrong")
  /\ KeepAlive.GET env database (Some "Bearer wrong") = (KeepAlive.unauthorized, None)
  /\ authorized env (Some "Bearer s3cret")
  /\ snd (KeepAlive.GET env database (Some "Bearer s3cret"))
     = Some ("https://project.supabase.co", "service").
Proof.
  intros env database.
  assert (Hno : ~ authorized env (Some "Bearer wrong")) by (cbn; discriminate).
  assert (Hyes : authorized env (Some "Bearer s3cret")) by reflexivity.
  destruct (keep_alive_gate env database (Some "Bearer wrong")) as (H1 & _).
  destruct (keep_alive_gate env database (Some "Bearer s3cret")) as (_ & H2 & _).
  split; [exact Hno|]. split; [exact (H1 Hno)|]. split; [exact Hyes|].
  exact (H2 Hyes).
Defined.

(** ** The log route and the toast of the Results step *)

Section LogHandlerFacts.

Variable env : LogHandler.Env.
Variable clientAccepts : string -> string -> bool.
Variable insert : LogRoute.DbRow -> LogHandler.Insert.

Local Abbreviation serve := (LogHandler.serve env clientAccepts insert).

Lemma load_present (client : string * string) :
  LogHandler.load env clientAccepts = Some client ->
  LogHandler.present (LogHandler.supabaseUrl env) = true
  /\ LogHandler.present (LogHandler.supabaseServiceKey env) = true.
Proof.
  unfold LogHandler.load.
  destruct (LogHandler.supabaseUrl env) as [[|c r]|]; try discriminate.
  destruct (LogHandler.supabaseServiceKey env) as [[|c' r']|]; try discriminate.
  intros _. split; reflexivity.
Qed.


End LogHandlerFacts.


(** ** The certificate page *)

Section CertificatePageFacts.

Variable JSON_parse : string -> CertificatePage.Parse.
Variable JSON_stringify : CertificateData -> string.
Variable getFinalFeedback : Js.number -> Language -> string.
Variable getFinalAssessment : string -> Language -> string.
Variable today : string.

Local Abbreviation load := (CertificatePage.load JSON_parse).
Local Abbreviation store := (CertificatePage.store JSON_stringify).

(** X15: the certificate page reads the key the Results step writes. When
    the Results step could write, and the written text is not empty and
    parses back to the data, the page shows the certificate of exactly
    that data and does not redirect. When the write threw, the storage is
    as it was, so the page shows whatever certificate was stored before.
    With nothing stored, or an empty or unparseable item, the page
    redirects home and shows the skeleton; with an item that parses to a
    falsy value it shows the skeleton and does not redirect. *)
Theorem certificate_page_shows_what_results_stored
    (p : ResultsStep.Props) (storage : CertificatePage.Storage) :
  let d := ResultsStep.certificateData getFinalFeedback getFinalAssessment today p in
  let effects storageThrows :=
    snd (ResultsStep.effect getFinalFeedback getFinalAssessment today
           storageThrows p false) in
  (JSON_stringify d <> "" ->
   JSON_parse (JSON_stringify d) = CertificatePage.parse_data d ->
   CertificatePage.view (fst (load (store (effects false) storage)
                                CertificatePage.initial))
   = CertificatePage.CertificateView d
   /\ snd (load (store (effects false) storage) CertificatePage.initial) = [])
  /\ store (effects true) storage = storage
  /\ (match storage "anandakAssessmentCertificate" with
      | Some (String c r) => JSON_parse (String c r) = CertificatePage.parse_throws
      | _ => True
      end ->
      CertificatePage.view (fst (load storage CertificatePage.initial))
      = CertificatePage.CertificateSkeleton
      /\ In (CertificatePage.router_replace "/")
           (snd (load storage CertificatePage.initial)))
  /\ (forall c r,
        storage "anandakAssessmentCertificate" = Some (String c r) ->
        JSON_parse (String c r) = CertificatePage.parse_falsy ->
        CertificatePage.view (fst (load storage CertificatePage.initial))
        = CertificatePage.CertificateSkeleton
        /\ snd (load storage CertificatePage.initial) = []).
Proof.
  intros d effects. subst effects. cbn beta.
  split; [|split; [|split]].
  - intros Hne Hparse.
    unfold ResultsStep.effect. cbn [snd app CertificatePage.store].
    unfold CertificatePage.load, CertificatePage.setItem.
    cbn [String.eqb Ascii.eqb Bool.eqb].
    fold d. destruct (JSON_stringify d) as [|c r] eqn:E; [contradiction|].
    rewrite Hparse. split; reflexivity.
  - reflexivity.
  - intro H. unfold CertificatePage.load.
    destruct (storage "anandakAssessmentCertificate") as [[|c r]|].
    + split; [reflexivity|left; reflexivity].
    + rewrite H. split; [reflexivity|right; left; reflexivity].
    + split; [reflexivity|left; reflexivity].
  - intros c r Hs Hp. unfold CertificatePage.load. rewrite Hs, Hp.
    split; reflexivity.
Qed.

End CertificatePageFacts.

Lemma certificate_page_shows_what_results_stored_witness :
  let stringify := fun d : CertificateData => c_date d in
  let parse := fun s : string =>
    if String.eqb s "November 2, 2026"
    then CertificatePage.parse_data
           (ResultsStep.certificateData Fixture.getFinalFeedback
              Fixture.getFinalAssessment "November 2, 2026" Fixture.resultsProps)
    else CertificatePage.parse_throws in
  CertificatePage.view
    (fst (CertificatePage.load parse
            (CertificatePage.store stringify
               (snd (ResultsStep.effect Fixture.getFinalFeedback
                       Fixture.getFinalAssessment "November 2, 2026" false
                       Fixture.resultsProps false))
               CertificatePage.emptyStorage)
            CertificatePage.initial))
  = CertificatePage.CertificateView
      (ResultsStep.certificateData Fixture.getFinalFeedback
         Fixture.getFinalAssessment "November 2, 2026" Fixture.resultsProps).
Proof.
  intros stringify parse.
  destruct (certificate_page_shows_what_results_stored parse stringify
              Fixture.getFinalFeedback Fixture.getFinalAssessment
              "November 2, 2026" Fixture.resultsProps CertificatePage.emptyStorage)
    as (H & _).
  apply H; [discriminate|reflexivity].
Defined.

(** ** Printing the certificate *)

Lemma hasClass_app (c : string) (a b : list string) :
  CertificatePage.hasClass c (a ++ b)
  = (CertificatePage.hasClass c a || CertificatePage.hasClass c b)%bool.
Proof. unfold CertificatePage.hasClass. apply existsb_app. Qed.

Lemma removeClass_absent (c : string) (classes : list string) :
  CertificatePage.hasClass c classes = false ->
  CertificatePage.removeClass c classes = classes.
Proof.
  unfold CertificatePage.hasClass, CertificatePage.removeClass.
  induction classes as [|x classes IH]; [reflexivity|].
  cbn [existsb filter]. intro H. apply orb_false_elim in H. destruct H as (H1 & H2).
  rewrite H1. cbn [negb]. rewrite (IH H2). reflexivity.
Qed.

Lemma removeClass_added (c : string) (classes : list string) :
  CertificatePage.hasClass c classes = false ->
  CertificatePage.removeClass c (CertificatePage.addClass c classes) = classes.
Proof.
  intro H. unfold CertificatePage.addClass. rewrite H.
  unfold CertificatePage.removeClass. rewrite filter_app.
  fold (CertificatePage.removeClass c classes). rewrite (removeClass_absent c classes H).
  cbn [filter]. rewrite String.eqb_refl. cbn [negb]. apply app_nil_r.
Qed.

(** Under the class of one print mode the style sheet shows the pages of
    that mode. *)
Lemma visible_printed (mode : Certificate.PrintMode) (classes : list string)
    (pages : list Certificate.Page) :
  noPrintClass classes ->
  CertificatePage.visible
    (CertificatePage.addClass (CertificatePage.modeClass mode) classes) pages
  = Certificate.printed mode pages.
Proof.
  intro H. unfold CertificatePage.visible, Certificate.printed.
  apply filter_ext. intro pg.
  unfold CertificatePage.addClass. rewrite (H mode).
  rewrite !hasClass_app.
  pose proof (H Certificate.print_en) as Hen.
  pose proof (H Certificate.print_hi) as Hhi.
  cbn [CertificatePage.modeClass] in Hen, Hhi. rewrite Hen, Hhi.
  destruct mode, (Certificate.page_lang pg); reflexivity.
Qed.

Lemma handlePrint_clean (mode : Certificate.PrintMode)
    (pages : list Certificate.Page) (w : CertificatePage.Window) :
  CertificatePage.listeners w = [] ->
  noPrintClass (CertificatePage.classList w) ->
  CertificatePage.handlePrint mode pages w
  = ({| CertificatePage.classList := CertificatePage.classList w;
        CertificatePage.listeners := [];
        CertificatePage.calls := S (CertificatePage.calls w) |},
     Certificate.printed mode pages).
Proof.
  intros Hl Hc.
  unfold CertificatePage.handlePrint, CertificatePage.print, CertificatePage.fire.
  rewrite Hl. cbn.
  unfold CertificatePage.sameListener. cbn. rewrite !Nat.eqb_refl. cbn.
  unfold CertificatePage.sameListener. cbn. rewrite !Nat.eqb_refl. cbn.
  pose proof (removeClass_added _ _ (Hc mode)) as R.
  unfold CertificatePage.removeClass in R. rewrite R.
  rewrite (visible_printed mode _ pages Hc). reflexivity.
Qed.

(** X16: print modes do not leak from one printout to the next. On a page
    whose body carries no print-mode class and with no print listener
    registered, pressing the print buttons in any order prints, each time,
    exactly the pages of the mode pressed (both pages, the English page or
    the Hindi page), and afterwards the body's classes are as before and
    no listener is left registered. *)
Theorem print_modes_do_not_leak (modes : list Certificate.PrintMode)
    (pages : list Certificate.Page) (w : CertificatePage.Window) :
  CertificatePage.listeners w = [] ->
  noPrintClass (CertificatePage.classList w) ->
  snd (CertificatePage.printAll modes pages w)
  = map (fun mode => Certificate.printed mode pages) modes
  /\ CertificatePage.classList (fst (CertificatePage.printAll modes pages w))
     = CertificatePage.classList w
  /\ CertificatePage.listeners (fst (CertificatePage.printAll modes pages w)) = [].
Proof.
  revert w. induction modes as [|m modes IH]; intros w Hl Hc.
  - cbn. repeat split. exact Hl.
  - cbn [CertificatePage.printAll map].
    rewrite (handlePrint_clean m pages w Hl Hc).
    match goal with
    | |- context [CertificatePage.printAll modes pages ?w1] =>
        destruct (IH w1 eq_refl Hc) as (I1 & I2 & I3);
        destruct (CertificatePage.printAll modes pages w1) as [w2 outs]
    end.
    cbn [fst snd] in *. rewrite I1. repeat split; assumption.
Qed.

Lemma print_modes_do_not_leak_witness :
  noPrintClass (CertificatePage.classList CertificatePage.freshWindow)
  /\ map (map Certificate.page_lang)
       (snd (CertificatePage.printAll
               [Certificate.print_en; Certificate.print_all; Certificate.print_hi]
               (fst (Certificate.Certificate Fixture.translations
                       Fixture.getIndividualFeedback Fixture.certificate))
               CertificatePage.freshWindow))
     = [[en]; [en; hi]; [hi]].
Proof.
  assert (H : noPrintClass (CertificatePage.classList CertificatePage.freshWindow))
    by (intros []; reflexivity).
  split; [exact H|].
  destruct (print_modes_do_not_leak
              [Certificate.print_en; Certificate.print_all; Certificate.print_hi]
              (fst (Certificate.Certificate Fixture.translations
                      Fixture.getIndividualFeedback Fixture.certificate))
              CertificatePage.freshWindow eq_refl H) as (Hout & _).
  rewrite Hout. reflexivity.
Defined.

(** ** The wizard invariants on a whole session *)

Lemma wizard_never_throws_witness :
  Fixture.questions <> []
  /\ ~ In uncaught_error
         (snd (App.run Fixture.questions Fixture.translations
                 Fixture.getIndividualFeedback Fixture.getFinalFeedback
                 Fixture.getFinalAssessment Fixture.is_email
                 Fixture.statesWithDistricts "November 2, 2026" false
                 App.initial
                 (App.next :: App.optionChange "7" :: Fixture.fullSession hi [1; 2; 3; 3; 2; 1]))).
Proof.
  assert (H : Fixture.questions <> []) by discriminate.
  split; [exact H|].
  apply (wizard_never_throws Fixture.questions Fixture.translations
           Fixture.getIndividualFeedback Fixture.getFinalFeedback
           Fixture.getFinalAssessment Fixture.is_email
           Fixture.statesWithDistricts "November 2, 2026" false H).
Defined.

Lemma results_hold_one_answer_per_question_witness :
  Fixture.questions <> []
  /\ App.step
       (fst (App.run Fixture.questions Fixture.translations
               Fixture.getIndividualFeedback Fixture.getFinalFeedback
               Fixture.getFinalAssessment Fixture.is_email
               Fixture.statesWithDistricts "November 2, 2026" false
               App.initial (Fixture.fullSession hi [1; 2; 3; 3; 2; 1]))) = App.results
  /\ exists p,
       App.resultsProps
         (fst (App.run Fixture.questions Fixture.translations
                 Fixture.getIndividualFeedback Fixture.getFinalFeedback
                 Fixture.getFinalAssessment Fixture.is_email
                 Fixture.statesWithDistricts "November 2, 2026" false
                 App.initial (Fixture.fullSession hi [1; 2; 3; 3; 2; 1]))) = Some p
       /\ map answerKey (ResultsStep.p_assessmentData p)
          = map questionKey Fixture.questions.
Proof.
  assert (H : Fixture.questions <> []) by discriminate.
  assert (Hres :
    App.step
      (fst (App.run Fixture.questions Fixture.translations
              Fixture.getIndividualFeedback Fixture.getFinalFeedback
              Fixture.getFinalAssessment Fixture.is_email
              Fixture.statesWithDistricts "November 2, 2026" false
              App.initial (Fixture.fullSession hi [1; 2; 3; 3; 2; 1]))) = App.results)
    by (vm_compute; reflexivity).
  split; [exact H|]. split; [exact Hres|].
  destruct (results_hold_one_answer_per_question Fixture.questions
              Fixture.translations Fixture.getIndividualFeedback
              Fixture.getFinalFeedback Fixture.getFinalAssessment Fixture.is_email
              Fixture.statesWithDistricts "November 2, 2026" false H
              (Fixture.fullSession hi [1; 2; 3; 3; 2; 1]) Hres)
    as (p & H1 & H2 & _).
  exists p. split; [exact H1|exact H2].
Defined.

Lemma steps_never_go_back_witness :
  App.step Fixture.atResults = App.results
  /\ App.step
       (fst (App.run Fixture.questions Fixture.translations
               Fixture.getIndividualFeedback Fixture.getFinalFeedback
               Fixture.getFinalAssessment Fixture.is_email
               Fixture.statesWithDistricts "November 2, 2026" false
               Fixture.atResults
               [App.selectLanguage hi; App.formSubmit; App.rerender; App.next]))
     = App.results.
Proof.
  split; [reflexivity|].
  destruct (steps_never_go_back Fixture.questions Fixture.translations
              Fixture.getIndividualFeedback Fixture.getFinalFeedback
              Fixture.getFinalAssessment Fixture.is_email
              Fixture.statesWithDistricts "November 2, 2026" false
              Fixture.atResults
              [App.selectLanguage hi; App.formSubmit; App.rerender; App.next])
    as (_ & H).
  apply H. reflexivity.
Defined.

(** ** Scores through the radio buttons *)

Lemma digits_uint (u : Decimal.uint) :
  forall (acc : Z) (seen : bool),
  u <> Decimal.Nil \/ seen = true ->
  Js.digits (NilEmpty.string_of_uint u) acc seen = Some (decimalValue u acc).
Proof.
  induction u; intros acc seen H;
    try (cbn [NilEmpty.string_of_uint Js.digits decimalValue];
         change (Js.digit_of "0"%char) with (Some 0);
         change (Js.digit_of "1"%char) with (Some 1);
         change (Js.digit_of "2"%char) with (Some 2);
         change (Js.digit_of "3"%char) with (Some 3);
         change (Js.digit_of "4"%char) with (Some 4);
         change (Js.digit_of "5"%char) with (Some 5);
         change (Js.digit_of "6"%char) with (Some 6);
         change (Js.digit_of "7"%char) with (Some 7);
         change (Js.digit_of "8"%char) with (Some 8);
         change (Js.digit_of "9"%char) with (Some 9);
         cbv iota; apply IHu; right; reflexivity).
  destruct H as [H | ->]; [contradiction|reflexivity].
Qed.

Lemma decimalValue_pos (u : Decimal.uint) :
  forall p : positive, decimalValue u (Z.pos p) = Z.pos (Pos.of_uint_acc u p).
Proof.
  induction u; intro p; cbn [decimalValue Pos.of_uint_acc];
    try reflexivity; rewrite <- IHu; f_equal; lia.
Qed.

Lemma decimalValue_zero (u : Decimal.uint) : decimalValue u 0 = Z.of_uint u.
Proof.
  unfold Z.of_uint.
  induction u; cbn [decimalValue Pos.of_uint Z.of_N]; try reflexivity;
    try (exact IHu); cbn [Z.mul Z.add]; apply decimalValue_pos.
Qed.

Lemma parseInt_digit_first (c : ascii) (r : string) (d : Z) :
  Js.digit_of c = Some d ->
  Js.parseInt (String c r)
  = match Js.digits (String c r) 0 false with
    | Some v => Js.Num v
    | None => Js.NaN
    end.
Proof.
  intro H. unfold Js.parseInt.
  assert (K : Js.continues c = false /\ Js.startsWhite c = false
              /\ c <> "-"%char /\ c <> "+"%char).
  { destruct c as [[] [] [] [] [] [] [] []]; try discriminate H;
      repeat split; try reflexivity; discriminate. }
  destruct K as (K1 & K2 & K3 & K4).
  rewrite (skip_white_keeps c r K1 K2).
  destruct c as [[] [] [] [] [] [] [] []]; try reflexivity; congruence.
Qed.

Lemma parseInt_minus (r : string) :
  Js.parseInt (String "-" r)
  = match Js.digits r 0 false with
    | Some v => Js.Num (- v)
    | None => Js.NaN
    end.
Proof.
  unfold Js.parseInt.
  rewrite (skip_white_keeps "-" r eq_refl eq_refl). reflexivity.
Qed.

Lemma parseInt_uint (u : Decimal.uint) :
  Js.parseInt (NilZero.string_of_uint u) = Js.Num (Z.of_uint u).
Proof.
  assert (H : u <> Decimal.Nil ->
              Js.parseInt (NilEmpty.string_of_uint u) = Js.Num (Z.of_uint u)).
  { intro Hne. pose proof (digits_uint u 0 false (or_introl Hne)) as D.
    rewrite decimalValue_zero in D.
    destruct u; try contradiction;
      cbn [NilEmpty.string_of_uint] in D |- *;
      (erewrite parseInt_digit_first; [rewrite D; reflexivity|reflexivity]). }
  destruct u; try (apply H; discriminate). reflexivity.
Qed.

Lemma digits_uint_zero (u : Decimal.uint) :
  Js.digits (NilZero.string_of_uint u) 0 false = Some (Z.of_uint u).
Proof.
  destruct u; try reflexivity;
    rewrite <- decimalValue_zero;
    apply (digits_uint _ 0 false); left; discriminate.
Qed.

(** The digits [String_of] writes are the digits [parseInt] reads back. *)
Lemma parseInt_String_of (z : Z) : Js.parseInt (Js.String_of z) = Js.Num z.
Proof.
  unfold Js.String_of.
  rewrite <- (DecimalZ.of_to z) at 2.
  destruct (Z.to_int z) as [u|u]; cbn [NilZero.string_of_int Z.of_int].
  - apply parseInt_uint.
  - rewrite parseInt_minus, digits_uint_zero. reflexivity.
Qed.

Section SelectionFacts.

Variable questions : list Question.
Variable translations : Language -> Translations.
Variable getIndividualFeedback : Trait -> Js.number -> Language -> string.
Variable lang : Language.

(** X17: on a question, the user may change the selection as often as they
    like; nothing is recorded until Next is pressed, and then exactly one
    answer is appended, for the current question and with the score of the
    option selected last. *)
Theorem last_selection_is_recorded
    (values : list string) (v : string) (st : AssessmentStep.State) (q : Question) :
  nth_error questions (AssessmentStep.currentQuestionIndex st) = Some q ->
  exists st1 st2 effs,
    choose questions getIndividualFeedback lang (values ++ [v]) st
    = AssessmentStep.Returned st1 []
    /\ AssessmentStep.answers st1 = AssessmentStep.answers st
    /\ AssessmentStep.handleNext questions translations getIndividualFeedback lang st1
       = AssessmentStep.Returned st2 effs
    /\ AssessmentStep.answers st2
       = AssessmentStep.answers st
         ++ [{| a_id := id q; a_trait := trait q; a_score := Js.parseInt v;
                a_feedback := getIndividualFeedback (trait q) (Js.parseInt v) en |}].
Proof.
  intro Hq.
  assert (Hsplit : forall st0,
            nth_error questions (AssessmentStep.currentQuestionIndex st0) = Some q ->
            exists st1,
              choose questions getIndividualFeedback lang (values ++ [v]) st0
              = AssessmentStep.Returned st1 []
              /\ AssessmentStep.answers st1 = AssessmentStep.answers st0
              /\ AssessmentStep.currentQuestionIndex st1
                 = AssessmentStep.currentQuestionIndex st0
              /\ AssessmentStep.selectedOption st1 = Some v).
  { induction values as [|x rest IH]; intros st0 Hq0.
    - cbn [app choose]. unfold AssessmentStep.handleOptionChange,
        AssessmentStep.currentQuestion. rewrite Hq0.
      eexists. repeat split.
    - cbn [app choose]. unfold AssessmentStep.handleOptionChange,
        AssessmentStep.currentQuestion. rewrite Hq0.
      match goal with
      | |- context [choose _ _ _ (rest ++ [v]) ?s1] =>
          destruct (IH s1 Hq0) as (s2 & H1 & H2 & H3 & H4)
      end.
      exists s2. repeat split; assumption. }
  destruct (Hsplit st Hq) as (st1 & H1 & H2 & H3 & H4).
  exists st1.
  unfold AssessmentStep.handleNext, AssessmentStep.currentQuestion.
  rewrite H4, H3, Hq, H2.
  destruct (Z.of_nat _ <? _); eexists; eexists;
    (split; [exact H1|]); (split; [reflexivity|]); split; reflexivity.
Qed.

(** X18: the radio button of an option carries [String(option.score)] and
    the handlers read it back with [parseInt]: for every score that is a
    safe integer (of magnitude below 2^53, where [String] prints every
    digit and [parseInt] returns the exact value), selecting the option
    and pressing Next records exactly that score for the current
    question. *)
Theorem option_score_round_trip
    (sc : Z) (st : AssessmentStep.State) (q : Question) :
  Js.safe sc ->
  nth_error questions (AssessmentStep.currentQuestionIndex st) = Some q ->
  exists st' effs,
    AssessmentStep.answer questions translations getIndividualFeedback lang
      (Js.String_of sc) st
    = AssessmentStep.Returned st' effs
    /\ AssessmentStep.answers st'
       = AssessmentStep.answers st
         ++ [{| a_id := id q; a_trait := trait q; a_score := Js.Num sc;
                a_feedback := getIndividualFeedback (trait q) (Js.Num sc) en |}].
Proof.
  intros _ Hq.
  destruct (answer_appends questions translations getIndividualFeedback lang
              (Js.String_of sc) st q Hq) as (st' & effs & H1 & H2).
  exists st', effs. split; [exact H1|].
  rewrite H2, parseInt_String_of. reflexivity.
Qed.

End SelectionFacts.

Lemma last_selection_is_recorded_witness :
  let st := AssessmentStep.beginAssessment AssessmentStep.initial in
  nth_error Fixture.questions (AssessmentStep.currentQuestionIndex st)
  = Some (Fixture.question 1 Gratitude)
  /\ exists st1 st2 effs,
       choose Fixture.questions Fixture.getIndividualFeedback hi ["3"; "1"; "2"] st
       = AssessmentStep.Returned st1 []
       /\ AssessmentStep.handleNext Fixture.questions Fixture.translations
            Fixture.getIndividualFeedback hi st1
          = AssessmentStep.Returned st2 effs
       /\ map a_score (AssessmentStep.answers st2) = [Js.Num 2].
Proof.
  intro st. split; [reflexivity|].
  destruct (last_selection_is_recorded Fixture.questions Fixture.translations
              Fixture.getIndividualFeedback hi ["3"; "1"] "2" st
              (Fixture.question 1 Gratitude) eq_refl)
    as (st1 & st2 & effs & H1 & _ & H3 & H4).
  exists st1, st2, effs. split; [exact H1|]. split; [exact H3|].
  rewrite H4. reflexivity.
Defined.

Lemma option_score_round_trip_witness :
  let st := AssessmentStep.beginAssessment AssessmentStep.initial in
  Js.safe (-12)
  /\ nth_error Fixture.questions (AssessmentStep.currentQuestionIndex st)
     = Some (Fixture.question 1 Gratitude)
  /\ exists st' effs,
       AssessmentStep.answer Fixture.questions Fixture.translations
         Fixture.getIndividualFeedback hi (Js.String_of (-12)) st
       = AssessmentStep.Returned st' effs
       /\ map a_score (AssessmentStep.answers st') = [Js.Num (-12)].
Proof.
  intro st.
  assert (Hsafe : Js.safe (-12)) by (unfold Js.safe; reflexivity).
  split; [exact Hsafe|]. split; [reflexivity|].
  destruct (option_score_round_trip Fixture.questions Fixture.translations
              Fixture.getIndividualFeedback hi (-12) st
              (Fixture.question 1 Gratitude) Hsafe eq_refl)
    as (st' & effs & H1 & H2).
  exists st', effs. split; [exact H1|]. rewrite H2. reflexivity.
Defined.
